(** * The transaction lifecycle controller of the Lyra interface

    A shallow embedding of [useTransaction] and its helpers
    ([extractError], [formatErrorReason], [handleError], [getTimeout],
    [getRawTxGasLimit], [getContractTxGasLimit] and the receipt poller),
    followed by the properties of the design specification that concern
    them.

    Conventions of the embedding.
    - A [BigNumber] is a [Z]; [mul] is exact and [div] truncates towards
      zero ([Z.quot]), as in ethers v5.
    - A JavaScript [number] that takes part in arithmetic is a binary64
      [float]; error codes, which are only compared with [===], are [Z].
    - A string is the sequence of the bytes of its UTF-8 encoding;
      [toLowerCase] maps the characters whose lower case has an ASCII
      letter in it, which is all that the matching of the ASCII patterns
      of the table can observe.
    - Asynchronous code is sequential code in a monad over the state of
      the outside world: the caller's transaction objects (a store
      addressed by reference), the trace of calls made to the
      collaborators, and the counters of the toast factory and of the
      provider.  A computation returns, throws, or stays pending for
      ever (a promise that nobody settles).
    - Console output is not part of the model, nor are the transaction
      name and the metadata bag, which only travel to the reporting
      sinks. *)

From Stdlib Require Import ZArith List Bool Ascii String Floats Lia.
From Stdlib Require Import DecimalString.
Import ListNotations.

Set Warnings "-register-all".

Open Scope string_scope.
Open Scope Z_scope.

(** ** Strings *)

Definition lowerAscii (c : ascii) : ascii :=
  let n := nat_of_ascii c in
  if andb (Nat.leb 65 n) (Nat.leb n 90) then ascii_of_nat (n + 32) else c.

(** The Kelvin sign U+212A, bytes E2 84 AA, and the capital I with a dot
    above U+0130, bytes C4 B0. *)
Definition isKelvinSign (c c1 c2 : ascii) : bool :=
  Ascii.eqb c "226" && Ascii.eqb c1 "132" && Ascii.eqb c2 "170".

Definition isDottedCapitalI (c c1 : ascii) : bool :=
  Ascii.eqb c "196" && Ascii.eqb c1 "176".

(** [s.toLowerCase()], as far as [includes] with an ASCII pattern can
    tell.  Besides A-Z, two characters have an ASCII letter in their
    lower case: the Kelvin sign becomes k, and the capital I with a dot
    above becomes i followed by the combining dot U+0307 (bytes CC 87).
    The lower case of any other character outside ASCII is outside
    ASCII again, and such a character is left as it is. *)
Fixpoint toLowerCase (s : string) : string :=
  match s with
  | EmptyString => EmptyString
  | String c s1 =>
      match s1 with
      | String c1 s2 =>
          if isDottedCapitalI c c1
          then String "i" (String "204" (String "135" (toLowerCase s2)))
          else
            match s2 with
            | String c2 s3 =>
                if isKelvinSign c c1 c2 then String "k" (toLowerCase s3)
                else String (lowerAscii c) (toLowerCase s1)
            | EmptyString => String (lowerAscii c) (toLowerCase s1)
            end
      | EmptyString => String (lowerAscii c) (toLowerCase s1)
      end
  end.

(** [includes s pat] is [s.includes(pat)]. *)
Fixpoint includes (s pat : string) : bool :=
  if prefix pat s then true
  else match s with
       | EmptyString => false
       | String _ s' => includes s' pat
       end.

Definition nonEmpty (s : string) : bool :=
  match s with EmptyString => false | String _ _ => true end.

Definition stringOfZ (z : Z) : string :=
  NilEmpty.string_of_int (Z.to_int z).

(** ** Constants and enumerations *)

Definition DEFAULT_TOAST_INFO_TIMEOUT : Z := 1000 * 5.
Definition DEFAULT_TOAST_ERROR_TIMEOUT : Z := 1000 * 10.
Definition POLL_INTERVAL : Z := 250.

Inductive TransactionErrorReason :=
| NotEnoughFunds
| UserDenied
| NetworkChanged
| RpcError
| TradeSlippage.

Inductive TransactionErrorStage :=
| GasEstimate
| Wallet
| Reverted.

Inductive AppNetwork :=
| Arbitrum
| Optimism
| Ethereum.

(** A network is known to this module by name only; its configuration
    and its resolution to an [AppNetwork] come from the environment. *)
Definition Network := string.

(** ** Errors *)

(** An error code is a number or a string; codes are compared with [===]. *)
Inductive ErrorCode :=
| CodeNum (n : Z)
| CodeStr (s : string).

Definition codeEq (a b : ErrorCode) : bool :=
  match a, b with
  | CodeNum x, CodeNum y => Z.eqb x y
  | CodeStr x, CodeStr y => String.eqb x y
  | _, _ => false
  end.

Definition truthyCode (c : ErrorCode) : bool :=
  match c with
  | CodeNum n => negb (Z.eqb n 0)
  | CodeStr s => nonEmpty s
  end.

(** The [data] field of an error: revert data as a hex string, or an
    envelope object that carries its own [data] field. *)
Inductive ErrorData :=
| DataHex (h : string)
| DataEnvelope (data : option string).

Definition truthyData (d : ErrorData) : bool :=
  match d with
  | DataHex h => nonEmpty h
  | DataEnvelope _ => true
  end.

(** A raw failure, as thrown by the wallet, the provider or a contract:
    an object with optional [code], [message], [data] and a nested
    [error]. *)
Inductive RawError := mkRawError {
  raw_code : option ErrorCode;
  raw_message : option string;
  raw_data : option ErrorData;
  raw_error : option RawError
}.

(** [new Error(message)] *)
Definition newError (message : string) : RawError :=
  mkRawError None (Some message) None None.

Record ErrorDescription := { ed_name : string }.

Record TransactionError := {
  te_code : option ErrorCode;
  te_message : option string;
  te_data : option ErrorData;
  te_description : option ErrorDescription;
  te_reason : option TransactionErrorReason
}.

Record ErrorPattern := {
  p_message : option string;
  p_code : option ErrorCode;
  p_name : option string
}.

Definition byMessage (m : string) : ErrorPattern :=
  {| p_message := Some m; p_code := None; p_name := None |}.
Definition byCode (c : ErrorCode) : ErrorPattern :=
  {| p_message := None; p_code := Some c; p_name := None |}.
Definition byName (n : string) : ErrorPattern :=
  {| p_message := None; p_code := None; p_name := Some n |}.

(** The table, in the insertion order of the object literal, which is
    the order in which [Object.entries] lists it. *)
Definition TX_ERROR_PATTERNS : list (TransactionErrorReason * list ErrorPattern) :=
  [ (TradeSlippage, [ byName "TotalCostOutsideOfSpecifiedBounds" ]);
    (UserDenied,
      [ byMessage "User denied transaction signature";
        byMessage "User rejected transaction";
        byMessage "Cannot set properties of undefined (setting 'loadingDefaults')";
        byCode (CodeStr "ACTION_REJECTED");
        byCode (CodeNum 4001) ]);
    (NotEnoughFunds,
      [ byMessage "Not enough funds for gas";
        byMessage "Failed to execute call with revert code InsufficientGasFunds" ]);
    (NetworkChanged, [ byMessage "Underlying network changed" ]);
    (RpcError,
      [ byCode (CodeNum (-32005));
        byMessage "Non-200 status code";
        byMessage "Request limit exceeded";
        byMessage "Internal json-rpc error";
        byMessage "Response has no error or result";
        byMessage "We can't execute this request";
        byMessage "Couldn't connect to the network" ]) ].

(** ** Transactions, receipts and the collaborators *)

Record PopulatedTransaction := {
  tx_to : option string;
  tx_data : option string;
  tx_value : option Z;
  gasLimit : option Z
}.

Record TransactionResponse := { hash : string }.

(** [status] is 0 for a reverted transaction and 1 for a successful one. *)
Record TransactionReceipt := {
  transactionHash : string;
  status : option Z
}.

Definition TransactionStatus_Failure : Z := 0.
Definition TransactionStatus_Success : Z := 1.

(** What a call to a collaborator gives: a value, or a thrown error. *)
Inductive Result (A : Type) :=
| Ok (a : A)
| Err (e : RawError).
Arguments Ok {A} a.
Arguments Err {A} e.

Definition Param := string.

Record Contract := {
  contract_estimateGas : string -> list Param -> Result Z;
  contract_call : string -> list Param -> Z -> Result TransactionResponse;
  interface_parseError : ErrorData -> option ErrorDescription
}.

Record Signer := {
  sendTransaction : PopulatedTransaction -> Result TransactionResponse
}.

(** The answer of [getTransactionReceipt] changes with time: it is a
    function of the number of lookups made before. *)
Record JsonRpcProvider := {
  estimateGas : PopulatedTransaction -> Result Z;
  getTransactionReceipt : string -> nat -> Result (option TransactionReceipt)
}.

Record NetworkConfig := {
  minGas : Z;
  maxGas : Z;
  gasBuffer : float;
  displayName : string
}.

(** A callback of the caller returns or throws. *)
Inductive Completion :=
| Done
| Throws (e : RawError).

Definition TransactionErrorHandler :=
  TransactionError -> RawError -> option TransactionReceipt -> Completion.

Record TransactionOptions := {
  onComplete : option (TransactionReceipt -> Completion);
  onError : option TransactionErrorHandler
}.

(** The caller's transaction objects live in a store and are passed by
    reference. *)
Definition Ref := nat.
Definition Store := Ref -> PopulatedTransaction.

(** The three shapes of [Transaction]: a populated transaction, a
    [{ tx, contract? }] record, and a [{ contract, method, params,
    options? }] record (['method' in txInputs]). *)
Inductive Transaction :=
| TxPopulated (tx : Ref)
| TxRecord (tx : Ref) (contract : option Contract)
| TxMethod (contract : Contract) (method : string) (params : list Param)
           (optionsGasLimit : option Z).

Definition ToastId := nat.

Record TransactionErrorOptions := {
  eo_network : Network;
  eo_stage : TransactionErrorStage;
  eo_toastId : ToastId;
  eo_receipt : option TransactionReceipt;
  eo_handler : option TransactionErrorHandler;
  eo_contract : option Contract
}.

(** The collaborators this module imports. [numericFault] is the error
    object that [BigNumber.from] throws for a number it refuses. *)
Record Env := {
  walletAccount : option string;
  walletSigner : option Signer;
  getProvider : Network -> JsonRpcProvider;
  getNetworkConfig : Network -> NetworkConfig;
  resolveNetwork : Network -> AppNetwork;
  getExplorerUrl : Network -> string -> string;
  connect : Contract -> Signer -> Contract;
  numericFault : float -> RawError
}.

(** ** The outside world *)

Inductive ToastVariant :=
| VariantError
| VariantSuccess
| VariantWarning.

Inductive Event :=
| EvCreatePendingToast (id : ToastId)
| EvUpdatePendingToast (id : ToastId) (href : string) (autoClose : Z)
| EvUpdateToast (id : ToastId) (variant : ToastVariant) (description : string)
                (href : option string) (autoClose : Z)
| EvCloseToast (id : ToastId)
| EvPostTransactionError (error : TransactionError) (stage : TransactionErrorStage)
| EvPostTransactionSuccess (receipt : TransactionReceipt)
| EvHandler (error : TransactionError) (rawError : RawError)
            (receipt : option TransactionReceipt)
| EvOnComplete (receipt : TransactionReceipt)
| EvProviderEstimateGas (tx : PopulatedTransaction)
| EvContractEstimateGas (method : string) (params : list Param)
| EvSendTransaction (tx : PopulatedTransaction)
| EvContractCall (method : string) (params : list Param) (gas : Z)
| EvGetTransactionReceipt (txHash : string)
| EvSetTimeout (ms : Z).

Record State := {
  store : Store;
  trace : list Event;
  nextToast : nat;
  lookups : nat
}.

Inductive Outcome (A : Type) :=
| Returned (a : A)
| Thrown (e : RawError)
| Pending.
Arguments Returned {A} a.
Arguments Thrown {A} e.
Arguments Pending {A}.

Definition M (A : Type) := State -> Outcome A * State.

Definition ret {A} (a : A) : M A := fun s => (Returned a, s).

Definition throw {A} (e : RawError) : M A := fun s => (Thrown e, s).

Definition bind {A B} (m : M A) (f : A -> M B) : M B :=
  fun s =>
    match m s with
    | (Returned a, s') => f a s'
    | (Thrown e, s') => (Thrown e, s')
    | (Pending, s') => (Pending, s')
    end.

(** [try { m } catch (rawError) { h rawError }] *)
Definition tryCatch {A} (m : M A) (h : RawError -> M A) : M A :=
  fun s =>
    match m s with
    | (Thrown e, s') => h e s'
    | r => r
    end.

Declare Scope tx_scope.
Delimit Scope tx_scope with tx.
Notation "x <- m ;; k" := (bind m (fun x => k))
  (at level 100, m at next level, right associativity) : tx_scope.
Notation "m ;;; k" := (bind m (fun _ => k))
  (at level 100, right associativity) : tx_scope.
Open Scope tx_scope.

(** The state after [events] were appended to the trace. *)
Definition logged (events : list Event) (s : State) : State :=
  {| store := store s; trace := trace s ++ events;
     nextToast := nextToast s; lookups := lookups s |}.

Definition emit (e : Event) : M unit :=
  fun s => (Returned tt, logged [e] s).

Definition liftResult {A} (r : Result A) : M A :=
  match r with
  | Ok a => ret a
  | Err e => throw e
  end.

Definition liftCompletion (c : Completion) : M unit :=
  match c with
  | Done => ret tt
  | Throws e => throw e
  end.

Definition readTx (r : Ref) : M PopulatedTransaction :=
  fun s => (Returned (store s r), s).

Definition updateStore (sigma : Store) (r : Ref) (tx : PopulatedTransaction) : Store :=
  fun r' => if Nat.eqb r' r then tx else sigma r'.

Definition withGasLimit (tx : PopulatedTransaction) (g : Z) : PopulatedTransaction :=
  {| tx_to := tx_to tx; tx_data := tx_data tx; tx_value := tx_value tx;
     gasLimit := Some g |}.

(** [tx.gasLimit = g], on the object that [r] refers to. *)
Definition assignGasLimit (r : Ref) (g : Z) : M unit :=
  fun s =>
    (Returned tt,
     {| store := updateStore (store s) r (withGasLimit (store s r) g);
        trace := trace s; nextToast := nextToast s; lookups := lookups s |}).

Definition createPendingToast : M ToastId :=
  fun s =>
    let id := nextToast s in
    (Returned id,
     {| store := store s; trace := trace s ++ [EvCreatePendingToast id];
        nextToast := S id; lookups := lookups s |}).

Definition updatePendingToast (id : ToastId) (href : string) (autoClose : Z) : M unit :=
  emit (EvUpdatePendingToast id href autoClose).

Definition updateToast (id : ToastId) (variant : ToastVariant) (description : string)
    (href : option string) (autoClose : Z) : M unit :=
  emit (EvUpdateToast id variant description href autoClose).

Definition closeToast (id : ToastId) : M unit := emit (EvCloseToast id).

(** ** Error classification *)

(** [rawError?.error?.error ?? rawError?.error ?? rawError] *)
Definition innermost (rawError : RawError) : RawError :=
  match raw_error rawError with
  | Some e1 =>
      match raw_error e1 with
      | Some e2 => e2
      | None => e1
      end
  | None => rawError
  end.

(** [error?.data?.data ?? error?.data] *)
Definition errorDataOf (error : RawError) : option ErrorData :=
  match raw_data error with
  | Some (DataEnvelope (Some h)) => Some (DataHex h)
  | d => d
  end.

(** The guarded [parseError]: a failure to decode leaves the
    description null. *)
Definition describe (errorData : option ErrorData) (contract : option Contract)
    : option ErrorDescription :=
  match errorData, contract with
  | Some d, Some c => if truthyData d then interface_parseError c d else None
  | _, _ => None
  end.

Definition matchCode (errorCode : option ErrorCode) (pattern : ErrorPattern) : bool :=
  match p_code pattern, errorCode with
  | Some pc, Some ec => truthyCode pc && codeEq ec pc
  | _, _ => false
  end.

Definition matchMessage (errorMessage : option string) (pattern : ErrorPattern) : bool :=
  match p_message pattern, errorMessage with
  | Some pm, Some em =>
      nonEmpty pm && nonEmpty em && includes (toLowerCase em) (toLowerCase pm)
  | _, _ => false
  end.

Definition matchName (errorDescription : option ErrorDescription)
    (pattern : ErrorPattern) : bool :=
  match p_name pattern, errorDescription with
  | Some pn, Some d =>
      nonEmpty pn && includes (toLowerCase (ed_name d)) (toLowerCase pn)
  | _, _ => false
  end.

Definition matchPattern (errorCode : option ErrorCode) (errorMessage : option string)
    (errorDescription : option ErrorDescription) (pattern : ErrorPattern) : bool :=
  matchCode errorCode pattern
  || matchMessage errorMessage pattern
  || matchName errorDescription pattern.

(** The two nested loops over the table: the first reason one of whose
    patterns matches. *)
Fixpoint firstReason (errorCode : option ErrorCode) (errorMessage : option string)
    (errorDescription : option ErrorDescription)
    (table : list (TransactionErrorReason * list ErrorPattern))
    : option TransactionErrorReason :=
  match table with
  | [] => None
  | (reason, patterns) :: rest =>
      if existsb (matchPattern errorCode errorMessage errorDescription) patterns
      then Some reason
      else firstReason errorCode errorMessage errorDescription rest
  end.

Definition extractError (rawError : RawError) (options : TransactionErrorOptions)
    : TransactionError :=
  let error := innermost rawError in
  let errorCode := raw_code error in
  let errorData := errorDataOf error in
  let errorDescription := describe errorData (eo_contract options) in
  let errorMessage := raw_message error in
  {| te_code := errorCode;
     te_message := errorMessage;
     te_data := errorData;
     te_description := errorDescription;
     te_reason := firstReason errorCode errorMessage errorDescription TX_ERROR_PATTERNS |}.

Definition formatErrorReason (env : Env) (errorReason : TransactionErrorReason)
    (options : TransactionErrorOptions) : option string :=
  match errorReason with
  | TradeSlippage => Some "The quoted option price is now out of bounds, try again"
  | NetworkChanged => Some "Your network unexpectedly changed, try again"
  | RpcError => Some "An RPC error occurred, try again"
  | NotEnoughFunds =>
      Some ("Your account on "
            ++ displayName (getNetworkConfig env (eo_network options))
            ++ " doesn't have enough gas")
  | UserDenied => None
  end.

Definition errorReasonMessage (env : Env) (error : TransactionError)
    (options : TransactionErrorOptions) : option string :=
  match te_reason error with
  | Some reason => formatErrorReason env reason options
  | None =>
      match eo_stage options with
      | Reverted => Some "Transaction reverted"
      | _ => Some "Failed to send transaction"
      end
  end.

(** [!errorReasonMessage]: null, or the empty string. *)
Definition falsyMessage (m : option string) : bool :=
  match m with
  | Some s => negb (nonEmpty s)
  | None => true
  end.

Definition messageText (m : option string) : string :=
  match m with
  | Some s => s
  | None => ""
  end.

Definition handleError (env : Env) (rawError : RawError)
    (options : TransactionErrorOptions) : M unit :=
  let error := extractError rawError options in
  let message := errorReasonMessage env error options in
  if falsyMessage message then
    (* Ignore the transaction if no error reason is returned *)
    closeToast (eo_toastId options)
  else
    (* Post transaction error to db *)
    emit (EvPostTransactionError error (eo_stage options));;;
    updateToast (eo_toastId options) VariantError (messageText message)
      (match eo_receipt options with
       | Some receipt =>
           if nonEmpty (transactionHash receipt)
           then Some (getExplorerUrl env (eo_network options) (transactionHash receipt))
           else None
       | None => None
       end)
      DEFAULT_TOAST_ERROR_TIMEOUT;;;
    match eo_handler options with
    | Some handler =>
        emit (EvHandler error rawError (eo_receipt options));;;
        liftCompletion (handler error rawError (eo_receipt options))
    | None => ret tt
    end.

Definition getTimeout (env : Env) (network : Network) : Z :=
  match resolveNetwork env network with
  | Arbitrum | Optimism => 10 * 1000
  | Ethereum => 60 * 1000
  end.

(** ** Gas estimation *)

(** [Math.max(a, b)] *)
Definition mathMax (a b : float) : float :=
  if PrimFloat.is_nan a || PrimFloat.is_nan b then PrimFloat.nan
  else if PrimFloat.ltb a b then b else a.

(** The integer a float denotes, when it denotes one. *)
Definition integerOfFloat (f : float) : option Z :=
  match Prim2SF f with
  | S754_zero _ => Some 0
  | S754_finite sign m e =>
      let magnitude :=
        match e with
        | Z0 => Some (Zpos m)
        | Zpos p => Some (Zpos m * 2 ^ Zpos p)
        | Zneg p =>
            if Zpos m mod 2 ^ Zpos p =? 0
            then Some (Zpos m / 2 ^ Zpos p)
            else None
        end in
      match magnitude with
      | Some z => Some (if sign then - z else z)
      | None => None
      end
  | S754_infinity _ => None
  | S754_nan => None
  end.

Definition MAX_SAFE : Z := 2 ^ 53 - 1.

(** [BigNumber.from(value)] of ethers v5 for a [number]: it throws for a
    value with a fractional part, for one outside the safe integer range
    and for NaN; [None] stands for the throw. *)
Definition bigNumberFrom (value : float) : option Z :=
  match integerOfFloat value with
  | Some z => if (z >=? MAX_SAFE) || (z <=? - MAX_SAFE) then None else Some z
  | None => None
  end.

(** [10000 * Math.max(1, config.gasBuffer)] *)
Definition bufferFactor (config : NetworkConfig) : float :=
  PrimFloat.mul 10000%float (mathMax 1%float (gasBuffer config)).

(** [estimate.mul(10000 * Math.max(1, config.gasBuffer)).div(10000)] *)
Definition applyBuffer (env : Env) (config : NetworkConfig) (estimate : Z) : M Z :=
  match bigNumberFrom (bufferFactor config) with
  | Some factor => ret (Z.quot (estimate * factor) 10000)
  | None => throw (numericFault env (bufferFactor config))
  end.

(** The tail that both estimators share: the two comparisons against
    the bounds of the network. *)
Definition clampGas (config : NetworkConfig) (gas : Z) : Z :=
  if gas <? minGas config then minGas config
  else if gas >? maxGas config then maxGas config
  else gas.

Definition getRawTxGasLimit (env : Env) (network : Network)
    (provider : JsonRpcProvider) (tx : Ref) : M Z :=
  let config := getNetworkConfig env network in
  txObject <- readTx tx;;
  gas <- match gasLimit txObject with
         | Some explicit => ret explicit
         | None =>
             emit (EvProviderEstimateGas txObject);;;
             estimate <- liftResult (estimateGas provider txObject);;
             applyBuffer env config estimate
         end;;
  ret (clampGas config gas).

Definition getContractTxGasLimit (env : Env) (network : Network)
    (contract : Contract) (method : string) (params : list Param)
    (optionsGasLimit : option Z) : M Z :=
  let config := getNetworkConfig env network in
  gas <- match optionsGasLimit with
         | Some explicit => ret explicit
         | None =>
             emit (EvContractEstimateGas method params);;;
             estimate <- liftResult (contract_estimateGas contract method params);;
             applyBuffer env config estimate
         end;;
  ret (clampGas config gas).

(** ** Receipt polling *)

Definition noteLookup (txHash : string) (s : State) : State :=
  {| store := store s; trace := trace s ++ [EvGetTransactionReceipt txHash];
     nextToast := nextToast s; lookups := S (lookups s) |}.

Definition noteTimer (s : State) : State :=
  logged [EvSetTimeout POLL_INTERVAL] s.

(** One run of the closure [pollReceipt] and of the runs it schedules,
    with the counter [n] of the enclosing promise.  A lookup that throws
    rejects the promise of that run, which nobody observes: [resolve] is
    never called and the enclosing promise stays pending.  The recursion
    is on [fuel]; [None] means that the fuel ran out, which does not
    happen from [100 - n < fuel] on ([pollReceipt_fuel]). *)
Fixpoint pollReceipt (fuel : nat) (provider : JsonRpcProvider) (txHash : string)
    (n : nat) (s : State) : option (Outcome (option TransactionReceipt) * State) :=
  match fuel with
  | O => None
  | S fuel' =>
      let s1 := noteLookup txHash s in
      match getTransactionReceipt provider txHash (lookups s) with
      | Err _ => Some (Pending, s1)
      | Ok (Some receipt) => Some (Returned (Some receipt), s1)
      | Ok None =>
          if (n <? 100)%nat
          then pollReceipt fuel' provider txHash (S n) (noteTimer s1)
          else Some (Returned None, s1)
      end
  end.

(** [await new Promise(resolve => { let n = 0; ...;
    setTimeout(pollReceipt, POLL_INTERVAL) })] *)
Definition awaitReceipt (provider : JsonRpcProvider) (txHash : string)
    : M (option TransactionReceipt) :=
  fun s =>
    match pollReceipt 101 provider txHash 0 (noteTimer s) with
    | Some r => r
    | None => (Pending, noteTimer s)
    end.

(** The state in which polling leaves the world: [events] more in the
    trace, and [k] lookups made. *)
Definition afterPolling (events : list Event) (k : nat) (s : State) : State :=
  {| store := store s; trace := trace s ++ events;
     nextToast := nextToast s; lookups := k |}.

(** ** The controller *)

(** [try { x = await m } catch (rawError) { handleError(...); return null }]:
    [None] is the early return. *)
Definition attempt {A} (m : M A) (onThrow : RawError -> M unit) : M (option A) :=
  tryCatch (x <- m;; ret (Some x)) (fun rawError => onThrow rawError;;; ret None).

Definition truthyAccount (account : option string) : bool :=
  match account with
  | Some a => nonEmpty a
  | None => false
  end.

Definition errorOptions (network : Network) (toastId : ToastId)
    (options : option TransactionOptions) (contract : option Contract)
    (receipt : option TransactionReceipt) (stage : TransactionErrorStage)
    : TransactionErrorOptions :=
  {| eo_network := network;
     eo_stage := stage;
     eo_toastId := toastId;
     eo_receipt := receipt;
     eo_handler := match options with Some o => onError o | None => None end;
     eo_contract := contract |}.

(** The two submission paths: the contract that error decoding may use,
    and the response, or [None] when a failure was handled. *)
Definition submit (env : Env) (network : Network) (signer : Signer)
    (toastId : ToastId) (txInputs : Transaction) (options : option TransactionOptions)
    : M (option Contract * option TransactionResponse) :=
  let provider := getProvider env network in
  match txInputs with
  | TxMethod contract0 method params optionsGasLimit =>
      let contract := connect env contract0 signer in
      let onThrow stage rawError :=
        handleError env rawError
          (errorOptions network toastId options (Some contract) None stage) in
      estimated <- attempt
        (getContractTxGasLimit env network contract method params optionsGasLimit)
        (onThrow GasEstimate);;
      match estimated with
      | None => ret (Some contract, None)
      | Some gas =>
          response <- attempt
            (emit (EvContractCall method params gas);;;
             liftResult (contract_call contract method params gas))
            (onThrow Wallet);;
          ret (Some contract, response)
      end
  | TxPopulated tx | TxRecord tx _ =>
      let contract :=
        match txInputs with
        | TxRecord _ (Some c) => Some (connect env c signer)
        | _ => None
        end in
      let onThrow stage rawError :=
        handleError env rawError
          (errorOptions network toastId options contract None stage) in
      estimated <- attempt
        (gas <- getRawTxGasLimit env network provider tx;;
         assignGasLimit tx gas)
        (onThrow GasEstimate);;
      match estimated with
      | None => ret (contract, None)
      | Some _ =>
          response <- attempt
            (txObject <- readTx tx;;
             emit (EvSendTransaction txObject);;;
             liftResult (sendTransaction signer txObject))
            (onThrow Wallet);;
          ret (contract, response)
      end
  end.

Definition timeoutDescription (transactionTimeout : Z) : string :=
  "Your transaction took longer than "
  ++ stringOfZ (transactionTimeout / 1000)
  ++ " seconds, click to view on etherscan".

Definition isFailure (receipt : TransactionReceipt) : bool :=
  match status receipt with
  | Some st => st =? TransactionStatus_Failure
  | None => false
  end.

(** The callback that [useTransaction(network)] returns, for the wallet
    of [env]. *)
Definition useTransaction (env : Env) (network : Network) (txInputs : Transaction)
    (options : option TransactionOptions) : M (option TransactionReceipt) :=
  let provider := getProvider env network in
  match walletSigner env with
  | Some signer =>
      if truthyAccount (walletAccount env) then
        toastId <- createPendingToast;;
        submitted <- submit env network signer toastId txInputs options;;
        match submitted with
        | (_, None) => ret None
        | (contract, Some response) =>
            let transactionTimeout := getTimeout env network in
            let autoClose := transactionTimeout + POLL_INTERVAL in
            let txHref := getExplorerUrl env network (hash response) in
            updatePendingToast toastId txHref autoClose;;;
            (* Poll for transaction receipt *)
            polled <- awaitReceipt provider (hash response);;
            match polled with
            | Some receipt =>
                if isFailure receipt then
                  handleError env (newError "Transaction reverted")
                    (errorOptions network toastId options contract (Some receipt)
                       Reverted);;;
                  ret None
                else
                  match options with
                  | Some {| onComplete := Some callback |} =>
                      emit (EvOnComplete receipt);;;
                      liftCompletion (callback receipt)
                  | _ => ret tt
                  end;;;
                  emit (EvPostTransactionSuccess receipt);;;
                  updateToast toastId VariantSuccess "Your transaction was successful"
                    (Some txHref) DEFAULT_TOAST_INFO_TIMEOUT;;;
                  ret (Some receipt)
            | None =>
                (* Transaction timed out *)
                updateToast toastId VariantWarning
                  (timeoutDescription transactionTimeout)
                  (Some txHref) DEFAULT_TOAST_INFO_TIMEOUT;;;
                ret None
            end
        end
      else ret None
  | None => ret None
  end.

(** The transaction object of a request without a [method] field. *)
Definition rawTransactionOf (txInputs : Transaction) : option Ref :=
  match txInputs with
  | TxPopulated tx | TxRecord tx _ => Some tx
  | TxMethod _ _ _ _ => None
  end.

(** ** Observations on traces *)

Definition countEvents (p : Event -> bool) (t : list Event) : nat :=
  List.length (filter p t).

Definition isCreate (e : Event) : bool :=
  match e with EvCreatePendingToast _ => true | _ => false end.

Definition isClose (e : Event) : bool :=
  match e with EvCloseToast _ => true | _ => false end.

(** [updateToast] is only ever called with a terminal variant (error,
    success or warning); [updatePendingToast] keeps the toast pending. *)
Definition isTerminalUpdate (e : Event) : bool :=
  match e with EvUpdateToast _ _ _ _ _ => true | _ => false end.

Definition isErrorStyled (e : Event) : bool :=
  match e with EvUpdateToast _ VariantError _ _ _ => true | _ => false end.

Definition isErrorReport (e : Event) : bool :=
  match e with EvPostTransactionError _ _ => true | _ => false end.

Definition isHandlerCall (e : Event) : bool :=
  match e with EvHandler _ _ _ => true | _ => false end.

Definition isLookup (e : Event) : bool :=
  match e with EvGetTransactionReceipt _ => true | _ => false end.

Definition isEstimate (e : Event) : bool :=
  match e with
  | EvProviderEstimateGas _ | EvContractEstimateGas _ _ => true
  | _ => false
  end.

Definition isSubmission (e : Event) : bool :=
  match e with
  | EvSendTransaction _ | EvContractCall _ _ _ => true
  | _ => false
  end.

(** A raw transaction sent with a gas limit other than [gas]. *)
Definition isSentWithout (gas : Z) (e : Event) : bool :=
  match e with
  | EvSendTransaction tx =>
      match gasLimit tx with
      | Some g => negb (g =? gas)
      | None => true
      end
  | _ => false
  end.

(** The toast [id] is closed or updated to a terminal state. *)
Definition settles (id : ToastId) (e : Event) : bool :=
  match e with
  | EvCloseToast i | EvUpdateToast i _ _ _ _ => Nat.eqb i id
  | _ => false
  end.

(** Some toast is closed or updated to a terminal state. *)
Definition toastSettled (e : Event) : bool := isClose e || isTerminalUpdate e.

Definition isPollEvent (e : Event) : bool :=
  match e with
  | EvGetTransactionReceipt _ | EvSetTimeout _ => true
  | _ => false
  end.

(** ** Further observations *)

Definition isSuccessReport (e : Event) : bool :=
  match e with EvPostTransactionSuccess _ => true | _ => false end.

Definition isSuccessUpdate (e : Event) : bool :=
  match e with EvUpdateToast _ VariantSuccess _ _ _ => true | _ => false end.

Definition isWarningUpdate (e : Event) : bool :=
  match e with EvUpdateToast _ VariantWarning _ _ _ => true | _ => false end.

Definition isPendingUpdate (e : Event) : bool :=
  match e with EvUpdatePendingToast _ _ _ => true | _ => false end.

Definition isOnComplete (e : Event) : bool :=
  match e with EvOnComplete _ => true | _ => false end.

Definition paramsEq (a b : list Param) : bool :=
  if list_eq_dec string_dec a b then true else false.

(** An error report that carries another stage than [stage]. *)
Definition isReportedOutside (stage : TransactionErrorStage) (e : Event) : bool :=
  match e with
  | EvPostTransactionError _ st =>
      match st, stage with
      | GasEstimate, GasEstimate | Wallet, Wallet | Reverted, Reverted => false
      | _, _ => true
      end
  | _ => false
  end.

(** [k] rounds of the poller: a timer, then a lookup. *)
Fixpoint pollTrace (txHash : string) (k : nat) : list Event :=
  match k with
  | O => []
  | S k' =>
      EvSetTimeout POLL_INTERVAL :: EvGetTransactionReceipt txHash
        :: pollTrace txHash k'
  end.

(** The link that the error toast gets: [txHash ? getExplorerUrl(network,
    txHash) : undefined]. *)
Definition errorHref (env : Env) (options : TransactionErrorOptions)
    : option string :=
  match eo_receipt options with
  | Some receipt =>
      if nonEmpty (transactionHash receipt)
      then Some (getExplorerUrl env (eo_network options) (transactionHash receipt))
      else None
  | None => None
  end.

(** What the final statement of [handleError] contributes: the call of
    the handler, when there is one, and its outcome. *)
Definition handlerCalls (rawError : RawError) (options : TransactionErrorOptions)
    : list Event :=
  match eo_handler options with
  | Some _ => [EvHandler (extractError rawError options) rawError (eo_receipt options)]
  | None => []
  end.

Definition handlerOutcome (rawError : RawError) (options : TransactionErrorOptions)
    : Outcome unit :=
  match eo_handler options with
  | Some handler =>
      match handler (extractError rawError options) rawError (eo_receipt options) with
      | Done => Returned tt
      | Throws e => Thrown e
      end
  | None => Returned tt
  end.

(** What [handleError] adds to the trace, and how it ends. *)
Definition handleErrorTrace (env : Env) (rawError : RawError)
    (options : TransactionErrorOptions) : list Event :=
  let error := extractError rawError options in
  let message := errorReasonMessage env error options in
  if falsyMessage message then [EvCloseToast (eo_toastId options)]
  else
    EvPostTransactionError error (eo_stage options)
    :: EvUpdateToast (eo_toastId options) VariantError (messageText message)
         (errorHref env options) DEFAULT_TOAST_ERROR_TIMEOUT
    :: handlerCalls rawError options.

Definition handleErrorOutcome (env : Env) (rawError : RawError)
    (options : TransactionErrorOptions) : Outcome unit :=
  if falsyMessage
       (errorReasonMessage env (extractError rawError options) options)
  then Returned tt
  else handlerOutcome rawError options.

(** The gas estimation that [useTransaction] runs for a request. *)
Definition estimateOutcome (env : Env) (network : Network) (signer : Signer)
    (txInputs : Transaction) (s : State) : Outcome Z :=
  match txInputs with
  | TxMethod contract method params optionsGasLimit =>
      fst (getContractTxGasLimit env network (connect env contract signer)
             method params optionsGasLimit s)
  | TxPopulated tx | TxRecord tx _ =>
      fst (getRawTxGasLimit env network (getProvider env network) tx s)
  end.

(** A submission other than the one the request asks for with the gas
    limit [gas]. *)
Definition isSubmittedWithout (txInputs : Transaction) (gas : Z) (e : Event) : bool :=
  match txInputs with
  | TxMethod _ method params _ =>
      match e with
      | EvContractCall m ps g =>
          negb (String.eqb m method && paramsEq ps params && (g =? gas))
      | EvSendTransaction _ => true
      | _ => false
      end
  | TxPopulated _ | TxRecord _ _ =>
      match e with
      | EvSendTransaction tx =>
          match gasLimit tx with
          | Some g => negb (g =? gas)
          | None => true
          end
      | EvContractCall _ _ _ => true
      | _ => false
      end
  end.

(** What [useTransaction] does once the transaction is submitted. *)
Definition afterSubmission (env : Env) (network : Network) (toastId : ToastId)
    (options : option TransactionOptions) (contract : option Contract)
    (response : TransactionResponse) : M (option TransactionReceipt) :=
  let provider := getProvider env network in
  let transactionTimeout := getTimeout env network in
  let autoClose := transactionTimeout + POLL_INTERVAL in
  let txHref := getExplorerUrl env network (hash response) in
  updatePendingToast toastId txHref autoClose;;;
  polled <- awaitReceipt provider (hash response);;
  match polled with
  | Some receipt =>
      if isFailure receipt then
        handleError env (newError "Transaction reverted")
          (errorOptions network toastId options contract (Some receipt) Reverted);;;
        ret None
      else
        match options with
        | Some {| onComplete := Some callback |} =>
            emit (EvOnComplete receipt);;;
            liftCompletion (callback receipt)
        | _ => ret tt
        end;;;
        emit (EvPostTransactionSuccess receipt);;;
        updateToast toastId VariantSuccess "Your transaction was successful"
          (Some txHref) DEFAULT_TOAST_INFO_TIMEOUT;;;
        ret (Some receipt)
  | None =>
      updateToast toastId VariantWarning (timeoutDescription transactionTimeout)
        (Some txHref) DEFAULT_TOAST_INFO_TIMEOUT;;;
      ret None
  end.

(** The [contract] variable of [useTransaction]: the contract that a
    failure report may decode the error with. *)
Definition requestContract (env : Env) (signer : Signer) (txInputs : Transaction)
    : option Contract :=
  match txInputs with
  | TxMethod contract _ _ _ => Some (connect env contract signer)
  | TxRecord _ (Some contract) => Some (connect env contract signer)
  | _ => None
  end.

(** The estimation call that a request leads to in the state [s]: none
    when the caller has fixed the gas limit. *)
Definition estimateEvents (txInputs : Transaction) (s : State) : list Event :=
  match txInputs with
  | TxMethod _ method params optionsGasLimit =>
      match optionsGasLimit with
      | Some _ => []
      | None => [EvContractEstimateGas method params]
      end
  | TxPopulated tx | TxRecord tx _ =>
      match gasLimit (store s tx) with
      | Some _ => []
      | None => [EvProviderEstimateGas (store s tx)]
      end
  end.

(** The submission of a request with the gas limit [gas], and what the
    wallet answers to it. *)
Definition submissionEvent (txInputs : Transaction) (gas : Z) (s : State) : Event :=
  match txInputs with
  | TxMethod _ method params _ => EvContractCall method params gas
  | TxPopulated tx | TxRecord tx _ =>
      EvSendTransaction (withGasLimit (store s tx) gas)
  end.

Definition submissionResult (env : Env) (signer : Signer) (txInputs : Transaction)
    (gas : Z) (s : State) : Result TransactionResponse :=
  match txInputs with
  | TxMethod contract method params _ =>
      contract_call (connect env contract signer) method params gas
  | TxPopulated tx | TxRecord tx _ =>
      sendTransaction signer (withGasLimit (store s tx) gas)
  end.

(** The store once the gas limit [gas] is assigned to the transaction
    object of the request, if it has one. *)
Definition storeWithGas (txInputs : Transaction) (gas : Z) (sigma : Store) : Store :=
  match rawTransactionOf txInputs with
  | Some tx => updateStore sigma tx (withGasLimit (sigma tx) gas)
  | None => sigma
  end.

(** The call of the completion callback, when there is one. *)
Definition completionEvents (options : option TransactionOptions)
    (receipt : TransactionReceipt) : list Event :=
  match options with
  | Some {| onComplete := Some _ |} => [EvOnComplete receipt]
  | _ => []
  end.

(** What [useTransaction] returns after it has handled a failure. *)
Definition afterHandling (handled : Outcome unit)
    : Outcome (option TransactionReceipt) :=
  match handled with
  | Returned _ => Returned None
  | Thrown e => Thrown e
  | Pending => Pending
  end.


(** The message for a failure that no pattern recognises. *)
Definition stageMessage (stage : TransactionErrorStage) : string :=
  match stage with
  | Reverted => "Transaction reverted"
  | _ => "Failed to send transaction"
  end.

(** ** Sample collaborators

    Concrete wallets, providers and contracts on which the statements
    below are exercised. *)
Module Sample.

Definition config : NetworkConfig :=
  {| minGas := 21000; maxGas := 15000000; gasBuffer := 1.5%float;
     displayName := "Optimism" |}.

Definition txHash : string := "0xabc".

Definition successReceipt : TransactionReceipt :=
  {| transactionHash := txHash; status := Some 1 |}.

Definition signer : Signer :=
  {| sendTransaction := fun _ => Ok {| hash := txHash |} |}.

Definition provider (lookup : nat -> Result (option TransactionReceipt))
    : JsonRpcProvider :=
  {| estimateGas := fun _ => Ok 100000;
     getTransactionReceipt := fun _ k => lookup k |}.

Definition env (lookup : nat -> Result (option TransactionReceipt)) : Env :=
  {| walletAccount := Some "0xme";
     walletSigner := Some signer;
     getProvider := fun _ => provider lookup;
     getNetworkConfig := fun _ => config;
     resolveNetwork := fun _ => Optimism;
     getExplorerUrl := fun _ h => "https://explorer/tx/" ++ h;
     connect := fun c _ => c;
     numericFault := fun _ => mkRawError (Some (CodeStr "NUMERIC_FAULT"))
                                (Some "underflow") None None |}.

Definition never : nat -> Result (option TransactionReceipt) :=
  fun _ => Ok None.

Definition atOnce : nat -> Result (option TransactionReceipt) :=
  fun _ => Ok (Some successReceipt).

Definition failing : nat -> Result (option TransactionReceipt) :=
  fun _ => Err (newError "could not detect network").

Definition network : Network := "optimism".

Definition tx : PopulatedTransaction :=
  {| tx_to := Some "0xpool"; tx_data := Some "0x"; tx_value := None;
     gasLimit := None |}.

Definition cheapTx : PopulatedTransaction :=
  {| tx_to := Some "0xpool"; tx_data := Some "0x"; tx_value := None;
     gasLimit := Some 10 |}.

(** Reference 0 holds [tx], every other reference [cheapTx]. *)
Definition initial : State :=
  {| store := fun r => if Nat.eqb r 0 then tx else cheapTx;
     trace := []; nextToast := 0; lookups := 0 |}.

Definition slippageContract : Contract :=
  {| contract_estimateGas := fun _ _ => Ok 100000;
     contract_call := fun _ _ _ => Ok {| hash := txHash |};
     interface_parseError :=
       fun _ => Some {| ed_name := "TotalCostOutsideOfSpecifiedBounds" |} |}.

Definition deniedError : RawError :=
  newError "MetaMask Tx Signature: User denied transaction signature.".

(** A contract whose gas estimation is refused by the wallet. *)
Definition deniedContract : Contract :=
  {| contract_estimateGas := fun _ _ => Err deniedError;
     contract_call := fun _ _ _ => Ok {| hash := txHash |};
     interface_parseError := fun _ => None |}.

Definition quietHandler : TransactionErrorHandler := fun _ _ _ => Done.

Definition options : option TransactionOptions :=
  Some {| onComplete := None; onError := Some quietHandler |}.

Definition failingCallback : option TransactionOptions :=
  Some {| onComplete := Some (fun _ => Throws (newError "callback failed"));
          onError := Some quietHandler |}.

Definition errorOptionsFor (contract : option Contract)
    : TransactionErrorOptions :=
  errorOptions network 0%nat options contract None GasEstimate.

(** A wallet rejection wrapped twice, with an RPC error code and
    revert data. *)
Definition rejected : RawError :=
  mkRawError None (Some "processing response error") None
    (Some (mkRawError None (Some "execution reverted") None
       (Some (mkRawError (Some (CodeNum (-32005)))
                (Some "MetaMask: User rejected transaction")
                (Some (DataHex "0x1f2a")) None)))).

End Sample.

(** More collaborators, for the properties beyond the lifecycle
    claims. *)
Module Scenario.

Definition walletless : Env :=
  {| walletAccount := Some "0xme";
     walletSigner := None;
     getProvider := fun _ => Sample.provider Sample.never;
     getNetworkConfig := fun _ => Sample.config;
     resolveNetwork := fun _ => Optimism;
     getExplorerUrl := fun _ h => "https://explorer/tx/" ++ h;
     connect := fun c _ => c;
     numericFault := fun _ => newError "underflow" |}.

Definition rpcDown : RawError :=
  mkRawError (Some (CodeNum (-32005))) (Some "limit exceeded") None None.

(** A provider whose gas estimation fails. *)
Definition deafProvider : JsonRpcProvider :=
  {| estimateGas := fun _ => Err rpcDown;
     getTransactionReceipt := fun _ _ => Ok None |}.

Definition deafEnv : Env :=
  {| walletAccount := Some "0xme";
     walletSigner := Some Sample.signer;
     getProvider := fun _ => deafProvider;
     getNetworkConfig := fun _ => Sample.config;
     resolveNetwork := fun _ => Optimism;
     getExplorerUrl := fun _ h => "https://explorer/tx/" ++ h;
     connect := fun c _ => c;
     numericFault := fun _ => newError "underflow" |}.

(** A network whose buffer is not a number. *)
Definition brokenConfig : NetworkConfig :=
  {| minGas := 21000; maxGas := 15000000; gasBuffer := PrimFloat.nan;
     displayName := "Optimism" |}.

Definition brokenEnv : Env :=
  {| walletAccount := Some "0xme";
     walletSigner := Some Sample.signer;
     getProvider := fun _ => Sample.provider Sample.never;
     getNetworkConfig := fun _ => brokenConfig;
     resolveNetwork := fun _ => Optimism;
     getExplorerUrl := fun _ h => "https://explorer/tx/" ++ h;
     connect := fun c _ => c;
     numericFault := fun _ => newError "underflow" |}.

Definition revertedReceipt : TransactionReceipt :=
  {| transactionHash := Sample.txHash; status := Some 0 |}.

Definition reverted : nat -> Result (option TransactionReceipt) :=
  fun _ => Ok (Some revertedReceipt).

(** Two empty lookups, then a failure of the provider. *)
Definition failingLater : nat -> Result (option TransactionReceipt) :=
  fun k => if Nat.ltb k 2 then Ok None else Err (newError "timeout").

Definition throwingHandler : TransactionErrorHandler :=
  fun _ _ _ => Throws (newError "handler failed").

Definition plainError : RawError := mkRawError None None None None.

Definition loudOptions : TransactionErrorOptions :=
  errorOptions Sample.network 7%nat
    (Some {| onComplete := None; onError := Some throwingHandler |})
    None (Some revertedReceipt) Reverted.

Definition pool : Contract :=
  {| contract_estimateGas := fun _ _ => Ok 100000;
     contract_call := fun _ _ _ => Ok {| hash := Sample.txHash |};
     interface_parseError := fun _ => None |}.

(** "UNDERLYING NETWOR", the Kelvin sign U+212A, " CHANGED". *)
Definition kelvinMessage : string :=
  "UNDERLYING NETWOR" ++ String "226" (String "132" (String "170" " CHANGED")).

Definition throwingOptions : option TransactionOptions :=
  Some {| onComplete := None; onError := Some throwingHandler |}.

(** A network with a gas buffer of 1.11, the double
    0x1.1c28f5c28f5c3p+0. *)
Definition fractionalConfig : NetworkConfig :=
  {| minGas := 21000; maxGas := 15000000; gasBuffer := 0x1.1c28f5c28f5c3p+0%float;
     displayName := "Optimism" |}.

Definition fractionalEnv : Env :=
  {| walletAccount := Some "0xme";
     walletSigner := Some Sample.signer;
     getProvider := fun _ => Sample.provider Sample.atOnce;
     getNetworkConfig := fun _ => fractionalConfig;
     resolveNetwork := fun _ => Optimism;
     getExplorerUrl := fun _ h => "https://explorer/tx/" ++ h;
     connect := fun c _ => c;
     numericFault := fun _ => mkRawError (Some (CodeStr "NUMERIC_FAULT"))
                                (Some "underflow") None None |}.

(** A wallet in which the user turns every transaction down. *)
Definition refusingSigner : Signer :=
  {| sendTransaction := fun _ => Err Sample.deniedError |}.

Definition refusingEnv : Env :=
  {| walletAccount := Some "0xme";
     walletSigner := Some refusingSigner;
     getProvider := fun _ => Sample.provider Sample.never;
     getNetworkConfig := fun _ => Sample.config;
     resolveNetwork := fun _ => Optimism;
     getExplorerUrl := fun _ h => "https://explorer/tx/" ++ h;
     connect := fun c _ => c;
     numericFault := fun _ => newError "underflow" |}.

End Scenario.

(** * Properties *)

(** ** Classification *)

Section Classification.

Variables (errorCode : option ErrorCode) (errorMessage : option string)
          (errorDescription : option ErrorDescription).

Let matches := matchPattern errorCode errorMessage errorDescription.

(** The reasons are visited in table order and the first one with a
    matching pattern is returned, whatever follows it. *)
Lemma firstReason_first_match :
  forall before reason patterns rest,
    Forall (fun entry => existsb matches (snd entry) = false) before ->
    existsb matches patterns = true ->
    firstReason errorCode errorMessage errorDescription
      (before ++ (reason, patterns) :: rest) = Some reason.
Proof.
  induction before as [| [r ps] before IH]; intros reason patterns rest Hb Hm.
  - simpl. fold matches. now rewrite Hm.
  - inversion Hb as [| ? ? Hhead Htail]; subst. simpl in Hhead |- *.
    fold matches. rewrite Hhead. now apply IH.
Qed.

Lemma firstReason_no_match :
  forall table,
    Forall (fun entry => existsb matches (snd entry) = false) table ->
    firstReason errorCode errorMessage errorDescription table = None.
Proof.
  induction table as [| [r ps] table IH]; intros Hall; [reflexivity |].
  inversion Hall as [| ? ? Hhead Htail]; subst. simpl in Hhead |- *.
  fold matches. rewrite Hhead. now apply IH.
Qed.

End Classification.

Lemma includes_nonEmpty :
  forall s pat, nonEmpty pat = true -> includes s pat = true -> nonEmpty s = true.
Proof.
  intros [| c s] [| d pat] Hpat Hinc; simpl in *; congruence.
Qed.

Lemma slippage_matches :
  forall errorCode errorMessage d,
    includes (toLowerCase (ed_name d))
             (toLowerCase "TotalCostOutsideOfSpecifiedBounds") = true ->
    matchPattern errorCode errorMessage (Some d)
      (byName "TotalCostOutsideOfSpecifiedBounds") = true.
Proof.
  intros errorCode errorMessage d H. unfold matchPattern, matchName.
  cbn [p_name byName]. rewrite H. cbn [nonEmpty andb].
  now rewrite orb_true_r.
Qed.

(** C6. Classification walks the table in the order TradeSlippage,
    UserDenied, NotEnoughFunds, NetworkChanged, RpcError and the first
    reason with a matching pattern wins: the reason that [extractError]
    gives to an error is the reason of the first row of
    [TX_ERROR_PATTERNS] one of whose patterns matches the code, the
    message or the decoded name of the innermost error, whatever rows
    follow, and there is no reason when no row matches.  Hence an error
    whose decoded name contains "TotalCostOutsideOfSpecifiedBounds" is
    classified TradeSlippage, also when its code is -32005, the code of
    RpcError. *)
Theorem C6_table_order_first_match_wins :
  map fst TX_ERROR_PATTERNS
    = [TradeSlippage; UserDenied; NotEnoughFunds; NetworkChanged; RpcError]
  /\ (forall errorCode errorMessage errorDescription before reason patterns rest,
        Forall (fun entry =>
                  existsb (matchPattern errorCode errorMessage errorDescription)
                          (snd entry) = false) before ->
        existsb (matchPattern errorCode errorMessage errorDescription) patterns = true ->
        firstReason errorCode errorMessage errorDescription
          (before ++ (reason, patterns) :: rest) = Some reason)
  /\ (forall rawError options before reason patterns rest,
        TX_ERROR_PATTERNS = (before ++ (reason, patterns) :: rest)%list ->
        Forall (fun entry =>
                  existsb (matchPattern (raw_code (innermost rawError))
                             (raw_message (innermost rawError))
                             (describe (errorDataOf (innermost rawError))
                                (eo_contract options)))
                          (snd entry) = false) before ->
        existsb (matchPattern (raw_code (innermost rawError))
                   (raw_message (innermost rawError))
                   (describe (errorDataOf (innermost rawError))
                      (eo_contract options)))
                patterns = true ->
        te_reason (extractError rawError options) = Some reason)
  /\ (forall rawError options,
        Forall (fun entry =>
                  existsb (matchPattern (raw_code (innermost rawError))
                             (raw_message (innermost rawError))
                             (describe (errorDataOf (innermost rawError))
                                (eo_contract options)))
                          (snd entry) = false) TX_ERROR_PATTERNS ->
        te_reason (extractError rawError options) = None)
  /\ (forall rawError options d,
        describe (errorDataOf (innermost rawError)) (eo_contract options) = Some d ->
        includes (toLowerCase (ed_name d))
                 (toLowerCase "TotalCostOutsideOfSpecifiedBounds") = true ->
        raw_code (innermost rawError) = Some (CodeNum (-32005)) ->
        matchPattern (raw_code (innermost rawError)) (raw_message (innermost rawError))
          (Some d) (byCode (CodeNum (-32005))) = true
        /\ te_reason (extractError rawError options) = Some TradeSlippage).
Proof.
  split; [reflexivity |]. split; [exact firstReason_first_match |].
  split; [| split].
  - intros rawError options before reason patterns rest Htable Hbefore Hrow.
    unfold extractError. cbn [te_reason]. rewrite Htable.
    now apply firstReason_first_match.
  - intros rawError options Hnone.
    unfold extractError. cbn [te_reason]. now apply firstReason_no_match.
  - intros rawError options d Hd Hname Hcode. split.
    + rewrite Hcode. reflexivity.
    + unfold extractError. cbn [te_reason]. rewrite Hd.
      apply (firstReason_first_match _ _ _ [] TradeSlippage); [constructor |].
      cbn [existsb]. rewrite slippage_matches by exact Hname. reflexivity.
Qed.

(** A rejection by the user that carries the code of an RPC error: the
    UserDenied row comes before the RpcError row.  The same error with
    revert data that decodes to the slippage error: the TradeSlippage
    row comes before both. *)
Lemma C6_witness :
  raw_code (innermost Sample.rejected) = Some (CodeNum (-32005))
  /\ te_reason (extractError Sample.rejected (Sample.errorOptionsFor None))
     = Some UserDenied
  /\ describe (errorDataOf (innermost Sample.rejected))
              (eo_contract (Sample.errorOptionsFor (Some Sample.slippageContract)))
     = Some {| ed_name := "TotalCostOutsideOfSpecifiedBounds" |}
  /\ te_reason (extractError Sample.rejected
                  (Sample.errorOptionsFor (Some Sample.slippageContract)))
     = Some TradeSlippage.
Proof.
  split; [reflexivity |]. split; [| split; [reflexivity |]].
  - apply (proj1 (proj2 (proj2 C6_table_order_first_match_wins)) Sample.rejected
             (Sample.errorOptionsFor None)
             [(TradeSlippage, [byName "TotalCostOutsideOfSpecifiedBounds"])]
             UserDenied
             [ byMessage "User denied transaction signature";
               byMessage "User rejected transaction";
               byMessage
                 "Cannot set properties of undefined (setting 'loadingDefaults')";
               byCode (CodeStr "ACTION_REJECTED");
               byCode (CodeNum 4001) ]
             [ (NotEnoughFunds,
                [ byMessage "Not enough funds for gas";
                  byMessage
                    "Failed to execute call with revert code InsufficientGasFunds" ]);
               (NetworkChanged, [byMessage "Underlying network changed"]);
               (RpcError,
                [ byCode (CodeNum (-32005));
                  byMessage "Non-200 status code";
                  byMessage "Request limit exceeded";
                  byMessage "Internal json-rpc error";
                  byMessage "Response has no error or result";
                  byMessage "We can't execute this request";
                  byMessage "Couldn't connect to the network" ]) ]).
    + reflexivity.
    + repeat constructor.
    + reflexivity.
  - apply (proj2 (proj2 (proj2 (proj2 C6_table_order_first_match_wins)))
             Sample.rejected
             (Sample.errorOptionsFor (Some Sample.slippageContract))
             {| ed_name := "TotalCostOutsideOfSpecifiedBounds" |});
      reflexivity.
Defined.

(** The three unwrap levels of [innermost]. *)
Lemma innermost_depth :
  forall e,
    (raw_error e = None -> innermost e = e)
    /\ (forall code message data,
          raw_error e = None ->
          innermost (mkRawError code message data (Some e)) = e)
    /\ (forall code1 message1 data1 code2 message2 data2,
          innermost (mkRawError code1 message1 data1
                       (Some (mkRawError code2 message2 data2 (Some e)))) = e).
Proof.
  intros e. repeat split.
  - intros H. unfold innermost. now rewrite H.
  - intros code message data H. unfold innermost. cbn [raw_error]. now rewrite H.
Qed.

Lemma user_rejected_matches :
  forall errorCode errorDescription message,
    includes (toLowerCase message) (toLowerCase "user rejected transaction") = true ->
    existsb (matchPattern errorCode (Some message) errorDescription)
      [ byMessage "User denied transaction signature";
        byMessage "User rejected transaction";
        byMessage "Cannot set properties of undefined (setting 'loadingDefaults')";
        byCode (CodeStr "ACTION_REJECTED");
        byCode (CodeNum 4001) ] = true.
Proof.
  intros errorCode errorDescription message H.
  apply existsb_exists. exists (byMessage "User rejected transaction"). split.
  - right. now left.
  - unfold matchPattern, matchMessage. cbn [p_message byMessage].
    assert (Hne : nonEmpty message = true).
    { destruct message; [discriminate H | reflexivity]. }
    rewrite Hne.
    replace (toLowerCase "User rejected transaction")
      with (toLowerCase "user rejected transaction")
      by (vm_compute; reflexivity).
    rewrite H. cbn [nonEmpty andb]. now rewrite orb_true_r.
Qed.

(** C8 (as amended). A raw error wrapped 0, 1 or 2 levels deep whose
    innermost message contains "user rejected transaction", in any
    letter case, is classified UserDenied, unless its revert data
    decodes to an error whose name contains
    "TotalCostOutsideOfSpecifiedBounds": in that case the TradeSlippage
    row, which comes first in the table, wins and the error is
    classified TradeSlippage. *)
Theorem C8_user_rejected_is_UserDenied :
  forall rawError options message,
    raw_message (innermost rawError) = Some message ->
    includes (toLowerCase message) (toLowerCase "user rejected transaction") = true ->
    (matchName (describe (errorDataOf (innermost rawError)) (eo_contract options))
       (byName "TotalCostOutsideOfSpecifiedBounds") = false ->
     te_reason (extractError rawError options) = Some UserDenied)
    /\ (matchName (describe (errorDataOf (innermost rawError)) (eo_contract options))
          (byName "TotalCostOutsideOfSpecifiedBounds") = true ->
        te_reason (extractError rawError options) = Some TradeSlippage).
Proof.
  intros rawError options message Hmsg Hinc. split; intros Hname;
    unfold extractError; cbn [te_reason]; rewrite Hmsg.
  - apply (firstReason_first_match _ _ _
             [(TradeSlippage, [byName "TotalCostOutsideOfSpecifiedBounds"])]
             UserDenied).
    + constructor; [| constructor]. cbn [snd existsb].
      unfold matchPattern. rewrite Hname. reflexivity.
    + now apply user_rejected_matches.
  - apply (firstReason_first_match _ _ _ [] TradeSlippage); [constructor |].
    cbn [existsb]. unfold matchPattern. rewrite Hname.
    now rewrite !orb_true_r.
Qed.

Lemma C8_witness :
  raw_message (innermost Sample.rejected) = Some "MetaMask: User rejected transaction"
  /\ te_reason (extractError Sample.rejected (Sample.errorOptionsFor None))
     = Some UserDenied
  /\ te_reason (extractError Sample.rejected
                  (Sample.errorOptionsFor (Some Sample.slippageContract)))
     = Some TradeSlippage.
Proof.
  split; [reflexivity |]. split.
  - apply (proj1 (C8_user_rejected_is_UserDenied Sample.rejected
                    (Sample.errorOptionsFor None)
                    "MetaMask: User rejected transaction" eq_refl eq_refl)).
    reflexivity.
  - apply (proj2 (C8_user_rejected_is_UserDenied Sample.rejected
                    (Sample.errorOptionsFor (Some Sample.slippageContract))
                    "MetaMask: User rejected transaction" eq_refl eq_refl)).
    reflexivity.
Defined.

(** C8 as stated fails: the same rejection, thrown by a contract whose
    interface decodes the revert data to
    TotalCostOutsideOfSpecifiedBounds, is classified TradeSlippage. *)
Lemma C8_counterexample :
  ~ (forall rawError options message,
       raw_message (innermost rawError) = Some message ->
       includes (toLowerCase message) (toLowerCase "user rejected transaction") = true ->
       te_reason (extractError rawError options) = Some UserDenied).
Proof.
  intros H.
  specialize (H Sample.rejected (Sample.errorOptionsFor (Some Sample.slippageContract))
                "MetaMask: User rejected transaction" eq_refl eq_refl).
  vm_compute in H. discriminate H.
Qed.

(** ** Gas estimation *)

Lemma clampGas_cases :
  forall config gas,
    (gas < minGas config -> clampGas config gas = minGas config)
    /\ (minGas config <= gas -> maxGas config < gas ->
        clampGas config gas = maxGas config)
    /\ (minGas config <= gas <= maxGas config -> clampGas config gas = gas).
Proof.
  intros config gas. unfold clampGas.
  destruct (Z.ltb_spec gas (minGas config));
    destruct (Z.gtb_spec gas (maxGas config)); repeat split; intros; lia.
Qed.

Lemma getRawTxGasLimit_explicit :
  forall env network provider tx s explicit,
    gasLimit (store s tx) = Some explicit ->
    getRawTxGasLimit env network provider tx s
      = (Returned (clampGas (getNetworkConfig env network) explicit), s).
Proof.
  intros env network provider tx s explicit H.
  unfold getRawTxGasLimit, bind, readTx, ret. now rewrite H.
Qed.

Lemma getContractTxGasLimit_explicit :
  forall env network contract method params s explicit,
    getContractTxGasLimit env network contract method params (Some explicit) s
      = (Returned (clampGas (getNetworkConfig env network) explicit), s).
Proof. reflexivity. Qed.

(** C1 (as amended). With an explicit gas limit neither estimator calls
    its estimation primitive: the state of the world, trace included, is
    left as it was and the provider or contract has no part in the
    result.  The value returned is the explicit limit passed through the
    same clamp as an estimate: unchanged when it lies within
    [minGas, maxGas], minGas when below, maxGas when above. *)
Theorem C1_explicit_limit_is_clamped :
  forall env network provider contract method params tx s explicit,
    gasLimit (store s tx) = Some explicit ->
    let config := getNetworkConfig env network in
    getRawTxGasLimit env network provider tx s
      = (Returned (clampGas config explicit), s)
    /\ getContractTxGasLimit env network contract method params (Some explicit) s
      = (Returned (clampGas config explicit), s)
    /\ (explicit < minGas config -> clampGas config explicit = minGas config)
    /\ (minGas config <= explicit -> maxGas config < explicit ->
        clampGas config explicit = maxGas config)
    /\ (minGas config <= explicit <= maxGas config ->
        clampGas config explicit = explicit).
Proof.
  intros env network provider contract method params tx s explicit H config.
  split; [now apply getRawTxGasLimit_explicit |].
  split; [reflexivity |]. apply clampGas_cases.
Qed.

Lemma C1_witness :
  gasLimit (store Sample.initial 1%nat) = Some 10
  /\ getRawTxGasLimit (Sample.env Sample.never) Sample.network
       (Sample.provider Sample.never) 1%nat Sample.initial
     = (Returned 21000, Sample.initial).
Proof.
  split; [reflexivity |].
  exact (proj1 (C1_explicit_limit_is_clamped (Sample.env Sample.never) Sample.network
                  (Sample.provider Sample.never) Sample.slippageContract "swap" []
                  1%nat Sample.initial 10 eq_refl)).
Defined.

(** C1 as stated fails: an explicit limit of 10 on a network whose
    minGas is 21000 comes back as 21000, from either estimator. *)
Lemma C1_counterexample :
  ~ (forall env network provider contract method params tx s explicit,
       gasLimit (store s tx) = Some explicit ->
       fst (getRawTxGasLimit env network provider tx s) = Returned explicit
       /\ fst (getContractTxGasLimit env network contract method params
                 (Some explicit) s) = Returned explicit).
Proof.
  intros H.
  destruct (H (Sample.env Sample.never) Sample.network (Sample.provider Sample.never)
              Sample.slippageContract "swap" [] 1%nat Sample.initial 10 eq_refl)
    as [Hraw Hcontract].
  vm_compute in Hraw. discriminate Hraw.
Qed.

Lemma getRawTxGasLimit_estimated :
  forall env network provider tx s estimate factor,
    gasLimit (store s tx) = None ->
    estimateGas provider (store s tx) = Ok estimate ->
    bigNumberFrom (bufferFactor (getNetworkConfig env network)) = Some factor ->
    getRawTxGasLimit env network provider tx s
      = (Returned (clampGas (getNetworkConfig env network)
                     (Z.quot (estimate * factor) 10000)),
         snd (emit (EvProviderEstimateGas (store s tx)) s)).
Proof.
  intros env network provider tx s estimate factor Hnone Hest Hfactor.
  unfold getRawTxGasLimit, bind, readTx, ret, applyBuffer, liftResult, emit.
  rewrite Hnone. cbn [store]. rewrite Hest, Hfactor. reflexivity.
Qed.

Lemma getContractTxGasLimit_estimated :
  forall env network contract method params s estimate factor,
    contract_estimateGas contract method params = Ok estimate ->
    bigNumberFrom (bufferFactor (getNetworkConfig env network)) = Some factor ->
    getContractTxGasLimit env network contract method params None s
      = (Returned (clampGas (getNetworkConfig env network)
                     (Z.quot (estimate * factor) 10000)),
         snd (emit (EvContractEstimateGas method params) s)).
Proof.
  intros env network contract method params s estimate factor Hest Hfactor.
  unfold getContractTxGasLimit, bind, ret, applyBuffer, liftResult, emit.
  rewrite Hest, Hfactor. reflexivity.
Qed.

(** C7. Without an explicit limit, both estimators return minGas when
    the buffered estimate is below minGas, maxGas when it is above
    maxGas (and not below minGas, which the order of the bounds gives),
    and the buffered estimate itself otherwise. *)
Theorem C7_estimate_is_clamped :
  forall env network provider contract method params tx s estimate factor,
    gasLimit (store s tx) = None ->
    estimateGas provider (store s tx) = Ok estimate ->
    contract_estimateGas contract method params = Ok estimate ->
    bigNumberFrom (bufferFactor (getNetworkConfig env network)) = Some factor ->
    let config := getNetworkConfig env network in
    let buffered := Z.quot (estimate * factor) 10000 in
    exists gas,
      fst (getRawTxGasLimit env network provider tx s) = Returned gas
      /\ fst (getContractTxGasLimit env network contract method params None s)
         = Returned gas
      /\ (buffered < minGas config -> gas = minGas config)
      /\ (minGas config <= buffered -> maxGas config < buffered ->
          gas = maxGas config)
      /\ (minGas config <= maxGas config -> maxGas config < buffered ->
          gas = maxGas config)
      /\ (minGas config <= buffered <= maxGas config -> gas = buffered).
Proof.
  intros env network provider contract method params tx s estimate factor
         Hnone Hraw Hcontract Hfactor config buffered.
  exists (clampGas config buffered).
  rewrite (getRawTxGasLimit_estimated _ _ _ _ _ _ _ Hnone Hraw Hfactor).
  rewrite (getContractTxGasLimit_estimated _ _ _ _ _ _ _ _ Hcontract Hfactor).
  destruct (clampGas_cases config buffered) as (Hlow & Hhigh & Hmid).
  repeat split; auto. intros Hord Habove. apply Hhigh; lia.
Qed.

Lemma C7_witness :
  exists gas,
    fst (getRawTxGasLimit (Sample.env Sample.never) Sample.network
           (Sample.provider Sample.never) 0%nat Sample.initial) = Returned gas
    /\ gas = 150000.
Proof.
  destruct (C7_estimate_is_clamped (Sample.env Sample.never) Sample.network
              (Sample.provider Sample.never) Sample.slippageContract "swap" []
              0%nat Sample.initial 100000 15000 eq_refl eq_refl eq_refl eq_refl)
    as (gas & Hraw & _ & _ & _ & _ & Hmid).
  exists gas. split; [exact Hraw |].
  rewrite Hmid; [reflexivity |]. vm_compute. split; discriminate.
Defined.

Lemma applyBuffer_integer :
  forall env config estimate factor s,
    bigNumberFrom (bufferFactor config) = Some factor ->
    applyBuffer env config estimate s
      = (Returned (Z.quot (estimate * factor) 10000), s).
Proof.
  intros env config estimate factor s H. unfold applyBuffer. now rewrite H.
Qed.

(** A multiplier of at most 1 is raised to 1: the factor is 10000. *)
Lemma bufferFactor_floor :
  forall config,
    PrimFloat.is_nan (gasBuffer config) = false ->
    PrimFloat.ltb 1%float (gasBuffer config) = false ->
    bigNumberFrom (bufferFactor config) = Some 10000.
Proof.
  intros config Hnan Hlt. unfold bufferFactor, mathMax.
  rewrite Hnan, Hlt. reflexivity.
Qed.

(** Buffering is integer arithmetic whenever the factor
    [10000 * max(1, gasBuffer)] is an integer: the estimate is
    multiplied by it and divided by 10000 with truncation.  A multiplier
    of at most 1 leaves the estimate as it is; a multiplier of 1.5 makes
    the factor 15000. *)
Lemma applyBuffer_scales :
  forall env config estimate s,
    (forall factor,
        bigNumberFrom (bufferFactor config) = Some factor ->
        applyBuffer env config estimate s
          = (Returned (Z.quot (estimate * factor) 10000), s))
    /\ (PrimFloat.is_nan (gasBuffer config) = false ->
        PrimFloat.ltb 1%float (gasBuffer config) = false ->
        applyBuffer env config estimate s = (Returned estimate, s))
    /\ (gasBuffer config = 1.5%float ->
        applyBuffer env config estimate s
          = (Returned (Z.quot (estimate * 15000) 10000), s)).
Proof.
  intros env config estimate s. split; [| split].
  - intros factor H. now apply applyBuffer_integer.
  - intros Hnan Hlt.
    rewrite (applyBuffer_integer _ _ _ 10000) by now apply bufferFactor_floor.
    now rewrite Z.quot_mul by lia.
  - intros H.
    assert (Hfactor : bigNumberFrom (bufferFactor config) = Some 15000).
    { unfold bufferFactor. rewrite H. reflexivity. }
    now rewrite (applyBuffer_integer _ _ _ 15000).
Qed.

(** Not every multiplier gives an integer factor: for 1.001, the double
    0x1.004189374bc6ap+0, the product [10000 * 1.001] is
    10009.999999999998 in binary64, the conversion to a BigNumber throws,
    and with it every estimation on that network. *)
Lemma applyBuffer_refuses_fractional_factor :
  forall env config estimate s,
    gasBuffer config = 0x1.004189374bc6ap+0%float ->
    applyBuffer env config estimate s
      = (Thrown (numericFault env (bufferFactor config)), s).
Proof.
  intros env config estimate s H. unfold applyBuffer.
  replace (bigNumberFrom (bufferFactor config)) with (@None Z); [reflexivity |].
  unfold bufferFactor. rewrite H. reflexivity.
Qed.

(** C9. The claim fails on the code for a multiplier whose product with
    10000 is not an integer in binary64.  With a multiplier of 1.5 an
    estimate of 100000 becomes exactly 150000, as claimed.  With a
    multiplier of 1.11 the product [10000 * 1.11] is the double
    11100.000000000002: it is not an integer, its conversion to a
    BigNumber throws, and instead of 111000, the value of the claimed
    scaling, both estimators throw the numeric fault after they have
    asked for the estimate.  An invocation on such a network reports the
    failure and returns null without submitting anything. *)
Theorem C9_fractional_buffer_factor_throws :
  let env := Scenario.fractionalEnv in
  let config := getNetworkConfig env Sample.network in
  let run := useTransaction env Sample.network (TxPopulated 0%nat) Sample.options
               Sample.initial in
  applyBuffer (Sample.env Sample.never) Sample.config 100000 Sample.initial
    = (Returned 150000, Sample.initial)
  /\ gasBuffer config = 0x1.1c28f5c28f5c3p+0%float
  /\ bufferFactor config = 0x1.5ae0000000001p+13%float
  /\ PrimFloat.ltb 11100%float (bufferFactor config) = true
  /\ integerOfFloat (bufferFactor config) = None
  /\ Z.quot (100000 * 11100) 10000 = 111000
  /\ estimateGas (getProvider env Sample.network) Sample.tx = Ok 100000
  /\ applyBuffer env config 100000 Sample.initial
     = (Thrown (numericFault env (bufferFactor config)), Sample.initial)
  /\ getRawTxGasLimit env Sample.network (getProvider env Sample.network) 0%nat
       Sample.initial
     = (Thrown (numericFault env (bufferFactor config)),
        logged [EvProviderEstimateGas Sample.tx] Sample.initial)
  /\ getContractTxGasLimit env Sample.network Scenario.pool "swap" [] None
       Sample.initial
     = (Thrown (numericFault env (bufferFactor config)),
        logged [EvContractEstimateGas "swap" []] Sample.initial)
  /\ fst run = Returned None
  /\ countEvents isSubmission (trace (snd run)) = 0%nat
  /\ countEvents isErrorReport (trace (snd run)) = 1%nat.
Proof. vm_compute. repeat split; reflexivity. Qed.

(** ** Receipt polling *)

Section Polling.

Variables (provider : JsonRpcProvider) (txHash : string).

Let lookup (k : nat) := getTransactionReceipt provider txHash k.

(** The fuel is a device of the embedding only: from [100 - n < fuel]
    on the poller settles by itself. *)
Lemma pollReceipt_fuel :
  forall fuel n s,
    (100 - n < fuel)%nat -> pollReceipt fuel provider txHash n s <> None.
Proof.
  induction fuel as [| fuel IH]; intros n s Hfuel; [lia |].
  cbn [pollReceipt].
  destruct (getTransactionReceipt provider txHash (lookups s)) as [[r |] | e];
    try discriminate.
  destruct (Nat.ltb_spec n 100); [| discriminate].
  apply IH. lia.
Qed.

(** Polling touches neither the store nor the toasts, adds only
    lookups and timers to the trace, and never throws. *)
Lemma pollReceipt_frame :
  forall fuel n s out s',
    pollReceipt fuel provider txHash n s = Some (out, s') ->
    store s' = store s
    /\ nextToast s' = nextToast s
    /\ (forall e, out <> Thrown e)
    /\ exists events,
         trace s' = (trace s ++ events)%list /\ forallb isPollEvent events = true.
Proof.
  induction fuel as [| fuel IH]; intros n s out s' H; [discriminate H |].
  cbn [pollReceipt] in H.
  destruct (getTransactionReceipt provider txHash (lookups s)) as [[r |] | e].
  - inversion H; subst. cbn. repeat split; try discriminate.
    now exists [EvGetTransactionReceipt txHash].
  - destruct (n <? 100)%nat.
    + apply IH in H. destruct H as (Hstore & Htoast & Hthrow & events & Htrace & Hall).
      cbn in Hstore, Htoast, Htrace. repeat split; auto.
      exists ([EvGetTransactionReceipt txHash; EvSetTimeout POLL_INTERVAL] ++ events)%list.
      split; [| exact Hall].
      rewrite Htrace, <- !app_assoc. reflexivity.
    + inversion H; subst. cbn. repeat split; try discriminate.
      now exists [EvGetTransactionReceipt txHash].
  - inversion H; subst. cbn. repeat split; try discriminate.
    now exists [EvGetTransactionReceipt txHash].
Qed.

(** A receipt on lookup [k], counted from the current one, after [k]
    empty lookups, is returned at once, provided the retries last that
    long. *)
Lemma pollReceipt_found :
  forall k fuel n s receipt,
    (k < fuel)%nat -> (n + k <= 100)%nat ->
    (forall j, (j < k)%nat -> lookup (lookups s + j) = Ok None) ->
    lookup (lookups s + k) = Ok (Some receipt) ->
    exists s',
      pollReceipt fuel provider txHash n s = Some (Returned (Some receipt), s')
      /\ lookups s' = (lookups s + S k)%nat.
Proof.
  unfold lookup.
  induction k as [| k IH]; intros fuel n s receipt Hfuel Hn Hnone Hsome;
    (destruct fuel as [| fuel]; [lia |]); cbn [pollReceipt].
  - rewrite Nat.add_0_r in Hsome. rewrite Hsome.
    eexists. split; [reflexivity |]. cbn. lia.
  - specialize (Hnone 0%nat ltac:(lia)) as Hfirst.
    rewrite Nat.add_0_r in Hfirst. rewrite Hfirst.
    destruct (Nat.ltb_spec n 100); [| lia].
    destruct (IH fuel (S n) (noteTimer (noteLookup txHash s)) receipt)
      as (s' & Hrun & Hcount); try lia.
    + intros j Hj. cbn [lookups noteTimer noteLookup logged].
      replace (S (lookups s) + j)%nat with (lookups s + S j)%nat by lia.
      apply Hnone. lia.
    + cbn [lookups noteTimer noteLookup logged].
      replace (S (lookups s) + k)%nat with (lookups s + S k)%nat by lia.
      exact Hsome.
    + exists s'. split; [exact Hrun |].
      cbn [lookups noteTimer noteLookup logged] in Hcount. lia.
Qed.

(** When every lookup of the budget is empty, the poller gives up
    after the first attempt and the retries that are left. *)
Lemma pollReceipt_exhausted :
  forall fuel n s,
    (n <= 100)%nat -> (100 - n < fuel)%nat ->
    (forall j, (j <= 100 - n)%nat -> lookup (lookups s + j) = Ok None) ->
    exists s',
      pollReceipt fuel provider txHash n s = Some (Returned None, s')
      /\ lookups s' = (lookups s + (101 - n))%nat.
Proof.
  unfold lookup.
  induction fuel as [| fuel IH]; intros n s Hn Hfuel Hnone; [lia |].
  cbn [pollReceipt].
  specialize (Hnone 0%nat ltac:(lia)) as Hfirst.
  rewrite Nat.add_0_r in Hfirst. rewrite Hfirst.
  destruct (Nat.ltb_spec n 100).
  - destruct (IH (S n) (noteTimer (noteLookup txHash s))) as (s' & Hrun & Hcount);
      try lia.
    + intros j Hj. cbn [lookups noteTimer noteLookup logged].
      replace (S (lookups s) + j)%nat with (lookups s + S j)%nat by lia.
      apply Hnone. lia.
    + exists s'. split; [exact Hrun |].
      cbn [lookups noteTimer noteLookup logged] in Hcount. lia.
  - eexists. split; [reflexivity |]. cbn [lookups noteLookup]. lia.
Qed.

Lemma awaitReceipt_frame :
  forall s out s',
    awaitReceipt provider txHash s = (out, s') ->
    store s' = store s
    /\ nextToast s' = nextToast s
    /\ (forall e, out <> Thrown e)
    /\ exists events,
         trace s' = (trace s ++ events)%list /\ forallb isPollEvent events = true.
Proof.
  intros s out s' H. unfold awaitReceipt in H.
  destruct (pollReceipt 101 provider txHash 0 (noteTimer s)) as [[o t] |] eqn:Hrun.
  - inversion H; subst. apply pollReceipt_frame in Hrun.
    destruct Hrun as (Hstore & Htoast & Hthrow & events & Htrace & Hall).
    cbn in Hstore, Htoast, Htrace. repeat split; auto.
    exists (EvSetTimeout POLL_INTERVAL :: events). split; [| exact Hall].
    rewrite Htrace, <- app_assoc. reflexivity.
  - exfalso. revert Hrun. apply pollReceipt_fuel. lia.
Qed.

(** A lookup that throws leaves the promise pending. *)
Lemma pollReceipt_lookup_throws :
  forall fuel n s e,
    lookup (lookups s) = Err e ->
    pollReceipt (S fuel) provider txHash n s = Some (Pending, noteLookup txHash s).
Proof.
  unfold lookup. intros fuel n s e H. cbn [pollReceipt]. now rewrite H.
Qed.

Lemma awaitReceipt_lookup_throws :
  forall s e,
    lookup (lookups s) = Err e ->
    awaitReceipt provider txHash s
      = (Pending, noteLookup txHash (noteTimer s)).
Proof.
  intros s e H. unfold awaitReceipt.
  now rewrite (pollReceipt_lookup_throws 100 0 (noteTimer s) e).
Qed.

End Polling.

(** C3 (as amended). The poller returns the receipt as soon as one of
    its lookups yields it, and makes no lookup after that one.  Its
    budget is the first attempt and 100 retries: when none of these 101
    lookups yields a receipt it resolves to null after exactly 101
    lookups.  It never throws. *)
Theorem C3_poller_returns_receipt_or_null_after_101 :
  forall provider txHash s,
    (forall k receipt,
        (k <= 100)%nat ->
        (forall j, (j < k)%nat ->
                   getTransactionReceipt provider txHash (lookups s + j) = Ok None) ->
        getTransactionReceipt provider txHash (lookups s + k) = Ok (Some receipt) ->
        exists s',
          awaitReceipt provider txHash s = (Returned (Some receipt), s')
          /\ lookups s' = (lookups s + S k)%nat)
    /\ ((forall j, (j <= 100)%nat ->
                   getTransactionReceipt provider txHash (lookups s + j) = Ok None) ->
        exists s',
          awaitReceipt provider txHash s = (Returned None, s')
          /\ lookups s' = (lookups s + 101)%nat)
    /\ (forall e, fst (awaitReceipt provider txHash s) <> Thrown e).
Proof.
  intros provider txHash s. split; [| split].
  - intros k receipt Hk Hnone Hsome.
    destruct (pollReceipt_found provider txHash k 101 0 (noteTimer s) receipt)
      as (s' & Hrun & Hcount); try lia; auto.
    exists s'. unfold awaitReceipt. rewrite Hrun. split; [reflexivity | exact Hcount].
  - intros Hnone.
    destruct (pollReceipt_exhausted provider txHash 101 0 (noteTimer s))
      as (s' & Hrun & Hcount); try lia; auto.
    exists s'. unfold awaitReceipt. rewrite Hrun. split; [reflexivity | exact Hcount].
  - intros e.
    destruct (awaitReceipt provider txHash s) as [out s'] eqn:Hrun.
    apply awaitReceipt_frame in Hrun. cbn. apply Hrun.
Qed.

Lemma C3_witness :
  (forall j, (j <= 100)%nat ->
     getTransactionReceipt (Sample.provider Sample.never) Sample.txHash
       (lookups Sample.initial + j) = Ok None)
  /\ exists s',
       awaitReceipt (Sample.provider Sample.never) Sample.txHash Sample.initial
         = (Returned None, s')
       /\ lookups s' = 101%nat.
Proof.
  split; [reflexivity |].
  apply (proj1 (proj2 (C3_poller_returns_receipt_or_null_after_101
                         (Sample.provider Sample.never) Sample.txHash Sample.initial))).
  reflexivity.
Defined.

(** C3 as stated fails: a provider that never has the receipt is asked
    101 times, not 100, before the poller resolves to null. *)
Lemma C3_counterexample :
  ~ (forall provider txHash s,
       (forall k, getTransactionReceipt provider txHash k = Ok None) ->
       exists s',
         awaitReceipt provider txHash s = (Returned None, s')
         /\ lookups s' = (lookups s + 100)%nat).
Proof.
  intros H.
  destruct (H (Sample.provider Sample.never) Sample.txHash Sample.initial
              (fun _ => eq_refl)) as (s' & Hrun & Hcount).
  vm_compute in Hrun. inversion Hrun; subst. vm_compute in Hcount. discriminate Hcount.
Qed.

(** ** Traces *)

Lemma countEvents_app :
  forall p a b, countEvents p (a ++ b) = (countEvents p a + countEvents p b)%nat.
Proof. intros p a b. unfold countEvents. now rewrite filter_app, length_app. Qed.

(** Events of one class do not count for a predicate that rejects the
    class. *)
Lemma countEvents_class :
  forall class p events,
    (forall e, class e = true -> p e = false) ->
    forallb class events = true ->
    countEvents p events = 0%nat.
Proof.
  intros class p events Hp. induction events as [| e events IH]; intros H;
    [reflexivity |].
  cbn [forallb] in H. apply andb_true_iff in H. destruct H as [He Hrest].
  unfold countEvents in *. cbn [filter]. rewrite (Hp e He). now apply IH.
Qed.

(** ** Failure reporting *)

(** The two ways through [handleError]: the silent one closes the toast
    and does nothing else; the other one reports, restyles the toast and
    then calls the handler, if there is one. *)
Lemma handleError_cases :
  forall env rawError options s,
    let error := extractError rawError options in
    let message := errorReasonMessage env error options in
    (falsyMessage message = true
     /\ handleError env rawError options s
        = (Returned tt, logged [EvCloseToast (eo_toastId options)] s))
    \/ (falsyMessage message = false
        /\ exists out href calls,
             handleError env rawError options s
             = (out,
                logged
                  (EvPostTransactionError error (eo_stage options)
                   :: EvUpdateToast (eo_toastId options) VariantError
                        (messageText message) href DEFAULT_TOAST_ERROR_TIMEOUT
                   :: calls) s)
             /\ out <> Pending
             /\ ((eo_handler options = None /\ calls = [] /\ out = Returned tt)
                 \/ (eo_handler options <> None
                     /\ calls = [EvHandler error rawError (eo_receipt options)]))).
Proof.
  intros env rawError options s error message. unfold handleError.
  fold error. fold message.
  destruct (falsyMessage message); [left; split; reflexivity | right].
  split; [reflexivity |].
  unfold bind, updateToast, emit, ret, throw, liftCompletion, logged.
  destruct (eo_handler options) as [handler |].
  - destruct (handler error rawError (eo_receipt options)) eqn:Hcall;
      cbn [trace store nextToast lookups];
      (eexists; eexists; exists [EvHandler error rawError (eo_receipt options)];
       split; [rewrite <- !app_assoc; reflexivity |];
       split; [discriminate |]; right; split; [discriminate | reflexivity]).
  - cbn [trace store nextToast lookups]. eexists; eexists; exists [].
    split; [rewrite <- !app_assoc; reflexivity |].
    split; [discriminate |]. left. repeat split; reflexivity.
Qed.

(** Only UserDenied has no message of its own, and an error without a
    reason gets the message of its stage. *)
Lemma silent_iff_UserDenied :
  forall env error options,
    falsyMessage (errorReasonMessage env error options) = true
    <-> te_reason error = Some UserDenied.
Proof.
  intros env error options. unfold errorReasonMessage.
  destruct (te_reason error) as [[] |]; cbn; try (split; congruence).
  destruct (eo_stage options); cbn; split; congruence.
Qed.

(** A revert is never silent: "Transaction reverted" matches no pattern
    and the stage supplies the message. *)
Lemma revert_is_loud :
  forall env network toastId options contract receipt,
    falsyMessage
      (errorReasonMessage env
         (extractError (newError "Transaction reverted")
            (errorOptions network toastId options contract receipt Reverted))
         (errorOptions network toastId options contract receipt Reverted))
    = false.
Proof. reflexivity. Qed.

(** ** Frames of the other steps *)

(** The estimators add estimation calls to the trace and nothing else,
    and they settle. *)
Lemma getRawTxGasLimit_frame :
  forall env network provider tx s,
  exists out events,
    getRawTxGasLimit env network provider tx s = (out, logged events s)
    /\ out <> Pending
    /\ forallb isEstimate events = true.
Proof.
  intros env network provider tx s.
  unfold getRawTxGasLimit, applyBuffer, liftResult, readTx, bind, emit, ret, throw.
  assert (Hs : s = logged [] s).
  { destruct s. unfold logged. cbn [trace store nextToast lookups].
    now rewrite app_nil_r. }
  destruct (gasLimit (store s tx)).
  - exists (Returned (clampGas (getNetworkConfig env network) z)), [].
    rewrite <- Hs. repeat split. discriminate.
  - cbn [store logged].
    destruct (estimateGas provider (store s tx)) as [estimate | e].
    + destruct (bigNumberFrom _);
        eexists; exists [EvProviderEstimateGas (store s tx)];
        (split; [reflexivity |]); split; [discriminate | reflexivity
                                        | discriminate | reflexivity].
    + eexists; exists [EvProviderEstimateGas (store s tx)].
      split; [reflexivity |]. split; [discriminate | reflexivity].
Qed.

Lemma getContractTxGasLimit_frame :
  forall env network contract method params optionsGasLimit s,
  exists out events,
    getContractTxGasLimit env network contract method params optionsGasLimit s
      = (out, logged events s)
    /\ out <> Pending
    /\ forallb isEstimate events = true.
Proof.
  intros env network contract method params optionsGasLimit s.
  unfold getContractTxGasLimit, applyBuffer, liftResult, bind, emit, ret, throw.
  assert (Hs : s = logged [] s).
  { destruct s. unfold logged. cbn [trace store nextToast lookups].
    now rewrite app_nil_r. }
  destruct optionsGasLimit as [explicit |].
  - exists (Returned (clampGas (getNetworkConfig env network) explicit)), [].
    rewrite <- Hs. repeat split. discriminate.
  - destruct (contract_estimateGas contract method params) as [estimate | e].
    + destruct (bigNumberFrom _);
        eexists; exists [EvContractEstimateGas method params];
        (split; [reflexivity |]); split; [discriminate | reflexivity
                                        | discriminate | reflexivity].
    + eexists; exists [EvContractEstimateGas method params].
      split; [reflexivity |]. split; [discriminate | reflexivity].
Qed.

Lemma awaitReceipt_state :
  forall provider txHash s,
  exists out events k,
    awaitReceipt provider txHash s = (out, afterPolling events k s)
    /\ (forall e, out <> Thrown e)
    /\ forallb isPollEvent events = true.
Proof.
  intros provider txHash s.
  destruct (awaitReceipt provider txHash s) as [out s'] eqn:Hrun.
  apply awaitReceipt_frame in Hrun.
  destruct Hrun as (Hstore & Htoast & Hthrow & events & Htrace & Hall).
  exists out, events, (lookups s'). split; [| split; assumption].
  f_equal. destruct s'. unfold afterPolling. cbn in *. congruence.
Qed.

(** ** Running the controller symbolically *)

(** Replace the first call whose state is known by what its frame lemma
    says of it. *)
Ltac expose H :=
  match type of H with
  | context [handleError ?env ?raw ?o ?s] =>
      let Hq := fresh "Hq" in
      destruct (handleError_cases env raw o s)
        as [[? Hq] | (? & ? & ? & ? & Hq & ? & [(? & ? & ?) | [? ?]])];
      rewrite Hq in H; clear Hq; subst
  | context [awaitReceipt ?p ?h ?s] =>
      let Hq := fresh "Hq" in
      destruct (awaitReceipt_state p h s) as (? & ? & ? & Hq & ? & ?);
      rewrite Hq in H; clear Hq
  | context [getRawTxGasLimit ?env ?n ?p ?tx ?s] =>
      let Hq := fresh "Hq" in
      destruct (getRawTxGasLimit_frame env n p tx s) as (? & ? & Hq & ? & ?);
      rewrite Hq in H; clear Hq
  | context [getContractTxGasLimit ?env ?n ?c ?m ?ps ?g ?s] =>
      let Hq := fresh "Hq" in
      destruct (getContractTxGasLimit_frame env n c m ps g s) as (? & ? & Hq & ? & ?);
      rewrite Hq in H; clear Hq
  end.

(** Split on the first scrutinee that is not itself a case analysis. *)
Ltac split_scrutinee H :=
  match type of H with
  | context [match ?x with _ => _ end] =>
      lazymatch x with
      | context [match _ with _ => _ end] => fail
      | _ => destruct x eqn:?
      end
  end.

Ltac run H :=
  repeat (first [ expose H | split_scrutinee H ]; cbn beta iota in H).

(** Counting in a trace that is known up to the events of the steps. *)
Ltac count_class :=
  repeat match goal with
    | Hc : forallb ?class ?events = true |- context [countEvents ?p ?events] =>
        rewrite (countEvents_class class p events);
        [ | intros [] ?He; try discriminate He; reflexivity | exact Hc ]
    end.

Ltac count :=
  cbn [trace store logged afterPolling fst snd nextToast lookups eo_toastId errorOptions];
  rewrite ?countEvents_app;
  count_class;
  cbn [countEvents filter List.length isCreate toastSettled isClose isTerminalUpdate
       isErrorReport isHandlerCall isErrorStyled isSubmission settles orb];
  rewrite ?Nat.eqb_refl;
  cbn [countEvents filter List.length];
  try lia.

Ltac finish H :=
  try discriminate H; inversion H; subst; clear H;
  repeat split; try congruence; count.

(** ** One toast per invocation *)

Lemma submit_toast :
  forall env network signer toastId txInputs options s out s',
    submit env network signer toastId txInputs options s = (out, s') ->
    out <> Pending
    /\ nextToast s' = nextToast s
    /\ countEvents isCreate (trace s') = countEvents isCreate (trace s)
    /\ countEvents toastSettled (trace s')
       = (countEvents toastSettled (trace s)
          + match out with Returned (_, Some _) => 0 | _ => 1 end)%nat
    /\ countEvents (settles toastId) (trace s')
       = (countEvents (settles toastId) (trace s)
          + match out with Returned (_, Some _) => 0 | _ => 1 end)%nat.
Proof.
  intros env network signer toastId txInputs options s out s' H.
  destruct txInputs;
    unfold submit, attempt, tryCatch, liftResult, assignGasLimit, readTx,
      bind, emit, ret, throw in H;
    run H; finish H.
Qed.

(** ** Silent failures *)

Lemma submit_silent :
  forall env network signer toastId txInputs options s out s',
    submit env network signer toastId txInputs options s = (out, s') ->
    countEvents isClose (trace s') <> countEvents isClose (trace s) ->
    (exists contract, out = Returned (contract, None))
    /\ countEvents isErrorReport (trace s') = countEvents isErrorReport (trace s)
    /\ countEvents isHandlerCall (trace s') = countEvents isHandlerCall (trace s)
    /\ countEvents isTerminalUpdate (trace s')
       = countEvents isTerminalUpdate (trace s).
Proof.
  intros env network signer toastId txInputs options s out s' H.
  destruct txInputs;
    unfold submit, attempt, tryCatch, liftResult, assignGasLimit, readTx,
      bind, emit, ret, throw in H;
    run H; try discriminate H; inversion H; subst; clear H;
    count; intros Hclosed; try (exfalso; lia);
    (split; [eexists; reflexivity |]); repeat split; count.
Qed.

Lemma submit_never_closes_on_success :
  forall env network signer toastId txInputs options s contract response s',
    submit env network signer toastId txInputs options s
      = (Returned (contract, Some response), s') ->
    countEvents isClose (trace s') = countEvents isClose (trace s).
Proof.
  intros env network signer toastId txInputs options s contract response s' H.
  destruct (Nat.eq_dec (countEvents isClose (trace s')) (countEvents isClose (trace s)))
    as [Heq | Hne]; [exact Heq |].
  destruct (submit_silent _ _ _ _ _ _ _ _ _ H Hne) as ((c & Hc) & _). discriminate Hc.
Qed.

(** C2 (as amended). A failure has no display message exactly when it
    is classified UserDenied.  For such a failure the reporting
    procedure closes the toast and does nothing else: no error styling,
    no report to the backend and no call of the caller's error handler,
    supplied or not.  When gas estimation of a contract call fails so,
    the entry point returns null, having created the toast, asked for
    the estimate and closed the toast; and whenever an invocation closes
    its toast it returns null without a report, a handler call or a
    terminal update. *)
Theorem C2_silent_failure_closes_toast_only :
  forall env network signer,
    walletSigner env = Some signer ->
    truthyAccount (walletAccount env) = true ->
    (forall rawError options s,
        falsyMessage (errorReasonMessage env (extractError rawError options) options)
          = true ->
        te_reason (extractError rawError options) = Some UserDenied
        /\ handleError env rawError options s
           = (Returned tt, logged [EvCloseToast (eo_toastId options)] s))
    /\ (forall contract method params options rawError s,
          contract_estimateGas (connect env contract signer) method params
            = Err rawError ->
          te_reason (extractError rawError
                       (errorOptions network (nextToast s) options
                          (Some (connect env contract signer)) None GasEstimate))
            = Some UserDenied ->
          exists s',
            useTransaction env network (TxMethod contract method params None) options s
              = (Returned None, s')
            /\ trace s' = (trace s ++ [ EvCreatePendingToast (nextToast s);
                                        EvContractEstimateGas method params;
                                        EvCloseToast (nextToast s) ])%list)
    /\ (forall txInputs options s out s',
          useTransaction env network txInputs options s = (out, s') ->
          countEvents isClose (trace s') <> countEvents isClose (trace s) ->
          out = Returned None
          /\ countEvents isErrorReport (trace s') = countEvents isErrorReport (trace s)
          /\ countEvents isHandlerCall (trace s') = countEvents isHandlerCall (trace s)
          /\ countEvents isTerminalUpdate (trace s')
             = countEvents isTerminalUpdate (trace s)).
Proof.
  intros env network signer Hsigner Haccount. split; [| split].
  - intros rawError options s Hsilent. split.
    + exact (proj1 (silent_iff_UserDenied env _ options) Hsilent).
    + destruct (handleError_cases env rawError options s)
        as [[_ Hrun] | [Hloud _]]; [exact Hrun | congruence].
  - intros contract method params options rawError s Hthrow Hreason.
    assert (Hsilent :=
              proj2 (silent_iff_UserDenied env _
                       (errorOptions network (nextToast s) options
                          (Some (connect env contract signer)) None GasEstimate))
                    Hreason).
    unfold useTransaction. rewrite Hsigner, Haccount.
    unfold submit, attempt, tryCatch, getContractTxGasLimit, liftResult,
      createPendingToast, bind, emit, ret, throw.
    rewrite Hthrow. cbn beta iota.
    match goal with
    | |- context [handleError ?e ?r ?o ?st] =>
        destruct (handleError_cases e r o st) as [[_ Hrun] | [Hloud _]]
    end.
    + rewrite Hrun. cbn beta iota. eexists. split; [reflexivity |].
      cbn [trace logged eo_toastId errorOptions]. now rewrite <- !app_assoc.
    + cbn [trace logged nextToast] in Hloud. congruence.
  - intros txInputs options s out s' H Hclosed.
    unfold useTransaction in H. rewrite Hsigner, Haccount in H.
    unfold liftCompletion, updatePendingToast, updateToast, createPendingToast,
      bind, emit, ret, throw in H.
    destruct (submit env network signer (nextToast s) txInputs options _)
      as [submitted s1] eqn:Hsubmit.
    destruct submitted as [[contract [response |]] | e |]; cbn beta iota in H.
    + apply submit_never_closes_on_success in Hsubmit.
      cbn [trace] in Hsubmit. rewrite countEvents_app in Hsubmit.
      cbn [countEvents filter List.length isClose] in Hsubmit.
      revert Hclosed. run H; try discriminate H; inversion H; subst; clear H;
        count; intros Hclosed; try (exfalso; lia).
      match goal with
      | Hf : falsyMessage _ = true |- _ => rewrite revert_is_loud in Hf; discriminate Hf
      end.
    + inversion H; subst; clear H.
      assert (Hne : countEvents isClose (trace s')
                    <> countEvents isClose
                         (trace s ++ [EvCreatePendingToast (nextToast s)])).
      { rewrite countEvents_app. cbn [countEvents filter List.length isClose]. lia. }
      destruct (submit_silent _ _ _ _ _ _ _ _ _ Hsubmit Hne) as (_ & Hr & Hh & Ht).
      rewrite Hr, Hh, Ht. repeat split; count.
    + inversion H; subst; clear H.
      assert (Hne : countEvents isClose (trace s')
                    <> countEvents isClose
                         (trace s ++ [EvCreatePendingToast (nextToast s)])).
      { rewrite countEvents_app. cbn [countEvents filter List.length isClose]. lia. }
      destruct (submit_silent _ _ _ _ _ _ _ _ _ Hsubmit Hne) as ((c & Hc) & _).
      discriminate Hc.
    + apply submit_toast in Hsubmit. destruct Hsubmit as (Hp & _). congruence.
Qed.

Lemma C2_witness :
  te_reason (extractError Sample.deniedError
               (errorOptions Sample.network 0%nat Sample.options
                  (Some Sample.deniedContract) None GasEstimate))
    = Some UserDenied
  /\ exists s',
       useTransaction (Sample.env Sample.never) Sample.network
         (TxMethod Sample.deniedContract "openPosition" [] None)
         Sample.options Sample.initial
       = (Returned None, s')
       /\ trace s' = [ EvCreatePendingToast 0%nat;
                       EvContractEstimateGas "openPosition" [];
                       EvCloseToast 0%nat ].
Proof.
  split; [reflexivity |].
  apply (proj1 (proj2 (C2_silent_failure_closes_toast_only
                         (Sample.env Sample.never) Sample.network Sample.signer
                         eq_refl eq_refl))
           Sample.deniedContract "openPosition" [] Sample.options
           Sample.deniedError Sample.initial);
    reflexivity.
Defined.

(** C2 as stated fails: the wallet refuses the estimation of a contract
    call, an error handler is supplied, and the handler is not called. *)
Lemma C2_counterexample :
  ~ (forall env rawError options handler s,
       falsyMessage (errorReasonMessage env (extractError rawError options) options)
         = true ->
       eo_handler options = Some handler ->
       countEvents isHandlerCall (trace (snd (handleError env rawError options s)))
         = S (countEvents isHandlerCall (trace s))).
Proof.
  intros H.
  specialize (H (Sample.env Sample.never) Sample.deniedError
                (Sample.errorOptionsFor (Some Sample.deniedContract))
                Sample.quietHandler Sample.initial eq_refl eq_refl).
  vm_compute in H. discriminate H.
Qed.

(** ** The caller's transaction object *)

Lemma getRawTxGasLimit_store_only :
  forall env network provider tx s1 s2,
    store s1 = store s2 ->
    fst (getRawTxGasLimit env network provider tx s1)
    = fst (getRawTxGasLimit env network provider tx s2).
Proof.
  intros env network provider tx s1 s2 H.
  unfold getRawTxGasLimit, applyBuffer, liftResult, readTx, bind, emit, ret, throw.
  rewrite H. destruct (gasLimit (store s2 tx)); [reflexivity |].
  cbn [store logged]. rewrite ?H.
  destruct (estimateGas provider (store s2 tx)); [| reflexivity].
  destruct (bigNumberFrom _); reflexivity.
Qed.

Lemma updateStore_same :
  forall sigma r tx, updateStore sigma r tx r = tx.
Proof. intros. unfold updateStore. now rewrite Nat.eqb_refl. Qed.

Lemma updateStore_other :
  forall sigma r tx r', r' <> r -> updateStore sigma r tx r' = sigma r'.
Proof.
  intros sigma r tx r' H. unfold updateStore.
  now destruct (Nat.eqb_spec r' r).
Qed.

Lemma sent_with_gas :
  forall tx gas, isSentWithout gas (EvSendTransaction (withGasLimit tx gas)) = false.
Proof. intros. cbn. now rewrite Z.eqb_refl. Qed.

Lemma submit_raw_store :
  forall env network signer toastId txInputs tx options s gas out s',
    rawTransactionOf txInputs = Some tx ->
    fst (getRawTxGasLimit env network (getProvider env network) tx s) = Returned gas ->
    submit env network signer toastId txInputs options s = (out, s') ->
    store s' = updateStore (store s) tx (withGasLimit (store s tx) gas)
    /\ countEvents isSubmission (trace s') = S (countEvents isSubmission (trace s))
    /\ countEvents (isSentWithout gas) (trace s')
       = countEvents (isSentWithout gas) (trace s).
Proof.
  intros env network signer toastId txInputs tx options s gas out s' Hraw Hgas H.
  destruct (getRawTxGasLimit_frame env network (getProvider env network) tx s)
    as (out0 & events & Hq & _ & Hclass).
  rewrite Hq in Hgas. cbn [fst] in Hgas. subst out0.
  destruct txInputs; inversion Hraw; subst;
    unfold submit, attempt, tryCatch, liftResult, assignGasLimit, readTx,
      bind, emit, ret, throw in H;
    rewrite Hq in H; cbn beta iota in H;
    cbn [store logged] in H; rewrite updateStore_same in H;
    run H; try discriminate H; inversion H; subst; clear H;
    (split; [reflexivity |]);
    cbn [trace store logged]; rewrite ?countEvents_app; count_class;
    unfold countEvents; cbn [filter]; rewrite ?sent_with_gas;
    cbn [filter List.length isSubmission isSentWithout]; split; lia.
Qed.

(** C10. On the raw-transaction path, once the gas limit is computed the
    entry point assigns it to the [gasLimit] field of the caller's own
    transaction object, and to nothing else in the store; the one
    transaction it submits carries that limit; and the assignment is
    still there when the invocation is over, whatever its outcome, null
    included. *)
Theorem C10_raw_path_assigns_gas_limit_in_place :
  forall env network signer txInputs tx options s gas out s',
    walletSigner env = Some signer ->
    truthyAccount (walletAccount env) = true ->
    rawTransactionOf txInputs = Some tx ->
    fst (getRawTxGasLimit env network (getProvider env network) tx s) = Returned gas ->
    useTransaction env network txInputs options s = (out, s') ->
    store s' tx = withGasLimit (store s tx) gas
    /\ gasLimit (store s' tx) = Some gas
    /\ (forall r, r <> tx -> store s' r = store s r)
    /\ countEvents isSubmission (trace s') = S (countEvents isSubmission (trace s))
    /\ countEvents (isSentWithout gas) (trace s')
       = countEvents (isSentWithout gas) (trace s).
Proof.
  intros env network signer txInputs tx options s gas out s'
         Hsigner Haccount Hraw Hgas H.
  unfold useTransaction in H. rewrite Hsigner, Haccount in H.
  unfold liftCompletion, updatePendingToast, updateToast, createPendingToast,
    bind, emit, ret, throw in H.
  destruct (submit env network signer (nextToast s) txInputs options _)
    as [submitted s1] eqn:Hsubmit.
  eapply submit_raw_store in Hsubmit; [| exact Hraw |].
  2: { rewrite <- Hgas. now apply getRawTxGasLimit_store_only. }
  cbn [store trace] in Hsubmit. destruct Hsubmit as (Hstore & Hsent & Hwithout).
  rewrite countEvents_app in Hsent, Hwithout.
  cbn [countEvents filter List.length isSubmission isSentWithout] in Hsent, Hwithout.
  assert (Hend : store s' = store s1
                 /\ countEvents isSubmission (trace s')
                    = countEvents isSubmission (trace s1)
                 /\ countEvents (isSentWithout gas) (trace s')
                    = countEvents (isSentWithout gas) (trace s1)).
  { run H; try discriminate H; inversion H; subst; clear H;
      (split; [reflexivity |]);
      cbn [trace store logged afterPolling]; rewrite ?countEvents_app; count_class;
      cbn [countEvents filter List.length isSubmission isSentWithout]; split; lia. }
  destruct Hend as (Hstore' & Hsent' & Hwithout').
  rewrite Hstore', Hstore, Hsent', Hwithout'.
  split; [apply updateStore_same |].
  split; [now rewrite updateStore_same |].
  split; [intros r Hr; now apply updateStore_other |].
  split; lia.
Qed.

Lemma C10_witness :
  fst (getRawTxGasLimit (Sample.env Sample.never) Sample.network
         (getProvider (Sample.env Sample.never) Sample.network) 0%nat Sample.initial)
    = Returned 150000
  /\ fst (useTransaction (Sample.env Sample.never) Sample.network (TxPopulated 0%nat)
            Sample.options Sample.initial) = Returned None
  /\ gasLimit (store Sample.initial 0%nat) = None
  /\ gasLimit (store (snd (useTransaction (Sample.env Sample.never) Sample.network
                             (TxPopulated 0%nat) Sample.options Sample.initial))
                 0%nat) = Some 150000.
Proof.
  split; [reflexivity |]. split; [vm_compute; reflexivity |].
  split; [reflexivity |].
  apply (C10_raw_path_assigns_gas_limit_in_place (Sample.env Sample.never)
           Sample.network Sample.signer (TxPopulated 0%nat) 0%nat Sample.options
           Sample.initial 150000
           (fst (useTransaction (Sample.env Sample.never) Sample.network
                   (TxPopulated 0%nat) Sample.options Sample.initial)));
    reflexivity.
Defined.

(** ** Failures of the collaborators *)

(** Without callbacks of the caller nothing is thrown: a failure of gas
    estimation or of submission ends in [handleError] and null. *)
Lemma submit_catches :
  forall env network signer toastId txInputs s out s',
    submit env network signer toastId txInputs None s = (out, s') ->
    forall e, out <> Thrown e.
Proof.
  intros env network signer toastId txInputs s out s' H.
  destruct txInputs;
    unfold submit, attempt, tryCatch, liftResult, assignGasLimit, readTx,
      bind, emit, ret, throw in H;
    run H; try discriminate H; inversion H; subst; clear H;
    try discriminate;
    cbn [eo_handler errorOptions] in *; congruence.
Qed.

Lemma useTransaction_catches :
  forall env network txInputs s out s',
    useTransaction env network txInputs None s = (out, s') ->
    forall e, out <> Thrown e.
Proof.
  intros env network txInputs s out s' H. unfold useTransaction in H.
  destruct (walletSigner env) as [signer |]; [| inversion H; discriminate].
  destruct (truthyAccount (walletAccount env)); [| inversion H; discriminate].
  unfold liftCompletion, updatePendingToast, updateToast, createPendingToast,
    bind, emit, ret, throw in H.
  destruct (submit env network signer (nextToast s) txInputs None _)
    as [submitted s1] eqn:Hsubmit.
  pose proof (submit_catches _ _ _ _ _ _ _ _ Hsubmit) as Hcaught.
  run H; try discriminate H; inversion H; subst; clear H;
    try discriminate; try (intros e He; now apply (Hcaught e));
    try (intros e He; match goal with Hn : forall _, _ <> Thrown _ |- _ =>
                                        now apply (Hn e) end);
    cbn [eo_handler errorOptions] in *; congruence.
Qed.

(** After a successful submission, a receipt lookup that throws on the
    first poll leaves the whole invocation pending. *)
Lemma lookup_failure_leaves_invocation_pending :
  forall env network signer txInputs options s contract response s1 e,
    walletSigner env = Some signer ->
    truthyAccount (walletAccount env) = true ->
    submit env network signer (nextToast s) txInputs options
      (snd (createPendingToast s)) = (Returned (contract, Some response), s1) ->
    getTransactionReceipt (getProvider env network) (hash response) (lookups s1)
      = Err e ->
    fst (useTransaction env network txInputs options s) = Pending.
Proof.
  intros env network signer txInputs options s contract response s1 e
         Hsigner Haccount Hsubmit Hlookup.
  unfold useTransaction. rewrite Hsigner, Haccount.
  unfold bind at 1. unfold createPendingToast in *. cbn [snd] in Hsubmit.
  unfold bind at 1. rewrite Hsubmit.
  unfold updatePendingToast, bind, emit.
  now rewrite (awaitReceipt_lookup_throws _ _ _ e).
Qed.

(** C4. The claim fails on the code for a failure of the receipt lookup.
    The provider throws on the first lookup after a successful
    submission: the error is neither caught nor classified (no call of
    the reporting procedure leaves a trace: no report, no handler call,
    no change of the toast), and the invocation never settles. *)
Theorem C4_lookup_failure_is_not_caught :
  let run := useTransaction (Sample.env Sample.failing) Sample.network
               (TxPopulated 0%nat) Sample.options Sample.initial in
  getTransactionReceipt (getProvider (Sample.env Sample.failing) Sample.network)
    Sample.txHash 0%nat = Err (newError "could not detect network")
  /\ fst run = Pending
  /\ countEvents isErrorReport (trace (snd run)) = 0%nat
  /\ countEvents isHandlerCall (trace (snd run)) = 0%nat
  /\ countEvents toastSettled (trace (snd run)) = 0%nat
  /\ countEvents isLookup (trace (snd run)) = 1%nat.
Proof. vm_compute. repeat split; reflexivity. Qed.

(** * Further properties *)

(** ** The classifier *)

(** X1. The fields of an envelope never reach the classified error: an
    error wrapped once or twice is classified as the error inside, and a
    third level of nesting is not opened. *)
Theorem X1_extractError_looks_two_levels_deep :
  forall options code0 message0 data0 code1 message1 data1 code2 message2 data2 deeper,
    extractError
      (mkRawError code0 message0 data0 (Some (mkRawError code1 message1 data1 None)))
      options
    = extractError (mkRawError code1 message1 data1 None) options
    /\ extractError
         (mkRawError code0 message0 data0
            (Some (mkRawError code1 message1 data1
                     (Some (mkRawError code2 message2 data2 deeper)))))
         options
       = extractError (mkRawError code2 message2 data2 None) options.
Proof. intros. split; reflexivity. Qed.

Lemma nonEmpty_toLowerCase :
  forall s, nonEmpty (toLowerCase s) = nonEmpty s.
Proof.
  intros [| c [| c1 [| c2 s]]]; cbn [toLowerCase];
    repeat match goal with
      | |- context [if ?b then _ else _] => destruct b
      end;
    reflexivity.
Qed.

Lemma matchMessage_lowercase :
  forall m1 m2 pattern,
    option_map toLowerCase m1 = option_map toLowerCase m2 ->
    matchMessage m1 pattern = matchMessage m2 pattern.
Proof.
  intros [m1 |] [m2 |] pattern H; cbn in H; try discriminate H; [| reflexivity].
  injection H as H. unfold matchMessage.
  destruct (p_message pattern) as [pm |]; [| reflexivity].
  rewrite <- (nonEmpty_toLowerCase m1), <- (nonEmpty_toLowerCase m2), H.
  reflexivity.
Qed.

Lemma existsb_pointwise :
  forall (A : Type) (f g : A -> bool) l,
    (forall x, f x = g x) -> existsb f l = existsb g l.
Proof.
  intros A f g l H. induction l as [| x l IH]; [reflexivity |].
  cbn [existsb]. now rewrite H, IH.
Qed.

Lemma firstReason_ext :
  forall code1 message1 description1 code2 message2 description2 table,
    (forall pattern,
        matchPattern code1 message1 description1 pattern
        = matchPattern code2 message2 description2 pattern) ->
    firstReason code1 message1 description1 table
    = firstReason code2 message2 description2 table.
Proof.
  intros code1 message1 description1 code2 message2 description2 table H.
  induction table as [| [reason patterns] table IH]; [reflexivity |].
  cbn [firstReason].
  rewrite (existsb_pointwise _ _ _ patterns H). now rewrite IH.
Qed.

(** X2. The reason depends on the message only through its lower-case
    form: two errors that differ in the letter case of their innermost
    message get the same reason. *)
Theorem X2_classification_ignores_letter_case :
  forall rawError1 rawError2 options,
    raw_code (innermost rawError1) = raw_code (innermost rawError2) ->
    errorDataOf (innermost rawError1) = errorDataOf (innermost rawError2) ->
    option_map toLowerCase (raw_message (innermost rawError1))
    = option_map toLowerCase (raw_message (innermost rawError2)) ->
    te_reason (extractError rawError1 options)
    = te_reason (extractError rawError2 options).
Proof.
  intros rawError1 rawError2 options Hcode Hdata Hmessage.
  unfold extractError. cbn [te_reason]. rewrite Hcode, Hdata.
  apply firstReason_ext. intros pattern. unfold matchPattern.
  now rewrite (matchMessage_lowercase _ _ pattern Hmessage).
Qed.

Lemma X2_witness :
  raw_message (newError Scenario.kelvinMessage)
    <> raw_message (newError "underlying network changed")
  /\ te_reason (extractError (newError Scenario.kelvinMessage)
                  (Sample.errorOptionsFor None))
     = te_reason (extractError (newError "underlying network changed")
                    (Sample.errorOptionsFor None))
  /\ te_reason (extractError (newError "underlying network changed")
                  (Sample.errorOptionsFor None)) = Some NetworkChanged.
Proof.
  split; [discriminate |]. split; [| vm_compute; reflexivity].
  apply (X2_classification_ignores_letter_case
           (newError Scenario.kelvinMessage)
           (newError "underlying network changed")
           (Sample.errorOptionsFor None));
    vm_compute; reflexivity.
Defined.

(** X3. TradeSlippage is never guessed from a code or a message: an
    error gets this reason only when a contract is at hand, the error
    carries non-empty data, the contract's interface decodes it, and the
    decoded name contains TotalCostOutsideOfSpecifiedBounds. *)
Theorem X3_TradeSlippage_requires_decoded_error :
  forall rawError options,
    te_reason (extractError rawError options) = Some TradeSlippage ->
    exists contract data description,
      eo_contract options = Some contract
      /\ errorDataOf (innermost rawError) = Some data
      /\ truthyData data = true
      /\ interface_parseError contract data = Some description
      /\ includes (toLowerCase (ed_name description))
                  "totalcostoutsideofspecifiedbounds" = true.
Proof.
  intros rawError options H. unfold extractError in H. cbn [te_reason] in H.
  unfold TX_ERROR_PATTERNS in H. cbn [firstReason] in H.
  destruct (existsb _ [byName "TotalCostOutsideOfSpecifiedBounds"]) eqn:Hrow.
  - clear H. cbn [existsb] in Hrow. rewrite orb_false_r in Hrow.
    unfold matchPattern, matchCode, matchMessage in Hrow.
    cbn [p_code p_message byName orb] in Hrow.
    unfold matchName, describe in Hrow. cbn [p_name byName] in Hrow.
    destruct (errorDataOf (innermost rawError)) as [data |]; [| discriminate Hrow].
    destruct (eo_contract options) as [contract |]; [| discriminate Hrow].
    destruct (truthyData data) eqn:Htruthy; [| discriminate Hrow].
    destruct (interface_parseError contract data) as [description |] eqn:Hparse;
      [| discriminate Hrow].
    exists contract, data, description. repeat split; auto.
  - repeat match type of H with
           | (if ?b then _ else _) = _ => destruct b; [discriminate H |]
           end.
    discriminate H.
Qed.

Lemma X3_witness :
  te_reason (extractError Sample.rejected
               (Sample.errorOptionsFor (Some Sample.slippageContract)))
    = Some TradeSlippage
  /\ exists contract data description,
       eo_contract (Sample.errorOptionsFor (Some Sample.slippageContract))
         = Some contract
       /\ errorDataOf (innermost Sample.rejected) = Some data
       /\ truthyData data = true
       /\ interface_parseError contract data = Some description
       /\ includes (toLowerCase (ed_name description))
                   "totalcostoutsideofspecifiedbounds" = true.
Proof.
  split; [reflexivity |].
  apply (X3_TradeSlippage_requires_decoded_error Sample.rejected
           (Sample.errorOptionsFor (Some Sample.slippageContract))).
  reflexivity.
Defined.

(** X4. A rejection is recognised by its code alone: an error whose
    innermost code is 4001 or "ACTION_REJECTED" is classified UserDenied
    whatever its message, unless its data decodes to the slippage error,
    and is then dismissed without a message. *)
Theorem X4_rejection_codes_are_UserDenied :
  forall env rawError options,
    raw_code (innermost rawError) = Some (CodeNum 4001)
    \/ raw_code (innermost rawError) = Some (CodeStr "ACTION_REJECTED") ->
    matchName (describe (errorDataOf (innermost rawError)) (eo_contract options))
      (byName "TotalCostOutsideOfSpecifiedBounds") = false ->
    te_reason (extractError rawError options) = Some UserDenied
    /\ errorReasonMessage env (extractError rawError options) options = None.
Proof.
  intros env rawError options Hcode Hname.
  assert (Hreason : te_reason (extractError rawError options) = Some UserDenied).
  { unfold extractError. cbn [te_reason].
    apply (firstReason_first_match _ _ _
             [(TradeSlippage, [byName "TotalCostOutsideOfSpecifiedBounds"])]
             UserDenied).
    - constructor; [| constructor]. cbn [snd existsb].
      unfold matchPattern. rewrite Hname. reflexivity.
    - apply existsb_exists. destruct Hcode as [Hcode | Hcode]; rewrite Hcode.
      + exists (byCode (CodeNum 4001)). split; [cbn; tauto | reflexivity].
      + exists (byCode (CodeStr "ACTION_REJECTED")).
        split; [cbn; tauto | reflexivity]. }
  split; [exact Hreason |].
  unfold errorReasonMessage. now rewrite Hreason.
Qed.

Lemma X4_witness :
  te_reason (extractError
               (mkRawError (Some (CodeNum 4001)) (Some "Request failed") None None)
               (Sample.errorOptionsFor None)) = Some UserDenied.
Proof.
  apply (X4_rejection_codes_are_UserDenied (Sample.env Sample.never)
           (mkRawError (Some (CodeNum 4001)) (Some "Request failed") None None)
           (Sample.errorOptionsFor None)).
  - left. reflexivity.
  - reflexivity.
Defined.

Lemma matchPattern_blank :
  forall message pattern,
    message = None \/ message = Some EmptyString ->
    matchPattern None message None pattern = false.
Proof.
  intros message pattern H. unfold matchPattern, matchCode, matchMessage, matchName.
  destruct H as [H | H]; subst message;
    destruct (p_code pattern), (p_name pattern), (p_message pattern) as [pm |];
    cbn; rewrite ?andb_false_r; reflexivity.
Qed.

(** X5. An error that says nothing (no code, no message or an empty one,
    no decodable data) has no reason, and is reported under the message
    of its stage: "Transaction reverted" for a revert, "Failed to send
    transaction" otherwise.  It is never dismissed silently. *)
Theorem X5_blank_error_gets_stage_message :
  forall env rawError options,
    raw_code (innermost rawError) = None ->
    raw_message (innermost rawError) = None
    \/ raw_message (innermost rawError) = Some EmptyString ->
    describe (errorDataOf (innermost rawError)) (eo_contract options) = None ->
    te_reason (extractError rawError options) = None
    /\ errorReasonMessage env (extractError rawError options) options
       = Some (stageMessage (eo_stage options))
    /\ falsyMessage (errorReasonMessage env (extractError rawError options) options)
       = false.
Proof.
  intros env rawError options Hcode Hmessage Hdescription.
  assert (Hreason : te_reason (extractError rawError options) = None).
  { unfold extractError. cbn [te_reason]. rewrite Hcode, Hdescription.
    apply firstReason_no_match.
    apply Forall_forall. intros [reason patterns] _. cbn [snd].
    induction patterns as [| pattern patterns IH]; [reflexivity |].
    cbn [existsb]. now rewrite matchPattern_blank, IH. }
  split; [exact Hreason |].
  unfold errorReasonMessage. rewrite Hreason.
  destruct (eo_stage options); split; reflexivity.
Qed.

Lemma X5_witness :
  errorReasonMessage (Sample.env Sample.never)
    (extractError Scenario.plainError Scenario.loudOptions) Scenario.loudOptions
  = Some "Transaction reverted".
Proof.
  apply (X5_blank_error_gets_stage_message (Sample.env Sample.never)
           Scenario.plainError Scenario.loudOptions);
    try reflexivity. left. reflexivity.
Defined.

(** ** Failure reporting *)

(** X6. Every failure but a rejection by the user is handled loudly and
    in a fixed order: the report to the backend first, then the error
    toast with a message that is not empty (and with a link to the
    transaction when a receipt with a hash is known), and last the
    caller's handler, once, when there is one.  The outcome is the
    handler's: if it throws, the throw leaves [handleError] after the
    report and the toast are done. *)
Theorem X6_loud_failure_report_toast_handler :
  forall env rawError options s,
    te_reason (extractError rawError options) <> Some UserDenied ->
    handleError env rawError options s
    = (handlerOutcome rawError options,
       logged
         (EvPostTransactionError (extractError rawError options) (eo_stage options)
          :: EvUpdateToast (eo_toastId options) VariantError
               (messageText
                  (errorReasonMessage env (extractError rawError options) options))
               (errorHref env options) DEFAULT_TOAST_ERROR_TIMEOUT
          :: handlerCalls rawError options) s)
    /\ nonEmpty
         (messageText
            (errorReasonMessage env (extractError rawError options) options))
       = true.
Proof.
  intros env rawError options s Hreason.
  assert (Hloud : falsyMessage
                    (errorReasonMessage env (extractError rawError options) options)
                  = false).
  { destruct (falsyMessage _) eqn:Hsilent; [| reflexivity].
    apply silent_iff_UserDenied in Hsilent. contradiction. }
  split.
  - unfold handleError. rewrite Hloud.
    unfold handlerOutcome, handlerCalls, errorHref, bind, updateToast, emit, ret,
      throw, liftCompletion, logged.
    destruct (eo_handler options) as [handler |].
    + destruct (handler _ _ _); cbn [trace store nextToast lookups];
        now rewrite <- !app_assoc.
    + cbn [trace store nextToast lookups]. now rewrite <- !app_assoc.
  - destruct (errorReasonMessage env _ options) as [message |];
      [| discriminate Hloud].
    cbn [falsyMessage messageText] in *. now apply negb_false_iff.
Qed.

Lemma X6_witness :
  handleError (Sample.env Sample.never) Scenario.plainError Scenario.loudOptions
    Sample.initial
  = (Thrown (newError "handler failed"),
     logged
       [ EvPostTransactionError
           (extractError Scenario.plainError Scenario.loudOptions) Reverted;
         EvUpdateToast 7%nat VariantError "Transaction reverted"
           (Some "https://explorer/tx/0xabc") 10000;
         EvHandler (extractError Scenario.plainError Scenario.loudOptions)
           Scenario.plainError (Some Scenario.revertedReceipt) ]
       Sample.initial).
Proof.
  apply (X6_loud_failure_report_toast_handler (Sample.env Sample.never)
           Scenario.plainError Scenario.loudOptions Sample.initial).
  discriminate.
Defined.

(** ** Gas estimation *)

Lemma clampGas_range :
  forall config gas,
    minGas config <= maxGas config ->
    minGas config <= clampGas config gas <= maxGas config.
Proof.
  intros config gas Hord. unfold clampGas.
  destruct (Z.ltb_spec gas (minGas config));
    destruct (Z.gtb_spec gas (maxGas config)); lia.
Qed.

Lemma getRawTxGasLimit_clamps :
  forall env network provider tx s gas s',
    getRawTxGasLimit env network provider tx s = (Returned gas, s') ->
    exists g, gas = clampGas (getNetworkConfig env network) g.
Proof.
  intros env network provider tx s gas s' H.
  unfold getRawTxGasLimit, applyBuffer, liftResult, readTx, bind, emit, ret, throw in H.
  destruct (gasLimit (store s tx)) as [explicit |].
  - inversion H. now exists explicit.
  - destruct (estimateGas provider _) as [estimate | e]; [| discriminate H].
    destruct (bigNumberFrom _) as [factor |]; [| discriminate H].
    inversion H. now exists (Z.quot (estimate * factor) 10000).
Qed.

Lemma getContractTxGasLimit_clamps :
  forall env network contract method params optionsGasLimit s gas s',
    getContractTxGasLimit env network contract method params optionsGasLimit s
      = (Returned gas, s') ->
    exists g, gas = clampGas (getNetworkConfig env network) g.
Proof.
  intros env network contract method params optionsGasLimit s gas s' H.
  unfold getContractTxGasLimit, applyBuffer, liftResult, bind, emit, ret, throw in H.
  destruct optionsGasLimit as [explicit |].
  - inversion H. now exists explicit.
  - destruct (contract_estimateGas contract method params) as [estimate | e];
      [| discriminate H].
    destruct (bigNumberFrom _) as [factor |]; [| discriminate H].
    inversion H. now exists (Z.quot (estimate * factor) 10000).
Qed.

(** X7. On a network whose bounds are in order, whatever either
    estimator returns lies within [minGas, maxGas], be it an estimate or
    the caller's explicit limit. *)
Theorem X7_gas_limit_within_bounds :
  forall env network provider contract method params optionsGasLimit tx s gas s',
    minGas (getNetworkConfig env network) <= maxGas (getNetworkConfig env network) ->
    getRawTxGasLimit env network provider tx s = (Returned gas, s')
    \/ getContractTxGasLimit env network contract method params optionsGasLimit s
       = (Returned gas, s') ->
    minGas (getNetworkConfig env network) <= gas <= maxGas (getNetworkConfig env network).
Proof.
  intros env network provider contract method params optionsGasLimit tx s gas s'
         Hord [H | H].
  - apply getRawTxGasLimit_clamps in H. destruct H as [g ->].
    now apply clampGas_range.
  - apply getContractTxGasLimit_clamps in H. destruct H as [g ->].
    now apply clampGas_range.
Qed.

Lemma X7_witness :
  getContractTxGasLimit (Sample.env Sample.never) Sample.network Scenario.pool
    "swap" [] (Some 5) Sample.initial
  = (Returned 21000, Sample.initial)
  /\ minGas Sample.config <= 21000 <= maxGas Sample.config.
Proof.
  split; [reflexivity |].
  apply (X7_gas_limit_within_bounds (Sample.env Sample.never) Sample.network
           (Sample.provider Sample.never) Scenario.pool "swap" [] (Some 5) 1%nat
           Sample.initial 21000 Sample.initial).
  - vm_compute. discriminate.
  - right. reflexivity.
Defined.

(** X8. When the buffer of the network does not give an integer factor
    (a NaN, an infinite or a fractional product), an estimator that has
    no explicit limit still asks for the estimate, once, and then throws
    the numeric fault of the conversion; it returns no gas limit. *)
Theorem X8_unusable_buffer_fails_the_estimate :
  forall env network provider contract method params tx s estimate,
    bigNumberFrom (bufferFactor (getNetworkConfig env network)) = None ->
    (gasLimit (store s tx) = None ->
     estimateGas provider (store s tx) = Ok estimate ->
     getRawTxGasLimit env network provider tx s
     = (Thrown (numericFault env (bufferFactor (getNetworkConfig env network))),
        logged [EvProviderEstimateGas (store s tx)] s))
    /\ (contract_estimateGas contract method params = Ok estimate ->
        getContractTxGasLimit env network contract method params None s
        = (Thrown (numericFault env (bufferFactor (getNetworkConfig env network))),
           logged [EvContractEstimateGas method params] s)).
Proof.
  intros env network provider contract method params tx s estimate Hfactor. split.
  - intros Hnone Hestimate.
    unfold getRawTxGasLimit, applyBuffer, liftResult, readTx, bind, emit, ret, throw.
    rewrite Hnone. cbn [store logged]. now rewrite Hestimate, Hfactor.
  - intros Hestimate.
    unfold getContractTxGasLimit, applyBuffer, liftResult, bind, emit, ret, throw.
    now rewrite Hestimate, Hfactor.
Qed.

Lemma X8_witness :
  PrimFloat.is_nan (gasBuffer (getNetworkConfig Scenario.brokenEnv Sample.network))
    = true
  /\ getRawTxGasLimit Scenario.brokenEnv Sample.network
       (Sample.provider Sample.never) 0%nat Sample.initial
     = (Thrown (newError "underflow"),
        logged [EvProviderEstimateGas Sample.tx] Sample.initial).
Proof.
  split; [reflexivity |].
  apply (proj1 (X8_unusable_buffer_fails_the_estimate Scenario.brokenEnv
                  Sample.network (Sample.provider Sample.never) Scenario.pool
                  "swap" [] 0%nat Sample.initial 100000 eq_refl));
    reflexivity.
Defined.

(** ** Receipt polling *)

Lemma pollReceipt_rounds :
  forall provider txHash fuel n s out s',
    (n <= 100)%nat ->
    pollReceipt fuel provider txHash n s = Some (out, s') ->
    exists k events,
      (1 <= k)%nat /\ (k + n <= 101)%nat
      /\ EvSetTimeout POLL_INTERVAL :: events = pollTrace txHash k
      /\ trace s' = (trace s ++ events)%list
      /\ lookups s' = (lookups s + k)%nat.
Proof.
  intros provider txHash.
  induction fuel as [| fuel IH]; intros n s out s' Hn H; [discriminate H |].
  cbn [pollReceipt] in H.
  assert (Hone : forall o,
             Some (o, noteLookup txHash s) = Some (out, s') ->
             exists k events,
               (1 <= k)%nat /\ (k + n <= 101)%nat
               /\ EvSetTimeout POLL_INTERVAL :: events = pollTrace txHash k
               /\ trace s' = (trace s ++ events)%list
               /\ lookups s' = (lookups s + k)%nat).
  { intros o Ho. inversion Ho; subst.
    exists 1%nat, [EvGetTransactionReceipt txHash].
    cbn [pollTrace noteLookup trace lookups]. repeat split; lia. }
  destruct (getTransactionReceipt provider txHash (lookups s)) as [[r |] | e];
    try (now apply (Hone _ H)).
  destruct (Nat.ltb_spec n 100); [| now apply (Hone _ H)].
  apply IH in H; [| lia].
  destruct H as (k & events & Hk & Hbound & Hshape & Htrace & Hcount).
  exists (S k),
    (EvGetTransactionReceipt txHash :: EvSetTimeout POLL_INTERVAL :: events).
  cbn [noteTimer noteLookup logged trace lookups] in Htrace, Hcount.
  cbn [pollTrace]. rewrite <- Hshape, Htrace, <- !app_assoc.
  repeat split; lia.
Qed.

(** X9. Whatever the provider answers, awaiting the receipt does nothing
    but rounds of one 250 ms timer followed by one lookup of the hash it
    was given: at least one round, at most 101, the first lookup too
    coming after a timer.  The store and the toasts are not touched. *)
Theorem X9_polling_is_timer_then_lookup :
  forall provider txHash s out s',
    awaitReceipt provider txHash s = (out, s') ->
    exists k,
      (1 <= k <= 101)%nat
      /\ trace s' = (trace s ++ pollTrace txHash k)%list
      /\ lookups s' = (lookups s + k)%nat
      /\ store s' = store s
      /\ nextToast s' = nextToast s.
Proof.
  intros provider txHash s out s' H.
  pose proof (awaitReceipt_frame _ _ _ _ _ H) as (Hstore & Htoast & _).
  unfold awaitReceipt in H.
  destruct (pollReceipt 101 provider txHash 0 (noteTimer s)) as [[o t] |] eqn:Hrun.
  - inversion H; subst. apply pollReceipt_rounds in Hrun; [| lia].
    destruct Hrun as (k & events & Hk & Hbound & Hshape & Htrace & Hcount).
    exists k. cbn [noteTimer logged trace lookups] in Htrace, Hcount.
    rewrite <- Hshape, Htrace, <- app_assoc.
    repeat split; auto; lia.
  - exfalso. revert Hrun. apply pollReceipt_fuel. lia.
Qed.

Lemma X9_witness :
  exists k,
    (1 <= k <= 101)%nat
    /\ trace (snd (awaitReceipt (Sample.provider Sample.atOnce) Sample.txHash
                     Sample.initial))
       = pollTrace Sample.txHash k.
Proof.
  destruct (X9_polling_is_timer_then_lookup (Sample.provider Sample.atOnce)
              Sample.txHash Sample.initial
              (fst (awaitReceipt (Sample.provider Sample.atOnce) Sample.txHash
                      Sample.initial))
              (snd (awaitReceipt (Sample.provider Sample.atOnce) Sample.txHash
                      Sample.initial)))
    as (k & Hk & Htrace & _).
  - now destruct (awaitReceipt _ _ _).
  - exists k. split; [exact Hk | exact Htrace].
Defined.

Lemma pollReceipt_throws_later :
  forall provider txHash k fuel n s e,
    (k < fuel)%nat -> (n + k <= 100)%nat ->
    (forall j, (j < k)%nat ->
               getTransactionReceipt provider txHash (lookups s + j) = Ok None) ->
    getTransactionReceipt provider txHash (lookups s + k) = Err e ->
    exists s',
      pollReceipt fuel provider txHash n s = Some (Pending, s')
      /\ lookups s' = (lookups s + S k)%nat.
Proof.
  intros provider txHash.
  induction k as [| k IH]; intros fuel n s e Hfuel Hn Hnone Hthrow;
    (destruct fuel as [| fuel]; [lia |]); cbn [pollReceipt].
  - rewrite Nat.add_0_r in Hthrow. rewrite Hthrow.
    eexists. split; [reflexivity |]. cbn [noteLookup lookups]. lia.
  - specialize (Hnone 0%nat ltac:(lia)) as Hfirst.
    rewrite Nat.add_0_r in Hfirst. rewrite Hfirst.
    destruct (Nat.ltb_spec n 100); [| lia].
    destruct (IH fuel (S n) (noteTimer (noteLookup txHash s)) e)
      as (s' & Hrun & Hcount); try lia.
    + intros j Hj. cbn [lookups noteTimer noteLookup logged].
      replace (S (lookups s) + j)%nat with (lookups s + S j)%nat by lia.
      apply Hnone. lia.
    + cbn [lookups noteTimer noteLookup logged].
      replace (S (lookups s) + k)%nat with (lookups s + S k)%nat by lia.
      exact Hthrow.
    + exists s'. split; [exact Hrun |].
      cbn [lookups noteTimer noteLookup logged] in Hcount. lia.
Qed.

(** X10. A receipt lookup that throws, on the first poll or on any of
    the 100 retries, ends the polling without an answer: the awaited
    promise is neither resolved nor rejected, and no further lookup is
    made. *)
Theorem X10_lookup_throw_leaves_polling_pending :
  forall provider txHash s k e,
    (k <= 100)%nat ->
    (forall j, (j < k)%nat ->
               getTransactionReceipt provider txHash (lookups s + j) = Ok None) ->
    getTransactionReceipt provider txHash (lookups s + k) = Err e ->
    exists s',
      awaitReceipt provider txHash s = (Pending, s')
      /\ lookups s' = (lookups s + S k)%nat.
Proof.
  intros provider txHash s k e Hk Hnone Hthrow.
  destruct (pollReceipt_throws_later provider txHash k 101 0 (noteTimer s) e)
    as (s' & Hrun & Hcount); try lia; auto.
  exists s'. unfold awaitReceipt. rewrite Hrun. split; [reflexivity | exact Hcount].
Qed.

Lemma X10_witness :
  exists s',
    awaitReceipt (Sample.provider Scenario.failingLater) Sample.txHash Sample.initial
      = (Pending, s')
    /\ lookups s' = 3%nat.
Proof.
  apply (X10_lookup_throw_leaves_polling_pending
           (Sample.provider Scenario.failingLater) Sample.txHash Sample.initial
           2%nat (newError "timeout")).
  - lia.
  - intros j Hj. destruct j as [| [| j]]; [reflexivity | reflexivity | lia].
  - reflexivity.
Defined.

(** ** The events of an invocation *)

Lemma length_filter_class :
  forall class p (events : list Event),
    (forall e, class e = true -> p e = false) ->
    forallb class events = true ->
    List.length (filter p events) = 0%nat.
Proof. exact countEvents_class. Qed.

Lemma paramsEq_refl : forall ps, paramsEq ps ps = true.
Proof. intros ps. unfold paramsEq. now destruct (list_eq_dec string_dec ps ps). Qed.

Lemma getRawTxGasLimit_frame_once :
  forall env network provider tx s,
  exists out events,
    getRawTxGasLimit env network provider tx s = (out, logged events s)
    /\ out <> Pending
    /\ forallb isEstimate events = true
    /\ (countEvents isEstimate events <= 1)%nat
    /\ countEvents isEstimate events
       = List.length (estimateEvents (TxPopulated tx) s).
Proof.
  intros env network provider tx s.
  unfold getRawTxGasLimit, applyBuffer, liftResult, readTx, bind, emit, ret, throw.
  assert (Hs : s = logged [] s).
  { destruct s as [st tr nt lk]. unfold logged. cbn [trace store nextToast lookups].
    now rewrite app_nil_r. }
  cbn [estimateEvents].
  destruct (gasLimit (store s tx)).
  - exists (Returned (clampGas (getNetworkConfig env network) z)), [].
    rewrite <- Hs. repeat split; [discriminate | cbn; lia].
  - cbn [store logged].
    destruct (estimateGas provider (store s tx)) as [estimate | e];
      [destruct (bigNumberFrom _) |];
      eexists; exists [EvProviderEstimateGas (store s tx)];
      (split; [reflexivity |]); repeat split; try discriminate; cbn; lia.
Qed.

Lemma getContractTxGasLimit_frame_once :
  forall env network contract method params optionsGasLimit s,
  exists out events,
    getContractTxGasLimit env network contract method params optionsGasLimit s
      = (out, logged events s)
    /\ out <> Pending
    /\ forallb isEstimate events = true
    /\ (countEvents isEstimate events <= 1)%nat
    /\ countEvents isEstimate events
       = List.length
           (estimateEvents (TxMethod contract method params optionsGasLimit) s).
Proof.
  intros env network contract method params optionsGasLimit s.
  unfold getContractTxGasLimit, applyBuffer, liftResult, bind, emit, ret, throw.
  assert (Hs : s = logged [] s).
  { destruct s as [st tr nt lk]. unfold logged. cbn [trace store nextToast lookups].
    now rewrite app_nil_r. }
  cbn [estimateEvents].
  destruct optionsGasLimit as [explicit |].
  - exists (Returned (clampGas (getNetworkConfig env network) explicit)), [].
    rewrite <- Hs. repeat split; [discriminate | cbn; lia].
  - destruct (contract_estimateGas contract method params) as [estimate | e];
      [destruct (bigNumberFrom _) |];
      eexists; exists [EvContractEstimateGas method params];
      (split; [reflexivity |]); repeat split; try discriminate; cbn; lia.
Qed.

(** Counting in the events that a leaf of the symbolic run added. *)
Ltac conjuncts :=
  repeat match goal with
    | |- _ /\ _ => split
    | |- forall _, _ => intro
    end.

Ltac count_events :=
  cbn [app filter List.length isCreate toastSettled isClose isTerminalUpdate
       isErrorReport isHandlerCall isErrorStyled isSubmission isEstimate isLookup
       isSuccessReport isSuccessUpdate isWarningUpdate isPendingUpdate isOnComplete
       isReportedOutside isSubmittedWithout settles orb andb negb eo_stage eo_toastId
       errorOptions gasLimit withGasLimit store trace nextToast lookups logged
       afterPolling rawTransactionOf].

Ltac counted :=
  conjuncts;
  cbn [rawTransactionOf] in *;
  repeat match goal with
    | Hx : Returned _ = Returned _ |- _ => injection Hx as Hx; subst
    | Hx : Some _ = Some _ |- _ => injection Hx as Hx; subst
    end;
  unfold countEvents in *;
  count_events;
  rewrite ?updateStore_same;
  count_events;
  rewrite ?String.eqb_refl, ?paramsEq_refl, ?Z.eqb_refl, ?Nat.eqb_refl;
  count_events;
  first [ lia | assumption | discriminate | congruence | reflexivity ].

Ltac expose_estimate H :=
  match type of H with
  | context [getRawTxGasLimit ?e ?n ?p ?t ?st] =>
      let Hq := fresh "Hq" in
      destruct (getRawTxGasLimit_frame_once e n p t st)
        as (? & ? & Hq & ? & ? & ? & ?);
      rewrite Hq in H; rewrite ?Hq; clear Hq
  | context [getContractTxGasLimit ?e ?n ?c ?m ?ps ?g ?st] =>
      let Hq := fresh "Hq" in
      destruct (getContractTxGasLimit_frame_once e n c m ps g st)
        as (? & ? & Hq & ? & ? & ? & ?);
      rewrite Hq in H; rewrite ?Hq; clear Hq
  end.

Ltac run_counted H :=
  repeat (first [ expose_estimate H | expose H | split_scrutinee H ];
          cbn beta iota in H; cbn [fst]).

(** What a trace holds after the events [x] of an abstract step. *)
Ltac rest_after x t :=
  match t with
  | (_ ++ ?r)%list =>
      let _ := match goal with _ => constr_eq r x end in constr:(@nil Event)
  | (?l ++ ?r)%list => let l' := rest_after x l in constr:((l' ++ r)%list)
  end.

(** Split the trace of a leaf into the events of its abstract step (the
    one whose events are known by their class only) and the events that
    follow. *)
Ltac two_segments :=
  match goal with
  | Hc : forallb _ ?x = true |- exists a b, trace ?S = @?R a b /\ @?Q a b =>
      let t := eval cbn [trace logged afterPolling store] in (trace S) in
      let r := rest_after x t in
      exists x, r; split;
      [ cbn [trace logged afterPolling store app];
        rewrite <- ?app_assoc, ?app_nil_r; reflexivity
      | ]
  end.

(** The classified error and its message play no part in the counts. *)
Ltac forget_errors H :=
  repeat match type of H with
    | context [messageText ?m] =>
        let v := fresh "text" in set (v := messageText m) in *; clearbody v
    | context [extractError ?r ?o] =>
        let v := fresh "error" in set (v := extractError r o) in *; clearbody v
    end.

Lemma submit_events :
  forall env network signer toastId txInputs options s out s',
    submit env network signer toastId txInputs options s = (out, s') ->
    exists estimates rest,
      trace s' = (trace s ++ estimates ++ rest)%list
      /\ nextToast s' = nextToast s
      /\ lookups s' = lookups s
      /\ out <> Pending
      /\ forallb isEstimate estimates = true
      /\ (countEvents isEstimate estimates <= 1)%nat
      /\ countEvents isEstimate estimates
         = List.length (estimateEvents txInputs s)
      /\ countEvents isEstimate rest = 0%nat
      /\ (countEvents isSubmission rest <= 1)%nat
      /\ (countEvents isClose rest + countEvents isErrorReport rest <= 1)%nat
      /\ (countEvents isHandlerCall rest <= countEvents isErrorReport rest)%nat
      /\ countEvents isErrorStyled rest = countEvents isErrorReport rest
      /\ countEvents (settles toastId) rest
         = (countEvents isClose rest + countEvents isErrorReport rest)%nat
      /\ countEvents toastSettled rest
         = (countEvents isClose rest + countEvents isErrorReport rest)%nat
      /\ countEvents (isReportedOutside Reverted) rest
         = countEvents isErrorReport rest
      /\ countEvents isCreate rest = 0%nat
      /\ countEvents isPendingUpdate rest = 0%nat
      /\ countEvents isLookup rest = 0%nat
      /\ countEvents isOnComplete rest = 0%nat
      /\ countEvents isSuccessReport rest = 0%nat
      /\ countEvents isSuccessUpdate rest = 0%nat
      /\ countEvents isWarningUpdate rest = 0%nat
      /\ (forall contract response,
             out = Returned (contract, Some response) ->
             countEvents isSubmission rest = 1%nat
             /\ countEvents isClose rest = 0%nat
             /\ countEvents isErrorReport rest = 0%nat)
      /\ (forall contract,
             out = Returned (contract, None) ->
             (countEvents isClose rest + countEvents isErrorReport rest = 1)%nat)
      /\ (forall e,
             out = Thrown e ->
             countEvents isErrorReport rest = 1%nat
             /\ countEvents isHandlerCall rest = 1%nat)
      /\ (rawTransactionOf txInputs = None -> store s' = store s)
      /\ (forall e,
             estimateOutcome env network signer txInputs s = Thrown e ->
             store s' = store s
             /\ countEvents isSubmission rest = 0%nat
             /\ countEvents (isReportedOutside GasEstimate) rest = 0%nat
             /\ (forall contract response,
                    out <> Returned (contract, Some response)))
      /\ (forall gas,
             estimateOutcome env network signer txInputs s = Returned gas ->
             countEvents isSubmission rest = 1%nat
             /\ countEvents (isSubmittedWithout txInputs gas) rest = 0%nat
             /\ countEvents (isReportedOutside Wallet) rest = 0%nat
             /\ (forall tx,
                    rawTransactionOf txInputs = Some tx ->
                    store s'
                    = updateStore (store s) tx (withGasLimit (store s tx) gas))).
Proof.
  intros env network signer toastId txInputs options s out s' H.
  destruct txInputs;
    unfold submit, attempt, tryCatch, liftResult, assignGasLimit, readTx,
      bind, emit, ret, throw in H;
    cbn [estimateOutcome];
    run_counted H; try discriminate H; injection H as <- <-;
    try (exfalso; congruence);
    two_segments; counted.
Qed.

Lemma afterSubmission_events :
  forall env network toastId options contract response s out s',
    afterSubmission env network toastId options contract response s = (out, s') ->
    exists polls rest,
      trace s'
      = (trace s
         ++ EvUpdatePendingToast toastId (getExplorerUrl env network (hash response))
              (getTimeout env network + POLL_INTERVAL)
            :: polls ++ rest)%list
      /\ store s' = store s
      /\ nextToast s' = nextToast s
      /\ forallb isPollEvent polls = true
      /\ (countEvents isErrorReport rest + countEvents isSuccessReport rest
          + countEvents isWarningUpdate rest <= 1)%nat
      /\ (countEvents isErrorReport rest + countEvents isOnComplete rest <= 1)%nat
      /\ (countEvents isOnComplete rest <= 1)%nat
      /\ (countEvents isHandlerCall rest <= countEvents isErrorReport rest)%nat
      /\ countEvents isErrorStyled rest = countEvents isErrorReport rest
      /\ countEvents isSuccessUpdate rest = countEvents isSuccessReport rest
      /\ countEvents (settles toastId) rest
         = (countEvents isErrorReport rest + countEvents isSuccessReport rest
            + countEvents isWarningUpdate rest)%nat
      /\ countEvents toastSettled rest
         = (countEvents isErrorReport rest + countEvents isSuccessReport rest
            + countEvents isWarningUpdate rest)%nat
      /\ countEvents (isReportedOutside Reverted) rest = 0%nat
      /\ countEvents isCreate rest = 0%nat
      /\ countEvents isEstimate rest = 0%nat
      /\ countEvents isSubmission rest = 0%nat
      /\ countEvents isClose rest = 0%nat
      /\ countEvents isPendingUpdate rest = 0%nat
      /\ countEvents isLookup rest = 0%nat
      /\ (forall receipt,
             out = Returned (Some receipt) ->
             isFailure receipt = false
             /\ countEvents isSuccessReport rest = 1%nat)
      /\ (out = Returned None ->
          countEvents isOnComplete rest = 0%nat
          /\ (countEvents isErrorReport rest + countEvents isWarningUpdate rest
              = 1)%nat)
      /\ (forall e,
             out = Thrown e ->
             countEvents isSuccessReport rest = 0%nat
             /\ countEvents isWarningUpdate rest = 0%nat
             /\ (countEvents isHandlerCall rest + countEvents isOnComplete rest
                 = 1)%nat)
      /\ (out = Pending -> rest = []).
Proof.
  intros env network toastId options contract response s out s' H.
  unfold afterSubmission, liftCompletion, updatePendingToast, updateToast,
    bind, emit, ret, throw in H.
  run H; try discriminate H;
    try match goal with
      | Hf : falsyMessage _ = true |- _ => rewrite revert_is_loud in Hf; discriminate Hf
      | Hn : forall e, Thrown ?x <> Thrown e |- _ => exfalso; now apply (Hn x)
      end;
    forget_errors H; injection H as <- <-;
    two_segments; counted.
Qed.

Lemma estimateOutcome_store_only :
  forall env network signer txInputs s1 s2,
    store s1 = store s2 ->
    estimateOutcome env network signer txInputs s1
    = estimateOutcome env network signer txInputs s2.
Proof.
  intros env network signer txInputs s1 s2 H.
  destruct txInputs; cbn [estimateOutcome];
    try (now apply getRawTxGasLimit_store_only).
  unfold getContractTxGasLimit, applyBuffer, liftResult, bind, emit, ret, throw.
  destruct optionsGasLimit; [reflexivity |].
  destruct (contract_estimateGas _ _ _); [| reflexivity].
  destruct (bigNumberFrom _); reflexivity.
Qed.

Lemma estimateEvents_store_only :
  forall txInputs s1 s2,
    store s1 = store s2 -> estimateEvents txInputs s1 = estimateEvents txInputs s2.
Proof.
  intros txInputs s1 s2 H. destruct txInputs; cbn [estimateEvents];
    now rewrite ?H.
Qed.

Lemma useTransaction_phases :
  forall env network signer txInputs options s,
    walletSigner env = Some signer ->
    truthyAccount (walletAccount env) = true ->
    useTransaction env network txInputs options s
    = match submit env network signer (nextToast s) txInputs options
              (snd (createPendingToast s)) with
      | (Returned (contract, Some response), s1) =>
          afterSubmission env network (nextToast s) options contract response s1
      | (Returned (_, None), s1) => (Returned None, s1)
      | (Thrown e, s1) => (Thrown e, s1)
      | (Pending, s1) => (Pending, s1)
      end.
Proof.
  intros env network signer txInputs options s Hsigner Haccount.
  unfold useTransaction. rewrite Hsigner, Haccount.
  unfold bind at 1. unfold createPendingToast. cbn [snd]. unfold bind at 1.
  destruct (submit _ _ _ _ _ _ _) as [[[contract [response |]] | e |] s1];
    reflexivity.
Qed.

Lemma countEvents_le :
  forall (p q : Event -> bool) events,
    (forall e, p e = true -> q e = true) ->
    (countEvents p events <= countEvents q events)%nat.
Proof.
  intros p q events H. unfold countEvents.
  induction events as [| e events IH]; cbn [filter List.length]; [lia |].
  destruct (p e) eqn:Hp; [rewrite (H e Hp) |]; cbn [List.length];
    [| destruct (q e); cbn [List.length]]; lia.
Qed.

Lemma reportedOutside_le :
  forall stage events,
    (countEvents (isReportedOutside stage) events
     <= countEvents isErrorReport events)%nat.
Proof.
  intros stage events. apply countEvents_le.
  intros [] H; try discriminate H; reflexivity.
Qed.

Lemma submittedWithout_none :
  forall txInputs gas events,
    countEvents isSubmission events = 0%nat ->
    countEvents (isSubmittedWithout txInputs gas) events = 0%nat.
Proof.
  intros txInputs gas events H.
  assert (countEvents (isSubmittedWithout txInputs gas) events
          <= countEvents isSubmission events)%nat; [| lia].
  apply countEvents_le.
  intros [] He; destruct txInputs; try discriminate He; reflexivity.
Qed.

Ltac use_estimate :=
  repeat match goal with
    | Hf : (forall e, ?x = Thrown e -> _), He : ?x = Thrown _ |- _ =>
        destruct (Hf _ He) as (? & ? & ? & ?); clear Hf
    | Hg : (forall gas, ?x = Returned gas -> _), He : ?x = Returned _ |- _ =>
        destruct (Hg _ He) as (? & ? & ? & ?); clear Hg
    | Hm : ?a = None -> _, He : ?a = None |- _ => specialize (Hm He)
    end;
  try match goal with
    | Hn : (forall c r, Returned (_, Some _) <> Returned (c, Some r)) |- _ =>
        exfalso; exact (Hn _ _ eq_refl)
    end.

Ltac combined_leaf :=
  use_estimate;
  cbn [rawTransactionOf] in *;
  try discriminate;
  repeat match goal with
    | Hx : Some _ = Some _ |- _ => injection Hx as Hx; subst
    end;
  rewrite ?countEvents_app;
  count_class;
  repeat match goal with
    | Hz : countEvents isSubmission ?r = 0%nat
      |- context [countEvents (isSubmittedWithout ?t ?g) ?r] =>
        rewrite (submittedWithout_none t g r Hz)
    end;
  unfold countEvents in *;
  count_events;
  rewrite ?Nat.eqb_refl;
  count_events;
  first [ lia | assumption | discriminate | congruence | reflexivity
        | solve [eauto] ].

Ltac combined := conjuncts; combined_leaf.

(** What one invocation adds to the trace and does to the store, by the
    way it ends. *)
Lemma useTransaction_events :
  forall env network signer txInputs options s out s',
    walletSigner env = Some signer ->
    truthyAccount (walletAccount env) = true ->
    useTransaction env network txInputs options s = (out, s') ->
    exists events,
      trace s' = (trace s ++ events)%list
      /\ countEvents isCreate events = 1%nat
      /\ (countEvents isEstimate events <= 1)%nat
      /\ countEvents isEstimate events = List.length (estimateEvents txInputs s)
      /\ (countEvents isSubmission events <= 1)%nat
      /\ (countEvents isPendingUpdate events <= countEvents isSubmission events)%nat
      /\ (countEvents isOnComplete events <= countEvents isPendingUpdate events)%nat
      /\ (countEvents isSuccessReport events <= countEvents isPendingUpdate events)%nat
      /\ (countEvents isWarningUpdate events <= countEvents isPendingUpdate events)%nat
      /\ (countEvents isClose events + countEvents isErrorReport events
          + countEvents isSuccessReport events + countEvents isWarningUpdate events
          <= 1)%nat
      /\ countEvents (settles (nextToast s)) events
         = (countEvents isClose events + countEvents isErrorReport events
            + countEvents isSuccessReport events
            + countEvents isWarningUpdate events)%nat
      /\ countEvents toastSettled events
         = (countEvents isClose events + countEvents isErrorReport events
            + countEvents isSuccessReport events
            + countEvents isWarningUpdate events)%nat
      /\ (countEvents isHandlerCall events <= countEvents isErrorReport events)%nat
      /\ countEvents isErrorStyled events = countEvents isErrorReport events
      /\ countEvents isSuccessUpdate events = countEvents isSuccessReport events
      /\ (countEvents isErrorReport events + countEvents isOnComplete events
          <= 1)%nat
      /\ (countEvents (isReportedOutside Reverted) events
          + countEvents isPendingUpdate events <= 1)%nat
      /\ (forall receipt,
             out = Returned (Some receipt) ->
             isFailure receipt = false
             /\ countEvents isSuccessReport events = 1%nat)
      /\ (out = Returned None ->
          countEvents isOnComplete events = 0%nat
          /\ (countEvents isClose events + countEvents isErrorReport events
              + countEvents isWarningUpdate events = 1)%nat)
      /\ (forall e,
             out = Thrown e ->
             countEvents isSuccessReport events = 0%nat
             /\ countEvents isWarningUpdate events = 0%nat
             /\ countEvents isClose events = 0%nat
             /\ (countEvents isHandlerCall events + countEvents isOnComplete events
                 = 1)%nat)
      /\ (out = Pending ->
          countEvents isPendingUpdate events = 1%nat
          /\ countEvents isOnComplete events = 0%nat
          /\ countEvents toastSettled events = 0%nat)
      /\ (rawTransactionOf txInputs = None -> store s' = store s)
      /\ (forall e,
             estimateOutcome env network signer txInputs s = Thrown e ->
             store s' = store s
             /\ lookups s' = lookups s
             /\ countEvents isSubmission events = 0%nat
             /\ countEvents (isReportedOutside GasEstimate) events = 0%nat
             /\ (forall receipt, out <> Returned (Some receipt)))
      /\ (forall gas,
             estimateOutcome env network signer txInputs s = Returned gas ->
             countEvents isSubmission events = 1%nat
             /\ countEvents (isSubmittedWithout txInputs gas) events = 0%nat
             /\ (countEvents (isReportedOutside Wallet) events
                 <= countEvents isPendingUpdate events)%nat
             /\ (forall tx,
                    rawTransactionOf txInputs = Some tx ->
                    store s'
                    = updateStore (store s) tx (withGasLimit (store s tx) gas))).
Proof.
  intros env network signer txInputs options s out s' Hsigner Haccount H.
  rewrite (useTransaction_phases _ _ signer) in H by assumption.
  unfold createPendingToast in H. cbn [snd] in H.
  destruct (submit env network signer (nextToast s) txInputs options _)
    as [submitted s1] eqn:Hsubmit.
  apply submit_events in Hsubmit.
  destruct Hsubmit as (estimates & rest & Htrace & Hnext & Hlookups & Hpending
                       & Hclass & Hest & Hexact & Hrest).
  rewrite (estimateOutcome_store_only _ _ _ _ _ s) in Hrest by reflexivity.
  rewrite (estimateEvents_store_only _ _ s) in Hexact by reflexivity.
  cbn [trace store lookups nextToast] in Htrace, Hnext, Hlookups, Hrest.
  destruct Hrest as (? & ? & ? & ? & ? & ? & ? & ? & ? & ? & ? & ? & ? & ? & ?
                     & Hok & Hnull & Hthrown & Hmethod & Hfailed & Hgas).
  destruct submitted as [[contract [response |]] | e |];
    [ destruct (Hok contract response eq_refl) as (? & ? & ?)
    | pose proof (Hnull contract eq_refl)
    | destruct (Hthrown e eq_refl) as (? & ?)
    | congruence ];
    clear Hok Hnull Hthrown.
  - apply afterSubmission_events in H.
    destruct H as (polls & rest2 & Htrace2 & Hstore2 & Hnext2 & Hclass2 & Hrest2).
    destruct Hrest2 as (? & ? & ? & ? & ? & ? & ? & ? & ? & ? & ? & ? & ? & ? & ?
                        & Hreceipt & Hnone & Hthrew & Hhung).
    exists (EvCreatePendingToast (nextToast s) :: estimates ++ rest
            ++ EvUpdatePendingToast (nextToast s)
                 (getExplorerUrl env network (hash response))
                 (getTimeout env network + POLL_INTERVAL)
               :: polls ++ rest2)%list.
    split.
    { rewrite Htrace2, Htrace, <- !app_assoc. reflexivity. }
    rewrite Hstore2.
    change (EvCreatePendingToast (nextToast s) :: estimates ++ rest
            ++ EvUpdatePendingToast (nextToast s)
                 (getExplorerUrl env network (hash response))
                 (getTimeout env network + POLL_INTERVAL)
               :: polls ++ rest2)%list
      with ([EvCreatePendingToast (nextToast s)] ++ estimates ++ rest
            ++ [EvUpdatePendingToast (nextToast s)
                  (getExplorerUrl env network (hash response))
                  (getTimeout env network + POLL_INTERVAL)]
            ++ polls ++ rest2)%list.
    pose proof (reportedOutside_le Wallet rest2).
    destruct txInputs; destruct out as [[receipt |] | e |];
      try (specialize (Hreceipt receipt eq_refl) as (? & ?));
      try (specialize (Hnone eq_refl) as (? & ?));
      try (specialize (Hthrew e eq_refl) as (? & ? & ?));
      try (specialize (Hhung eq_refl); subst rest2);
      clear Hreceipt Hnone Hthrew Hhung || idtac;
      combined.
  - injection H as <- <-.
    exists ([EvCreatePendingToast (nextToast s)] ++ estimates ++ rest)%list.
    split; [now rewrite Htrace, <- !app_assoc |].
    destruct txInputs; combined.
  - injection H as <- <-.
    exists ([EvCreatePendingToast (nextToast s)] ++ estimates ++ rest)%list.
    split; [now rewrite Htrace, <- !app_assoc |].
    destruct txInputs; combined.
Qed.

Ltac events_facts H Hsigner Haccount :=
  destruct (useTransaction_events _ _ _ _ _ _ _ _ Hsigner Haccount H)
    as (events & Htrace & Hcreate & Hest & Hexact & Hsub & Hpen & Honc & Hsuc & Hwar
        & Hone & Hown & Hany & Hhan & Herr & Hsup & Hexcl & Hrev
        & Hreceipt & Hnull & Hthrown & Hhung & Hmethod & Hfailed & Hgas).

Ltac events_of H Hsigner Haccount :=
  destruct (useTransaction_events _ _ _ _ _ _ _ _ Hsigner Haccount H)
    as (events & Htrace & Hcreate & Hest & Hexact & Hsub & Hpen & Honc & Hsuc & Hwar
        & Hone & Hown & Hany & Hhan & Herr & Hsup & Hexcl & Hrev
        & Hreceipt & Hnull & Hthrown & Hhung & Hmethod & Hfailed & Hgas);
  exists events; split; [exact Htrace |].

Ltac outcome_facts :=
  repeat match goal with
    | Hx : (forall r, Returned (Some ?x) = Returned (Some r) -> _) |- _ =>
        specialize (Hx x eq_refl)
    | Hx : (Returned None = Returned None -> _) |- _ => specialize (Hx eq_refl)
    | Hx : (forall x, Thrown ?y = Thrown x -> _) |- _ => specialize (Hx y eq_refl)
    | Hx : (Pending = Pending -> _) |- _ => specialize (Hx eq_refl)
    | Hx : _ /\ _ |- _ => destruct Hx
    end.

Ltac by_outcome out :=
  let receipt := fresh "receipt" in
  let e := fresh "e" in
  destruct out as [[receipt |] | e |]; outcome_facts.

(** ** One toast per invocation, whatever the outcome *)

(** C5 (as amended). An invocation with a signer and an account creates
    exactly one toast, whatever its outcome.  When it returns, with a
    receipt or with null, it has closed that toast or updated it to a
    terminal state exactly once, and has closed or terminally updated no
    other toast; the same holds when it ends by a throw of the caller's
    error handler, which is called after the toast is restyled.  The
    exception is the throw of the completion callback: it ends the
    invocation with the toast left pending.  (An invocation that never
    settles leaves its toast pending as well.) *)
Theorem C5_one_toast_settled_once :
  forall env network txInputs options s signer out s',
    walletSigner env = Some signer ->
    truthyAccount (walletAccount env) = true ->
    useTransaction env network txInputs options s = (out, s') ->
    countEvents isCreate (trace s') = S (countEvents isCreate (trace s))
    /\ match out with
       | Returned _ =>
           countEvents (settles (nextToast s)) (trace s')
           = S (countEvents (settles (nextToast s)) (trace s))
           /\ countEvents toastSettled (trace s')
              = S (countEvents toastSettled (trace s))
       | Thrown _ =>
           (countEvents isHandlerCall (trace s')
            = S (countEvents isHandlerCall (trace s))
            /\ countEvents isOnComplete (trace s')
               = countEvents isOnComplete (trace s)
            /\ countEvents (settles (nextToast s)) (trace s')
               = S (countEvents (settles (nextToast s)) (trace s))
            /\ countEvents toastSettled (trace s')
               = S (countEvents toastSettled (trace s)))
           \/ (countEvents isOnComplete (trace s')
               = S (countEvents isOnComplete (trace s))
               /\ countEvents isHandlerCall (trace s')
                  = countEvents isHandlerCall (trace s)
               /\ countEvents (settles (nextToast s)) (trace s')
                  = countEvents (settles (nextToast s)) (trace s)
               /\ countEvents toastSettled (trace s')
                  = countEvents toastSettled (trace s))
       | Pending =>
           countEvents (settles (nextToast s)) (trace s')
           = countEvents (settles (nextToast s)) (trace s)
           /\ countEvents toastSettled (trace s') = countEvents toastSettled (trace s)
       end.
Proof.
  intros env network txInputs options s signer out s' Hsigner Haccount H.
  events_facts H Hsigner Haccount.
  rewrite Htrace, !countEvents_app.
  split; [lia |].
  by_outcome out.
  - split; lia.
  - split; lia.
  - destruct (countEvents isHandlerCall events) as [| calls] eqn:Hcalls;
      [right | left]; repeat split; lia.
  - split; lia.
Qed.

(** The caller's error handler throws: the toast shows the error
    already. *)
Lemma C5_witness :
  fst (useTransaction Scenario.deafEnv Sample.network (TxPopulated 0%nat)
         Scenario.throwingOptions Sample.initial)
    = Thrown (newError "handler failed")
  /\ countEvents isCreate
       (trace (snd (useTransaction Scenario.deafEnv Sample.network
                      (TxPopulated 0%nat) Scenario.throwingOptions Sample.initial)))
     = 1%nat
  /\ countEvents toastSettled
       (trace (snd (useTransaction Scenario.deafEnv Sample.network
                      (TxPopulated 0%nat) Scenario.throwingOptions Sample.initial)))
     = 1%nat.
Proof.
  split; [vm_compute; reflexivity |].
  destruct (C5_one_toast_settled_once Scenario.deafEnv Sample.network
              (TxPopulated 0%nat) Scenario.throwingOptions Sample.initial
              Sample.signer (Thrown (newError "handler failed"))
              (snd (useTransaction Scenario.deafEnv Sample.network
                      (TxPopulated 0%nat) Scenario.throwingOptions Sample.initial))
              eq_refl eq_refl eq_refl)
    as [Hcreate [(_ & _ & _ & Hsettled) | (Hcompleted & _)]].
  - split; [exact Hcreate | exact Hsettled].
  - vm_compute in Hcompleted. discriminate Hcompleted.
Defined.

(** C5 as stated fails: when the completion callback throws, the
    invocation ends with its toast neither closed nor updated to a
    terminal state. *)
Lemma C5_counterexample :
  ~ (forall env network txInputs options s signer,
       walletSigner env = Some signer ->
       truthyAccount (walletAccount env) = true ->
       let s' := snd (useTransaction env network txInputs options s) in
       countEvents isCreate (trace s') = S (countEvents isCreate (trace s))
       /\ countEvents toastSettled (trace s') = S (countEvents toastSettled (trace s))).
Proof.
  intros H.
  destruct (H (Sample.env Sample.atOnce) Sample.network (TxPopulated 0%nat)
              Sample.failingCallback Sample.initial Sample.signer eq_refl eq_refl)
    as [_ Hsettled].
  vm_compute in Hsettled. discriminate Hsettled.
Qed.

(** ** The entry point *)

(** X11. Without a signer, or without an account, an invocation does
    nothing at all: it returns null and leaves the toasts, the trace,
    the caller's transaction and the provider untouched. *)
Theorem X11_no_wallet_no_effect :
  forall env network txInputs options s,
    walletSigner env = None \/ truthyAccount (walletAccount env) = false ->
    useTransaction env network txInputs options s = (Returned None, s).
Proof.
  intros env network txInputs options s [H | H]; unfold useTransaction; rewrite H;
    [| destruct (walletSigner env)]; reflexivity.
Qed.

Lemma X11_witness :
  useTransaction Scenario.walletless Sample.network (TxPopulated 0%nat)
    Sample.options Sample.initial
  = (Returned None, Sample.initial).
Proof.
  apply (X11_no_wallet_no_effect Scenario.walletless Sample.network
           (TxPopulated 0%nat) Sample.options Sample.initial).
  left. reflexivity.
Defined.

(** X12. An invocation returns a receipt exactly when it reports a
    success.  The receipt it returns is not a failed one, and on that
    way the transaction was submitted once, the toast was restyled as a
    success once, and there was no error report, no call of the error
    handler, no closing of the toast and no warning. *)
Theorem X12_receipt_iff_success_reported :
  forall env network signer txInputs options s out s',
    walletSigner env = Some signer ->
    truthyAccount (walletAccount env) = true ->
    useTransaction env network txInputs options s = (out, s') ->
    exists events,
      trace s' = (trace s ++ events)%list
      /\ ((exists receipt, out = Returned (Some receipt))
          <-> countEvents isSuccessReport events = 1%nat)
      /\ (forall receipt,
             out = Returned (Some receipt) ->
             isFailure receipt = false
             /\ countEvents isSubmission events = 1%nat
             /\ countEvents isSuccessUpdate events = 1%nat
             /\ countEvents isErrorReport events = 0%nat
             /\ countEvents isHandlerCall events = 0%nat
             /\ countEvents isClose events = 0%nat
             /\ countEvents isWarningUpdate events = 0%nat).
Proof.
  intros env network signer txInputs options s out s' Hsigner Haccount H.
  events_of H Hsigner Haccount.
  split; [split |].
  - intros [receipt ->]. apply (Hreceipt receipt eq_refl).
  - intros Hreported. by_outcome out; [eauto | lia ..].
  - intros receipt ->. outcome_facts. repeat split; try assumption; lia.
Qed.

Lemma X12_witness :
  fst (useTransaction (Sample.env Sample.atOnce) Sample.network (TxPopulated 0%nat)
         Sample.options Sample.initial) = Returned (Some Sample.successReceipt)
  /\ countEvents isSuccessReport
       (trace (snd (useTransaction (Sample.env Sample.atOnce) Sample.network
                      (TxPopulated 0%nat) Sample.options Sample.initial))) = 1%nat.
Proof.
  split; [vm_compute; reflexivity |].
  destruct (X12_receipt_iff_success_reported (Sample.env Sample.atOnce)
              Sample.network Sample.signer (TxPopulated 0%nat) Sample.options
              Sample.initial
              (fst (useTransaction (Sample.env Sample.atOnce) Sample.network
                      (TxPopulated 0%nat) Sample.options Sample.initial))
              (snd (useTransaction (Sample.env Sample.atOnce) Sample.network
                      (TxPopulated 0%nat) Sample.options Sample.initial))
              eq_refl eq_refl eq_refl)
    as (events & Htrace & Hiff & _).
  change (trace Sample.initial ++ events)%list with events in Htrace.
  rewrite Htrace. apply Hiff. exists Sample.successReceipt. vm_compute. reflexivity.
Defined.

(** X13. The warning toast stands for a timeout and for nothing else:
    an invocation that shows it returns null after a submission, and
    neither reports a success or a failure nor calls a callback. *)
Theorem X13_warning_is_a_quiet_null :
  forall env network signer txInputs options s out s',
    walletSigner env = Some signer ->
    truthyAccount (walletAccount env) = true ->
    useTransaction env network txInputs options s = (out, s') ->
    exists events,
      trace s' = (trace s ++ events)%list
      /\ (countEvents isWarningUpdate events = 1%nat ->
          out = Returned None
          /\ countEvents isSubmission events = 1%nat
          /\ countEvents isPendingUpdate events = 1%nat
          /\ countEvents isErrorReport events = 0%nat
          /\ countEvents isSuccessReport events = 0%nat
          /\ countEvents isHandlerCall events = 0%nat
          /\ countEvents isOnComplete events = 0%nat).
Proof.
  intros env network signer txInputs options s out s' Hsigner Haccount H.
  events_of H Hsigner Haccount.
  intros Hwarned. by_outcome out; repeat split; try reflexivity; try lia;
    exfalso; lia.
Qed.

Lemma X13_witness :
  fst (useTransaction (Sample.env Sample.never) Sample.network (TxPopulated 0%nat)
         Sample.options Sample.initial) = Returned None
  /\ countEvents isWarningUpdate
       (trace (snd (useTransaction (Sample.env Sample.never) Sample.network
                      (TxPopulated 0%nat) Sample.options Sample.initial))) = 1%nat.
Proof.
  destruct (X13_warning_is_a_quiet_null (Sample.env Sample.never)
              Sample.network Sample.signer (TxPopulated 0%nat) Sample.options
              Sample.initial
              (fst (useTransaction (Sample.env Sample.never) Sample.network
                      (TxPopulated 0%nat) Sample.options Sample.initial))
              (snd (useTransaction (Sample.env Sample.never) Sample.network
                      (TxPopulated 0%nat) Sample.options Sample.initial))
              eq_refl eq_refl eq_refl)
    as (events & Htrace & Hwarned).
  change (trace Sample.initial ++ events)%list with events in Htrace.
  assert (Hone : countEvents isWarningUpdate events = 1%nat)
    by (rewrite <- Htrace; vm_compute; reflexivity).
  split; [apply (Hwarned Hone) | rewrite Htrace; exact Hone].
Defined.



(** X15. When the gas estimation throws, the transaction is never
    submitted: the failure is handled once (the toast is closed, or the
    failure is reported), the caller's transaction and the provider's
    receipts are left alone, no pending update, success or warning is
    shown, and the invocation settles without a receipt. *)
Theorem X15_failed_estimate_is_never_submitted :
  forall env network signer txInputs options s out s' e,
    walletSigner env = Some signer ->
    truthyAccount (walletAccount env) = true ->
    estimateOutcome env network signer txInputs s = Thrown e ->
    useTransaction env network txInputs options s = (out, s') ->
    exists events,
      trace s' = (trace s ++ events)%list
      /\ countEvents isSubmission events = 0%nat
      /\ countEvents isPendingUpdate events = 0%nat
      /\ (countEvents isClose events + countEvents isErrorReport events = 1)%nat
      /\ countEvents isSuccessReport events = 0%nat
      /\ countEvents isWarningUpdate events = 0%nat
      /\ countEvents isOnComplete events = 0%nat
      /\ store s' = store s
      /\ lookups s' = lookups s
      /\ out <> Pending
      /\ (forall receipt, out <> Returned (Some receipt)).
Proof.
  intros env network signer txInputs options s out s' e Hsigner Haccount Hthrows H.
  events_of H Hsigner Haccount.
  destruct (Hfailed e Hthrows) as (Hstore & Hlookups & Hnone & Hstage & Hnot).
  by_outcome out; repeat split; try assumption; try discriminate; try lia;
    try apply Hnot.
Qed.

Lemma X15_witness :
  estimateOutcome Scenario.deafEnv Sample.network Sample.signer (TxPopulated 0%nat)
    Sample.initial = Thrown Scenario.rpcDown
  /\ exists events,
       trace (snd (useTransaction Scenario.deafEnv Sample.network
                     (TxPopulated 0%nat) Sample.options Sample.initial))
       = (trace Sample.initial ++ events)%list
       /\ countEvents isSubmission events = 0%nat.
Proof.
  split; [reflexivity |].
  destruct (X15_failed_estimate_is_never_submitted Scenario.deafEnv
              Sample.network Sample.signer (TxPopulated 0%nat) Sample.options
              Sample.initial
              (fst (useTransaction Scenario.deafEnv Sample.network
                      (TxPopulated 0%nat) Sample.options Sample.initial))
              (snd (useTransaction Scenario.deafEnv Sample.network
                      (TxPopulated 0%nat) Sample.options Sample.initial))
              Scenario.rpcDown eq_refl eq_refl eq_refl eq_refl)
    as (events & Htrace & Hnone & _).
  exists events. split; assumption.
Defined.

(** X16. On the method path, once the gas limit is computed the
    contract method is called exactly once, with the caller's method
    name and parameters and with that limit, and nothing is sent through
    the signer. *)
Theorem X16_method_path_calls_once_with_the_limit :
  forall env network signer contract method params optionsGasLimit options s gas
         out s',
    walletSigner env = Some signer ->
    truthyAccount (walletAccount env) = true ->
    fst (getContractTxGasLimit env network (connect env contract signer) method
           params optionsGasLimit s) = Returned gas ->
    useTransaction env network (TxMethod contract method params optionsGasLimit)
      options s = (out, s') ->
    exists events,
      trace s' = (trace s ++ events)%list
      /\ countEvents isSubmission events = 1%nat
      /\ countEvents
           (isSubmittedWithout (TxMethod contract method params optionsGasLimit) gas)
           events = 0%nat.
Proof.
  intros env network signer contract method params optionsGasLimit options s gas
         out s' Hsigner Haccount Hestimate H.
  events_of H Hsigner Haccount.
  destruct (Hgas gas Hestimate) as (Hsubmitted & Hwith & _).
  split; assumption.
Qed.

Lemma X16_witness :
  exists events,
    trace (snd (useTransaction (Sample.env Sample.atOnce) Sample.network
                  (TxMethod Scenario.pool "swap" ["1"; "2"] None) Sample.options
                  Sample.initial))
    = (trace Sample.initial ++ events)%list
    /\ countEvents isSubmission events = 1%nat
    /\ countEvents
         (isSubmittedWithout (TxMethod Scenario.pool "swap" ["1"; "2"] None) 150000)
         events = 0%nat.
Proof.
  apply (X16_method_path_calls_once_with_the_limit (Sample.env Sample.atOnce)
           Sample.network Sample.signer Scenario.pool "swap" ["1"; "2"] None
           Sample.options Sample.initial 150000
           (fst (useTransaction (Sample.env Sample.atOnce) Sample.network
                   (TxMethod Scenario.pool "swap" ["1"; "2"] None) Sample.options
                   Sample.initial)));
    reflexivity.
Defined.

(** X17. A request with a [method] field has no transaction object of
    its own, and the invocation writes to none: whatever the outcome,
    every transaction object is as it was. *)
Theorem X17_method_path_leaves_transactions_alone :
  forall env network txInputs options s out s',
    rawTransactionOf txInputs = None ->
    useTransaction env network txInputs options s = (out, s') ->
    store s' = store s.
Proof.
  intros env network txInputs options s out s' Hmethod H.
  destruct (walletSigner env) as [signer |] eqn:Hsigner.
  - destruct (truthyAccount (walletAccount env)) eqn:Haccount.
    + destruct (useTransaction_events _ _ _ _ _ _ _ _ Hsigner Haccount H)
        as (events & Hfacts).
      now apply Hfacts.
    + unfold useTransaction in H. rewrite Hsigner, Haccount in H.
      now injection H as _ <-.
  - unfold useTransaction in H. rewrite Hsigner in H.
    now injection H as _ <-.
Qed.

Lemma X17_witness :
  store (snd (useTransaction (Sample.env Sample.atOnce) Sample.network
                (TxMethod Scenario.pool "swap" [] None) Sample.options
                Sample.initial))
  = store Sample.initial.
Proof.
  apply (X17_method_path_leaves_transactions_alone (Sample.env Sample.atOnce)
           Sample.network (TxMethod Scenario.pool "swap" [] None) Sample.options
           Sample.initial
           (fst (useTransaction (Sample.env Sample.atOnce) Sample.network
                   (TxMethod Scenario.pool "swap" [] None) Sample.options
                   Sample.initial)));
    reflexivity.
Defined.





(** X24. The stage of a failure report names the step that failed.  A
    failure of the estimate is reported as GasEstimate; once the
    estimate is there, a failure before the pending update (the wallet
    rejecting the submission) is reported as Wallet; and after the
    pending update every report says Reverted. *)
Theorem X24_report_stage_names_the_failed_step :
  forall env network signer txInputs options s out s',
    walletSigner env = Some signer ->
    truthyAccount (walletAccount env) = true ->
    useTransaction env network txInputs options s = (out, s') ->
    exists events,
      trace s' = (trace s ++ events)%list
      /\ (forall e,
             estimateOutcome env network signer txInputs s = Thrown e ->
             countEvents (isReportedOutside GasEstimate) events = 0%nat)
      /\ (forall gas,
             estimateOutcome env network signer txInputs s = Returned gas ->
             countEvents isPendingUpdate events = 0%nat ->
             countEvents (isReportedOutside Wallet) events = 0%nat)
      /\ (countEvents isPendingUpdate events = 1%nat ->
          countEvents (isReportedOutside Reverted) events = 0%nat).
Proof.
  intros env network signer txInputs options s out s' Hsigner Haccount H.
  events_of H Hsigner Haccount.
  split; [| split].
  - intros e He. now apply (Hfailed e He).
  - intros gas Hestimate Hnone.
    destruct (Hgas gas Hestimate) as (_ & _ & Hwallet & _). lia.
  - intros Hupdated. lia.
Qed.

Lemma X24_witness :
  estimateOutcome Scenario.deafEnv Sample.network Sample.signer (TxPopulated 0%nat)
    Sample.initial = Thrown Scenario.rpcDown
  /\ countEvents isErrorReport
       (trace (snd (useTransaction Scenario.deafEnv Sample.network
                      (TxPopulated 0%nat) Sample.options Sample.initial))) = 1%nat
  /\ countEvents (isReportedOutside GasEstimate)
       (trace (snd (useTransaction Scenario.deafEnv Sample.network
                      (TxPopulated 0%nat) Sample.options Sample.initial))) = 0%nat.
Proof.
  split; [reflexivity |]. split; [vm_compute; reflexivity |].
  destruct (X24_report_stage_names_the_failed_step Scenario.deafEnv
              Sample.network Sample.signer (TxPopulated 0%nat) Sample.options
              Sample.initial
              (fst (useTransaction Scenario.deafEnv Sample.network
                      (TxPopulated 0%nat) Sample.options Sample.initial))
              (snd (useTransaction Scenario.deafEnv Sample.network
                      (TxPopulated 0%nat) Sample.options Sample.initial))
              eq_refl eq_refl eq_refl)
    as (events & Htrace & Hstage & _).
  change (trace Sample.initial ++ events)%list with events in Htrace.
  rewrite Htrace. now apply (Hstage Scenario.rpcDown).
Defined.


(** ** The paths through the entry point *)

Lemma logged_nil : forall s, logged [] s = s.
Proof.
  intros [st tr nt lk]. unfold logged. cbn [store trace nextToast lookups].
  now rewrite app_nil_r.
Qed.

Lemma handleError_run :
  forall env rawError options s,
    handleError env rawError options s
    = (handleErrorOutcome env rawError options,
       logged (handleErrorTrace env rawError options) s).
Proof.
  intros env rawError options s.
  unfold handleError, handleErrorOutcome, handleErrorTrace, handlerOutcome,
    handlerCalls, errorHref.
  cbn zeta. destruct (falsyMessage _); [reflexivity |].
  unfold bind, updateToast, emit, ret, throw, liftCompletion, logged.
  destruct (eo_handler options) as [handler |]; [destruct (handler _ _ _) |];
    cbn [trace store nextToast lookups]; now rewrite <- !app_assoc.
Qed.

Lemma getRawTxGasLimit_run :
  forall env network provider tx s,
    getRawTxGasLimit env network provider tx s
    = (fst (getRawTxGasLimit env network provider tx s),
       logged (estimateEvents (TxPopulated tx) s) s).
Proof.
  intros env network provider tx s.
  unfold getRawTxGasLimit, applyBuffer, liftResult, readTx, bind, emit, ret, throw.
  cbn [estimateEvents].
  destruct (gasLimit (store s tx)); [cbn [fst]; now rewrite logged_nil |].
  cbn [store logged].
  destruct (estimateGas provider (store s tx)); [destruct (bigNumberFrom _) |];
    reflexivity.
Qed.

Lemma getContractTxGasLimit_run :
  forall env network contract method params optionsGasLimit s,
    getContractTxGasLimit env network contract method params optionsGasLimit s
    = (fst (getContractTxGasLimit env network contract method params
              optionsGasLimit s),
       logged (estimateEvents (TxMethod contract method params optionsGasLimit) s) s).
Proof.
  intros env network contract method params optionsGasLimit s.
  unfold getContractTxGasLimit, applyBuffer, liftResult, bind, emit, ret, throw.
  cbn [estimateEvents].
  destruct optionsGasLimit; [cbn [fst]; now rewrite logged_nil |].
  destruct (contract_estimateGas contract method params);
    [destruct (bigNumberFrom _) |]; reflexivity.
Qed.

(** The three ways through the submission: the estimate fails, the
    wallet refuses, the wallet accepts. *)
Lemma submit_unestimated :
  forall env network signer toastId txInputs options s e,
    estimateOutcome env network signer txInputs s = Thrown e ->
    submit env network signer toastId txInputs options s
    = (match fst (handleError env e
                    (errorOptions network toastId options
                       (requestContract env signer txInputs) None GasEstimate)
                    (logged (estimateEvents txInputs s) s)) with
       | Returned _ => Returned (requestContract env signer txInputs, None)
       | Thrown e' => Thrown e'
       | Pending => Pending
       end,
       snd (handleError env e
              (errorOptions network toastId options
                 (requestContract env signer txInputs) None GasEstimate)
              (logged (estimateEvents txInputs s) s))).
Proof.
  intros env network signer toastId txInputs options s e Hthrows.
  destruct txInputs as [tx | tx contract | contract method params optionsGasLimit];
    cbn [estimateOutcome] in Hthrows;
    unfold submit, attempt, tryCatch, bind; cbn zeta;
    [ rewrite getRawTxGasLimit_run, Hthrows
    | rewrite getRawTxGasLimit_run, Hthrows
    | rewrite getContractTxGasLimit_run, Hthrows ];
    cbn [requestContract estimateEvents];
    destruct (handleError _ _ _ _) as [[handled | e' |] s1]; reflexivity.
Qed.

Lemma submit_rejected :
  forall env network signer toastId txInputs options s gas e,
    estimateOutcome env network signer txInputs s = Returned gas ->
    submissionResult env signer txInputs gas s = Err e ->
    exists s1,
      trace s1
      = (trace s ++ estimateEvents txInputs s
         ++ [submissionEvent txInputs gas s])%list
      /\ store s1 = storeWithGas txInputs gas (store s)
      /\ nextToast s1 = nextToast s
      /\ lookups s1 = lookups s
      /\ submit env network signer toastId txInputs options s
         = (match fst (handleError env e
                         (errorOptions network toastId options
                            (requestContract env signer txInputs) None Wallet)
                         s1) with
            | Returned _ => Returned (requestContract env signer txInputs, None)
            | Thrown e' => Thrown e'
            | Pending => Pending
            end,
            snd (handleError env e
                   (errorOptions network toastId options
                      (requestContract env signer txInputs) None Wallet) s1)).
Proof.
  intros env network signer toastId txInputs options s gas e Hgas Hrefused.
  destruct txInputs as [tx | tx contract | contract method params optionsGasLimit];
    cbn [estimateOutcome submissionResult] in Hgas, Hrefused;
    unfold submit, attempt, tryCatch, bind; cbn zeta;
    [ rewrite getRawTxGasLimit_run, Hgas
    | rewrite getRawTxGasLimit_run, Hgas
    | rewrite getContractTxGasLimit_run, Hgas ];
    unfold assignGasLimit, readTx, emit, ret, liftResult, throw;
    cbn [store logged trace nextToast lookups];
    rewrite ?updateStore_same, Hrefused; cbn [requestContract];
    match goal with
    | |- context [handleError _ _ _ ?st] => exists st
    end;
    (split; [| split; [| split; [| split]]]);
    try (destruct (handleError _ _ _ _) as [[handled | e' |] s1]; reflexivity);
    cbn [trace store nextToast lookups logged estimateEvents submissionEvent
         storeWithGas rawTransactionOf];
    rewrite <- ?app_assoc; reflexivity.
Qed.

Lemma submit_accepted :
  forall env network signer toastId txInputs options s gas response,
    estimateOutcome env network signer txInputs s = Returned gas ->
    submissionResult env signer txInputs gas s = Ok response ->
    exists s1,
      submit env network signer toastId txInputs options s
      = (Returned (requestContract env signer txInputs, Some response), s1)
      /\ trace s1
         = (trace s ++ estimateEvents txInputs s
            ++ [submissionEvent txInputs gas s])%list
      /\ store s1 = storeWithGas txInputs gas (store s)
      /\ nextToast s1 = nextToast s
      /\ lookups s1 = lookups s.
Proof.
  intros env network signer toastId txInputs options s gas response Hgas Haccepted.
  destruct txInputs as [tx | tx contract | contract method params optionsGasLimit];
    cbn [estimateOutcome submissionResult] in Hgas, Haccepted;
    unfold submit, attempt, tryCatch, bind; cbn zeta;
    [ rewrite getRawTxGasLimit_run, Hgas
    | rewrite getRawTxGasLimit_run, Hgas
    | rewrite getContractTxGasLimit_run, Hgas ];
    unfold assignGasLimit, readTx, emit, ret, liftResult, throw;
    cbn [store logged trace nextToast lookups];
    rewrite ?updateStore_same, Haccepted; cbn [requestContract];
    eexists; (split; [reflexivity |]);
    cbn [trace store nextToast lookups logged estimateEvents submissionEvent
         storeWithGas rawTransactionOf];
    rewrite <- ?app_assoc; repeat split.
Qed.

Lemma submissionResult_store_only :
  forall env signer txInputs gas s1 s2,
    store s1 = store s2 ->
    submissionResult env signer txInputs gas s1
    = submissionResult env signer txInputs gas s2.
Proof.
  intros env signer txInputs gas s1 s2 H.
  destruct txInputs; cbn [submissionResult]; now rewrite ?H.
Qed.

Lemma submissionEvent_store_only :
  forall txInputs gas s1 s2,
    store s1 = store s2 ->
    submissionEvent txInputs gas s1 = submissionEvent txInputs gas s2.
Proof.
  intros txInputs gas s1 s2 H.
  destruct txInputs; cbn [submissionEvent]; now rewrite ?H.
Qed.

(** The poller, when the provider has no receipt in 101 lookups, and
    when it has one on lookup [k]. *)
Lemma awaitReceipt_exhausted :
  forall provider txHash s,
    (forall j, (j <= 100)%nat ->
               getTransactionReceipt provider txHash (lookups s + j) = Ok None) ->
    exists s',
      awaitReceipt provider txHash s = (Returned None, s')
      /\ trace s' = (trace s ++ pollTrace txHash 101)%list
      /\ lookups s' = (lookups s + 101)%nat
      /\ store s' = store s
      /\ nextToast s' = nextToast s.
Proof.
  intros provider txHash s Hnone.
  destruct (pollReceipt_exhausted provider txHash 101 0 (noteTimer s))
    as (s' & Hrun & Hcount); try lia.
  { intros j Hj. apply Hnone. lia. }
  exists s'. unfold awaitReceipt. rewrite Hrun. split; [reflexivity |].
  destruct (pollReceipt_frame _ _ _ _ _ _ _ Hrun) as (Hstore & Htoast & _).
  apply pollReceipt_rounds in Hrun; [| lia].
  destruct Hrun as (k & events & Hk & Hbound & Hshape & Htrace & Hcount').
  cbn [noteTimer logged trace lookups store nextToast] in *.
  assert (k = 101%nat) by lia. subst k.
  rewrite <- Hshape, Htrace, <- app_assoc. repeat split; auto.
Qed.

Lemma awaitReceipt_found :
  forall provider txHash s k receipt,
    (k <= 100)%nat ->
    (forall j, (j < k)%nat ->
               getTransactionReceipt provider txHash (lookups s + j) = Ok None) ->
    getTransactionReceipt provider txHash (lookups s + k) = Ok (Some receipt) ->
    exists s',
      awaitReceipt provider txHash s = (Returned (Some receipt), s')
      /\ trace s' = (trace s ++ pollTrace txHash (S k))%list
      /\ lookups s' = (lookups s + S k)%nat
      /\ store s' = store s
      /\ nextToast s' = nextToast s.
Proof.
  intros provider txHash s k receipt Hk Hnone Hfound.
  destruct (pollReceipt_found provider txHash k 101 0 (noteTimer s) receipt)
    as (s' & Hrun & Hcount); try lia; auto.
  exists s'. unfold awaitReceipt. rewrite Hrun. split; [reflexivity |].
  destruct (pollReceipt_frame _ _ _ _ _ _ _ Hrun) as (Hstore & Htoast & _).
  apply pollReceipt_rounds in Hrun; [| lia].
  destruct Hrun as (k' & events & Hk' & Hbound & Hshape & Htrace & Hcount').
  cbn [noteTimer logged trace lookups store nextToast] in *.
  assert (k' = S k) by lia. subst k'.
  rewrite <- Hshape, Htrace, <- app_assoc. repeat split; auto.
Qed.

Lemma useTransaction_submitted :
  forall env network signer txInputs options s gas response,
    walletSigner env = Some signer ->
    truthyAccount (walletAccount env) = true ->
    estimateOutcome env network signer txInputs s = Returned gas ->
    submissionResult env signer txInputs gas s = Ok response ->
    exists s1,
      useTransaction env network txInputs options s
      = afterSubmission env network (nextToast s) options
          (requestContract env signer txInputs) response s1
      /\ trace s1
         = (trace s ++ EvCreatePendingToast (nextToast s)
            :: estimateEvents txInputs s ++ [submissionEvent txInputs gas s])%list
      /\ store s1 = storeWithGas txInputs gas (store s)
      /\ nextToast s1 = S (nextToast s)
      /\ lookups s1 = lookups s.
Proof.
  intros env network signer txInputs options s gas response Hsigner Haccount
         Hgas Haccepted.
  rewrite (useTransaction_phases _ _ signer) by assumption.
  destruct (submit_accepted env network signer (nextToast s) txInputs options
              (snd (createPendingToast s)) gas response)
    as (s1 & Hsubmit & Htrace & Hstore & Hnext & Hlookups).
  { now rewrite (estimateOutcome_store_only _ _ _ _ _ s). }
  { now rewrite (submissionResult_store_only _ _ _ _ _ s). }
  rewrite Hsubmit. exists s1. split; [reflexivity |].
  rewrite Htrace, Hstore, Hnext, Hlookups.
  rewrite (estimateEvents_store_only _ _ s), (submissionEvent_store_only _ _ _ s)
    by reflexivity.
  cbn [createPendingToast snd trace store nextToast lookups].
  rewrite <- app_assoc. repeat split.
Qed.

Lemma afterSubmission_timeout :
  forall env network toastId options contract response s,
    (forall j, (j <= 100)%nat ->
               getTransactionReceipt (getProvider env network) (hash response)
                 (lookups s + j) = Ok None) ->
    exists s',
      afterSubmission env network toastId options contract response s
      = (Returned None, s')
      /\ trace s'
         = (trace s
            ++ EvUpdatePendingToast toastId
                 (getExplorerUrl env network (hash response))
                 (getTimeout env network + POLL_INTERVAL)
            :: pollTrace (hash response) 101
            ++ [EvUpdateToast toastId VariantWarning
                  (timeoutDescription (getTimeout env network))
                  (Some (getExplorerUrl env network (hash response)))
                  DEFAULT_TOAST_INFO_TIMEOUT])%list
      /\ lookups s' = (lookups s + 101)%nat
      /\ store s' = store s
      /\ nextToast s' = nextToast s.
Proof.
  intros env network toastId options contract response s Hnone.
  unfold afterSubmission, updatePendingToast, updateToast. cbn zeta.
  unfold bind at 1. unfold emit at 1. unfold bind at 1.
  destruct (awaitReceipt_exhausted (getProvider env network) (hash response)
              (logged [EvUpdatePendingToast toastId
                         (getExplorerUrl env network (hash response))
                         (getTimeout env network + POLL_INTERVAL)] s))
    as (s1 & Hrun & Htrace & Hlookups & Hstore & Hnext); [exact Hnone |].
  rewrite Hrun. unfold bind, emit, ret.
  eexists. split; [reflexivity |].
  cbn [logged trace store nextToast lookups] in *.
  rewrite Htrace, <- !app_assoc. repeat split; assumption.
Qed.

Lemma afterSubmission_confirmed :
  forall env network toastId options contract response s k receipt,
    (k <= 100)%nat ->
    (forall j, (j < k)%nat ->
               getTransactionReceipt (getProvider env network) (hash response)
                 (lookups s + j) = Ok None) ->
    getTransactionReceipt (getProvider env network) (hash response) (lookups s + k)
      = Ok (Some receipt) ->
    isFailure receipt = false ->
    (forall o callback,
        options = Some o -> onComplete o = Some callback ->
        callback receipt = Done) ->
    exists s',
      afterSubmission env network toastId options contract response s
      = (Returned (Some receipt), s')
      /\ trace s'
         = (trace s
            ++ EvUpdatePendingToast toastId
                 (getExplorerUrl env network (hash response))
                 (getTimeout env network + POLL_INTERVAL)
            :: pollTrace (hash response) (S k)
            ++ completionEvents options receipt
            ++ [EvPostTransactionSuccess receipt;
                EvUpdateToast toastId VariantSuccess
                  "Your transaction was successful"
                  (Some (getExplorerUrl env network (hash response)))
                  DEFAULT_TOAST_INFO_TIMEOUT])%list
      /\ lookups s' = (lookups s + S k)%nat
      /\ store s' = store s
      /\ nextToast s' = nextToast s.
Proof.
  intros env network toastId options contract response s k receipt Hk Hnone Hfound
         Hsuccess Hcallback.
  unfold afterSubmission, updatePendingToast, updateToast. cbn zeta.
  unfold bind at 1. unfold emit at 1. unfold bind at 1.
  destruct (awaitReceipt_found (getProvider env network) (hash response)
              (logged [EvUpdatePendingToast toastId
                         (getExplorerUrl env network (hash response))
                         (getTimeout env network + POLL_INTERVAL)] s) k receipt)
    as (s1 & Hrun & Htrace & Hlookups & Hstore & Hnext); try assumption.
  rewrite Hrun, Hsuccess. unfold bind, emit, ret, liftCompletion, throw.
  destruct options as [[[callback |] handler] |];
    [rewrite (Hcallback _ callback eq_refl eq_refl) | |];
    (eexists; split; [reflexivity |]);
    cbn [logged trace store nextToast lookups completionEvents] in *;
    rewrite Htrace, <- !app_assoc; repeat split; assumption.
Qed.

Lemma afterSubmission_reverted :
  forall env network toastId options contract response s k receipt,
    (k <= 100)%nat ->
    (forall j, (j < k)%nat ->
               getTransactionReceipt (getProvider env network) (hash response)
                 (lookups s + j) = Ok None) ->
    getTransactionReceipt (getProvider env network) (hash response) (lookups s + k)
      = Ok (Some receipt) ->
    isFailure receipt = true ->
    exists s',
      afterSubmission env network toastId options contract response s
      = (afterHandling
           (handlerOutcome (newError "Transaction reverted")
              (errorOptions network toastId options contract (Some receipt)
                 Reverted)), s')
      /\ trace s'
         = (trace s
            ++ EvUpdatePendingToast toastId
                 (getExplorerUrl env network (hash response))
                 (getTimeout env network + POLL_INTERVAL)
            :: pollTrace (hash response) (S k)
            ++ EvPostTransactionError
                 (extractError (newError "Transaction reverted")
                    (errorOptions network toastId options contract (Some receipt)
                       Reverted)) Reverted
            :: EvUpdateToast toastId VariantError "Transaction reverted"
                 (errorHref env
                    (errorOptions network toastId options contract (Some receipt)
                       Reverted))
                 DEFAULT_TOAST_ERROR_TIMEOUT
            :: handlerCalls (newError "Transaction reverted")
                 (errorOptions network toastId options contract (Some receipt)
                    Reverted))%list
      /\ lookups s' = (lookups s + S k)%nat
      /\ store s' = store s
      /\ nextToast s' = nextToast s.
Proof.
  intros env network toastId options contract response s k receipt Hk Hnone Hfound
         Hfailure.
  unfold afterSubmission, updatePendingToast, updateToast. cbn zeta.
  unfold bind at 1. unfold emit at 1. unfold bind at 1.
  destruct (awaitReceipt_found (getProvider env network) (hash response)
              (logged [EvUpdatePendingToast toastId
                         (getExplorerUrl env network (hash response))
                         (getTimeout env network + POLL_INTERVAL)] s) k receipt)
    as (s1 & Hrun & Htrace & Hlookups & Hstore & Hnext); try assumption.
  rewrite Hrun, Hfailure. unfold bind at 1. rewrite handleError_run.
  unfold handleErrorOutcome, handleErrorTrace. cbn zeta.
  rewrite revert_is_loud.
  change (messageText
            (errorReasonMessage env
               (extractError (newError "Transaction reverted")
                  (errorOptions network toastId options contract (Some receipt)
                     Reverted))
               (errorOptions network toastId options contract (Some receipt)
                  Reverted)))
    with "Transaction reverted".
  destruct (handlerOutcome _ _); unfold ret, afterHandling;
    (eexists; split; [reflexivity |]);
    cbn [logged trace store nextToast lookups eo_stage eo_toastId errorOptions] in *;
    rewrite Htrace, <- !app_assoc; repeat split; assumption.
Qed.

(** Two traces that differ in the bracketing of their segments. *)
Ltac same_trace :=
  repeat (rewrite <- ?app_assoc; cbn [app]); reflexivity.

(** X21. The timeout path, end to end.  When the estimate succeeds, the
    wallet accepts the submission and the provider has no receipt on any
    of 101 lookups, the invocation returns null after exactly these
    events: the toast is created, the estimate is asked for (unless the
    caller fixed the limit), the transaction is submitted, the toast is
    updated with the explorer link and the timeout of the network plus
    one poll interval, 101 rounds of timer and lookup follow, and the
    toast becomes a warning that names the timeout in seconds. *)
Theorem X21_no_receipt_in_101_lookups_ends_in_warning :
  forall env network signer txInputs options s gas response,
    walletSigner env = Some signer ->
    truthyAccount (walletAccount env) = true ->
    estimateOutcome env network signer txInputs s = Returned gas ->
    submissionResult env signer txInputs gas s = Ok response ->
    (forall j, (j <= 100)%nat ->
               getTransactionReceipt (getProvider env network) (hash response)
                 (lookups s + j) = Ok None) ->
    exists s',
      useTransaction env network txInputs options s = (Returned None, s')
      /\ trace s'
         = (trace s
            ++ EvCreatePendingToast (nextToast s)
            :: estimateEvents txInputs s
            ++ submissionEvent txInputs gas s
            :: EvUpdatePendingToast (nextToast s)
                 (getExplorerUrl env network (hash response))
                 (getTimeout env network + POLL_INTERVAL)
            :: pollTrace (hash response) 101
            ++ [EvUpdateToast (nextToast s) VariantWarning
                  (timeoutDescription (getTimeout env network))
                  (Some (getExplorerUrl env network (hash response)))
                  DEFAULT_TOAST_INFO_TIMEOUT])%list
      /\ lookups s' = (lookups s + 101)%nat
      /\ store s' = storeWithGas txInputs gas (store s).
Proof.
  intros env network signer txInputs options s gas response Hsigner Haccount
         Hgas Haccepted Hnone.
  destruct (useTransaction_submitted env network signer txInputs options s gas
              response Hsigner Haccount Hgas Haccepted)
    as (s1 & Hrun & Htrace1 & Hstore1 & Hnext1 & Hlookups1).
  destruct (afterSubmission_timeout env network (nextToast s) options
              (requestContract env signer txInputs) response s1)
    as (s' & Hafter & Htrace & Hlookups & Hstore & Hnext).
  { now rewrite Hlookups1. }
  exists s'. rewrite Hrun, Hafter, Htrace, Htrace1, Hlookups, Hlookups1, Hstore, Hstore1.
  repeat split. same_trace.
Qed.

Lemma X21_witness :
  exists s',
    useTransaction (Sample.env Sample.never) Sample.network (TxPopulated 0%nat)
      Sample.options Sample.initial = (Returned None, s')
    /\ trace s'
       = ([ EvCreatePendingToast 0%nat;
            EvProviderEstimateGas Sample.tx;
            EvSendTransaction (withGasLimit Sample.tx 150000);
            EvUpdatePendingToast 0%nat "https://explorer/tx/0xabc" 10250 ]
          ++ pollTrace "0xabc" 101
          ++ [ EvUpdateToast 0%nat VariantWarning
                 "Your transaction took longer than 10 seconds, click to view on etherscan"
                 (Some "https://explorer/tx/0xabc") 5000 ])%list
    /\ lookups s' = 101%nat.
Proof.
  destruct (X21_no_receipt_in_101_lookups_ends_in_warning
              (Sample.env Sample.never) Sample.network Sample.signer
              (TxPopulated 0%nat) Sample.options Sample.initial 150000
              {| hash := Sample.txHash |} eq_refl eq_refl eq_refl eq_refl
              (fun _ _ => eq_refl))
    as (s' & Hrun & Htrace & Hlookups & _).
  exists s'. split; [exact Hrun |]. split; [exact Htrace | exact Hlookups].
Defined.

(** X22. The success path, end to end.  When the estimate succeeds, the
    wallet accepts, the provider answers the lookup number [k] (of at
    most 101) with a receipt that is not a failure, and the completion
    callback, if there is one, returns, then the invocation returns that
    very receipt, after [k + 1] rounds of timer and lookup, the call of
    the callback, the success report and the success toast, in this
    order. *)
Theorem X22_confirmed_receipt_is_returned :
  forall env network signer txInputs options s gas response k receipt,
    walletSigner env = Some signer ->
    truthyAccount (walletAccount env) = true ->
    estimateOutcome env network signer txInputs s = Returned gas ->
    submissionResult env signer txInputs gas s = Ok response ->
    (k <= 100)%nat ->
    (forall j, (j < k)%nat ->
               getTransactionReceipt (getProvider env network) (hash response)
                 (lookups s + j) = Ok None) ->
    getTransactionReceipt (getProvider env network) (hash response) (lookups s + k)
      = Ok (Some receipt) ->
    isFailure receipt = false ->
    (forall o callback,
        options = Some o -> onComplete o = Some callback ->
        callback receipt = Done) ->
    exists s',
      useTransaction env network txInputs options s = (Returned (Some receipt), s')
      /\ trace s'
         = (trace s
            ++ EvCreatePendingToast (nextToast s)
            :: estimateEvents txInputs s
            ++ submissionEvent txInputs gas s
            :: EvUpdatePendingToast (nextToast s)
                 (getExplorerUrl env network (hash response))
                 (getTimeout env network + POLL_INTERVAL)
            :: pollTrace (hash response) (S k)
            ++ completionEvents options receipt
            ++ [EvPostTransactionSuccess receipt;
                EvUpdateToast (nextToast s) VariantSuccess
                  "Your transaction was successful"
                  (Some (getExplorerUrl env network (hash response)))
                  DEFAULT_TOAST_INFO_TIMEOUT])%list
      /\ lookups s' = (lookups s + S k)%nat
      /\ store s' = storeWithGas txInputs gas (store s).
Proof.
  intros env network signer txInputs options s gas response k receipt
         Hsigner Haccount Hgas Haccepted Hk Hnone Hfound Hsuccess Hcallback.
  destruct (useTransaction_submitted env network signer txInputs options s gas
              response Hsigner Haccount Hgas Haccepted)
    as (s1 & Hrun & Htrace1 & Hstore1 & Hnext1 & Hlookups1).
  destruct (afterSubmission_confirmed env network (nextToast s) options
              (requestContract env signer txInputs) response s1 k receipt)
    as (s' & Hafter & Htrace & Hlookups & Hstore & Hnext);
    rewrite ?Hlookups1; try assumption.
  exists s'. rewrite Hrun, Hafter, Htrace, Htrace1, Hlookups, Hlookups1, Hstore, Hstore1.
  repeat split. same_trace.
Qed.

Lemma X22_witness :
  exists s',
    useTransaction (Sample.env Sample.atOnce) Sample.network
      (TxMethod Scenario.pool "swap" ["1"] (Some 5)) Sample.options Sample.initial
    = (Returned (Some Sample.successReceipt), s')
    /\ trace s'
       = [ EvCreatePendingToast 0%nat;
           EvContractCall "swap" ["1"] 21000;
           EvUpdatePendingToast 0%nat "https://explorer/tx/0xabc" 10250;
           EvSetTimeout 250;
           EvGetTransactionReceipt "0xabc";
           EvPostTransactionSuccess Sample.successReceipt;
           EvUpdateToast 0%nat VariantSuccess "Your transaction was successful"
             (Some "https://explorer/tx/0xabc") 5000 ].
Proof.
  destruct (X22_confirmed_receipt_is_returned
              (Sample.env Sample.atOnce) Sample.network Sample.signer
              (TxMethod Scenario.pool "swap" ["1"] (Some 5)) Sample.options
              Sample.initial 21000 {| hash := Sample.txHash |} 0%nat
              Sample.successReceipt eq_refl eq_refl eq_refl eq_refl)
    as (s' & Hrun & Htrace & _).
  - lia.
  - intros j Hj. lia.
  - reflexivity.
  - reflexivity.
  - intros o callback Ho Hcallback. injection Ho as <-. discriminate Hcallback.
  - exists s'. split; [exact Hrun | exact Htrace].
Defined.

(** X23. The revert path, end to end.  When the receipt that the
    provider answers with is a failed one, the invocation reports the
    failure with the stage Reverted, shows the error toast with the
    message "Transaction reverted" and a link built from the hash in the
    receipt, and calls the error handler with that receipt.  It returns
    null, unless the handler throws. *)
Theorem X23_failed_receipt_is_reported_as_reverted :
  forall env network signer txInputs options s gas response k receipt,
    walletSigner env = Some signer ->
    truthyAccount (walletAccount env) = true ->
    estimateOutcome env network signer txInputs s = Returned gas ->
    submissionResult env signer txInputs gas s = Ok response ->
    (k <= 100)%nat ->
    (forall j, (j < k)%nat ->
               getTransactionReceipt (getProvider env network) (hash response)
                 (lookups s + j) = Ok None) ->
    getTransactionReceipt (getProvider env network) (hash response) (lookups s + k)
      = Ok (Some receipt) ->
    isFailure receipt = true ->
    let reverted :=
      errorOptions network (nextToast s) options
        (requestContract env signer txInputs) (Some receipt) Reverted in
    exists s',
      useTransaction env network txInputs options s
      = (afterHandling (handlerOutcome (newError "Transaction reverted") reverted),
         s')
      /\ trace s'
         = (trace s
            ++ EvCreatePendingToast (nextToast s)
            :: estimateEvents txInputs s
            ++ submissionEvent txInputs gas s
            :: EvUpdatePendingToast (nextToast s)
                 (getExplorerUrl env network (hash response))
                 (getTimeout env network + POLL_INTERVAL)
            :: pollTrace (hash response) (S k)
            ++ EvPostTransactionError
                 (extractError (newError "Transaction reverted") reverted) Reverted
            :: EvUpdateToast (nextToast s) VariantError "Transaction reverted"
                 (errorHref env reverted) DEFAULT_TOAST_ERROR_TIMEOUT
            :: handlerCalls (newError "Transaction reverted") reverted)%list
      /\ te_reason (extractError (newError "Transaction reverted") reverted) = None.
Proof.
  intros env network signer txInputs options s gas response k receipt
         Hsigner Haccount Hgas Haccepted Hk Hnone Hfound Hfailure reverted.
  destruct (useTransaction_submitted env network signer txInputs options s gas
              response Hsigner Haccount Hgas Haccepted)
    as (s1 & Hrun & Htrace1 & Hstore1 & Hnext1 & Hlookups1).
  destruct (afterSubmission_reverted env network (nextToast s) options
              (requestContract env signer txInputs) response s1 k receipt)
    as (s' & Hafter & Htrace & Hlookups & Hstore & Hnext);
    rewrite ?Hlookups1; try assumption.
  exists s'. rewrite Hrun, Hafter, Htrace, Htrace1.
  repeat split. same_trace.
Qed.

Lemma X23_witness :
  exists s',
    useTransaction (Sample.env Scenario.reverted) Sample.network (TxPopulated 0%nat)
      Sample.options Sample.initial
    = (Returned None, s')
    /\ trace s'
       = [ EvCreatePendingToast 0%nat;
           EvProviderEstimateGas Sample.tx;
           EvSendTransaction (withGasLimit Sample.tx 150000);
           EvUpdatePendingToast 0%nat "https://explorer/tx/0xabc" 10250;
           EvSetTimeout 250;
           EvGetTransactionReceipt "0xabc";
           EvPostTransactionError
             (extractError (newError "Transaction reverted")
                (errorOptions Sample.network 0%nat Sample.options None
                   (Some Scenario.revertedReceipt) Reverted)) Reverted;
           EvUpdateToast 0%nat VariantError "Transaction reverted"
             (Some "https://explorer/tx/0xabc") 10000;
           EvHandler
             (extractError (newError "Transaction reverted")
                (errorOptions Sample.network 0%nat Sample.options None
                   (Some Scenario.revertedReceipt) Reverted))
             (newError "Transaction reverted") (Some Scenario.revertedReceipt) ].
Proof.
  destruct (X23_failed_receipt_is_reported_as_reverted
              (Sample.env Scenario.reverted) Sample.network Sample.signer
              (TxPopulated 0%nat) Sample.options Sample.initial 150000
              {| hash := Sample.txHash |} 0%nat Scenario.revertedReceipt
              eq_refl eq_refl eq_refl eq_refl)
    as (s' & Hrun & Htrace & _).
  - lia.
  - intros j Hj. lia.
  - reflexivity.
  - reflexivity.
  - exists s'. split; [exact Hrun | exact Htrace].
Defined.

(** X25. A failed estimate, end to end.  The error that the estimator
    throws is handed as it is to [handleError], with the stage
    GasEstimate, the connected contract of the request and no receipt,
    in the state reached by creating the toast and asking for the
    estimate; the invocation then returns null, unless the handler
    throws.  The caller's transaction is not written to. *)
Theorem X25_failed_estimate_is_handed_to_handleError :
  forall env network signer txInputs options s e,
    walletSigner env = Some signer ->
    truthyAccount (walletAccount env) = true ->
    estimateOutcome env network signer txInputs s = Thrown e ->
    exists s1,
      trace s1
      = (trace s ++ EvCreatePendingToast (nextToast s)
         :: estimateEvents txInputs s)%list
      /\ store s1 = store s
      /\ nextToast s1 = S (nextToast s)
      /\ lookups s1 = lookups s
      /\ useTransaction env network txInputs options s
         = (afterHandling
              (fst (handleError env e
                      (errorOptions network (nextToast s) options
                         (requestContract env signer txInputs) None GasEstimate)
                      s1)),
            snd (handleError env e
                   (errorOptions network (nextToast s) options
                      (requestContract env signer txInputs) None GasEstimate)
                   s1)).
Proof.
  intros env network signer txInputs options s e Hsigner Haccount Hthrows.
  rewrite (useTransaction_phases _ _ signer) by assumption.
  rewrite (submit_unestimated _ _ _ _ _ _ _ e)
    by now rewrite (estimateOutcome_store_only _ _ _ _ _ s).
  exists (logged (estimateEvents txInputs (snd (createPendingToast s)))
            (snd (createPendingToast s))).
  repeat split;
    try (destruct (handleError _ _ _ _) as [[? | ? |] ?]; reflexivity);
    cbn [createPendingToast snd logged trace store nextToast lookups];
    rewrite ?(estimateEvents_store_only txInputs _ s) by reflexivity;
    same_trace.
Qed.

Lemma X25_witness :
  exists s1,
    trace s1 = [EvCreatePendingToast 0%nat; EvProviderEstimateGas Sample.tx]
    /\ fst (useTransaction Scenario.deafEnv Sample.network (TxPopulated 0%nat)
              Sample.options Sample.initial)
       = afterHandling
           (fst (handleError Scenario.deafEnv Scenario.rpcDown
                   (errorOptions Sample.network 0%nat Sample.options None None
                      GasEstimate) s1)).
Proof.
  destruct (X25_failed_estimate_is_handed_to_handleError Scenario.deafEnv
              Sample.network Sample.signer (TxPopulated 0%nat) Sample.options
              Sample.initial Scenario.rpcDown eq_refl eq_refl eq_refl)
    as (s1 & Htrace & _ & _ & _ & Hrun).
  exists s1. split; [exact Htrace |]. now rewrite Hrun.
Defined.

(** X26. A refusal of the wallet, end to end.  When the estimate
    succeeds and the submission throws, the error is handed as it is to
    [handleError], with the stage Wallet, the connected contract of the
    request and no receipt, in the state reached by creating the toast,
    asking for the estimate and submitting; the invocation then returns
    null, unless the handler throws.  On the raw path the gas limit
    stays assigned to the caller's transaction. *)
Theorem X26_wallet_refusal_is_handed_to_handleError :
  forall env network signer txInputs options s gas e,
    walletSigner env = Some signer ->
    truthyAccount (walletAccount env) = true ->
    estimateOutcome env network signer txInputs s = Returned gas ->
    submissionResult env signer txInputs gas s = Err e ->
    exists s1,
      trace s1
      = (trace s ++ EvCreatePendingToast (nextToast s)
         :: estimateEvents txInputs s ++ [submissionEvent txInputs gas s])%list
      /\ store s1 = storeWithGas txInputs gas (store s)
      /\ nextToast s1 = S (nextToast s)
      /\ lookups s1 = lookups s
      /\ useTransaction env network txInputs options s
         = (afterHandling
              (fst (handleError env e
                      (errorOptions network (nextToast s) options
                         (requestContract env signer txInputs) None Wallet) s1)),
            snd (handleError env e
                   (errorOptions network (nextToast s) options
                      (requestContract env signer txInputs) None Wallet) s1)).
Proof.
  intros env network signer txInputs options s gas e Hsigner Haccount Hgas Hrefused.
  rewrite (useTransaction_phases _ _ signer) by assumption.
  destruct (submit_rejected env network signer (nextToast s) txInputs options
              (snd (createPendingToast s)) gas e)
    as (s1 & Htrace & Hstore & Hnext & Hlookups & Hsubmit).
  { now rewrite (estimateOutcome_store_only _ _ _ _ _ s). }
  { now rewrite (submissionResult_store_only _ _ _ _ _ s). }
  exists s1. rewrite Hsubmit, Htrace, Hstore, Hnext, Hlookups.
  rewrite (estimateEvents_store_only _ _ s), (submissionEvent_store_only _ _ _ s)
    by reflexivity.
  cbn [createPendingToast snd trace store nextToast lookups].
  rewrite <- app_assoc.
  repeat split. destruct (handleError _ _ _ _) as [[? | ? |] ?]; reflexivity.
Qed.

Lemma X26_witness :
  exists s1,
    trace s1 = [ EvCreatePendingToast 0%nat;
                 EvProviderEstimateGas Sample.tx;
                 EvSendTransaction (withGasLimit Sample.tx 150000) ]
    /\ gasLimit (store s1 0%nat) = Some 150000
    /\ useTransaction Scenario.refusingEnv Sample.network (TxPopulated 0%nat)
         Sample.options Sample.initial
       = (Returned None, logged [EvCloseToast 0%nat] s1).
Proof.
  destruct (X26_wallet_refusal_is_handed_to_handleError Scenario.refusingEnv
              Sample.network Scenario.refusingSigner (TxPopulated 0%nat)
              Sample.options Sample.initial 150000 Sample.deniedError
              eq_refl eq_refl eq_refl eq_refl)
    as (s1 & Htrace & Hstore & _ & _ & Hrun).
  exists s1. split; [exact Htrace |]. split; [now rewrite Hstore |].
  rewrite Hrun. reflexivity.
Defined.

(** ** Callbacks that return *)






(** ** Submitting the same transaction object again *)

Lemma clampGas_idempotent :
  forall config gas,
    minGas config <= maxGas config ->
    clampGas config (clampGas config gas) = clampGas config gas.
Proof.
  intros config gas Hord.
  apply (clampGas_cases config (clampGas config gas)).
  now apply clampGas_range.
Qed.

(** X27. The gas limit that an invocation assigns to the caller's
    transaction object sticks to it.  A second invocation with the same
    object, on a network whose bounds are in order, asks for no
    estimate: it submits once, with the limit of the first invocation,
    whatever has happened to the transaction or to the gas market in
    between. *)
Theorem X27_resubmission_reuses_the_first_limit :
  forall env network signer txInputs tx options options' s gas out1 s1 out2 s2,
    walletSigner env = Some signer ->
    truthyAccount (walletAccount env) = true ->
    minGas (getNetworkConfig env network) <= maxGas (getNetworkConfig env network) ->
    rawTransactionOf txInputs = Some tx ->
    estimateOutcome env network signer txInputs s = Returned gas ->
    useTransaction env network txInputs options s = (out1, s1) ->
    useTransaction env network txInputs options' s1 = (out2, s2) ->
    exists events,
      trace s2 = (trace s1 ++ events)%list
      /\ countEvents isEstimate events = 0%nat
      /\ countEvents isSubmission events = 1%nat
      /\ countEvents (isSubmittedWithout txInputs gas) events = 0%nat
      /\ gasLimit (store s2 tx) = Some gas.
Proof.
  intros env network signer txInputs tx options options' s gas out1 s1 out2 s2
         Hsigner Haccount Hord Hraw Hestimate Hfirst Hsecond.
  assert (Hclamped : exists g, gas = clampGas (getNetworkConfig env network) g).
  { destruct txInputs; try discriminate Hraw; cbn [estimateOutcome] in Hestimate;
      (destruct (getRawTxGasLimit env network (getProvider env network) _ s)
         as [estimated s0] eqn:Hrun;
       cbn [fst] in Hestimate; subst estimated;
       exact (getRawTxGasLimit_clamps _ _ _ _ _ _ _ Hrun)). }
  assert (Hstored : gasLimit (store s1 tx) = Some gas).
  { events_facts Hfirst Hsigner Haccount.
    destruct (Hgas gas Hestimate) as (_ & _ & _ & Hstore).
    rewrite (Hstore tx Hraw). now rewrite updateStore_same. }
  assert (Hagain : estimateOutcome env network signer txInputs s1 = Returned gas).
  { destruct Hclamped as [g ->].
    destruct txInputs; try discriminate Hraw; injection Hraw as ->;
      cbn [estimateOutcome];
      rewrite (getRawTxGasLimit_explicit _ _ _ _ _ _ Hstored); cbn [fst];
      now rewrite clampGas_idempotent. }
  assert (Hnone : estimateEvents txInputs s1 = []).
  { destruct txInputs; try discriminate Hraw; injection Hraw as ->;
      cbn [estimateEvents]; now rewrite Hstored. }
  events_of Hsecond Hsigner Haccount.
  destruct (Hgas gas Hagain) as (Hsubmitted & Hwith & _ & Hstore).
  rewrite Hnone in Hexact.
  repeat split; try assumption.
  rewrite (Hstore tx Hraw). now rewrite updateStore_same.
Qed.

Lemma X27_witness :
  gasLimit (store Sample.initial 0%nat) = None
  /\ exists events,
       trace (snd (useTransaction (Sample.env Sample.atOnce) Sample.network
                     (TxPopulated 0%nat) Sample.options
                     (snd (useTransaction (Sample.env Sample.atOnce) Sample.network
                             (TxPopulated 0%nat) Sample.options Sample.initial))))
       = (trace (snd (useTransaction (Sample.env Sample.atOnce) Sample.network
                        (TxPopulated 0%nat) Sample.options Sample.initial))
          ++ events)%list
       /\ countEvents isEstimate events = 0%nat
       /\ countEvents isSubmission events = 1%nat
       /\ countEvents (isSubmittedWithout (TxPopulated 0%nat) 150000) events = 0%nat
       /\ gasLimit
            (store (snd (useTransaction (Sample.env Sample.atOnce) Sample.network
                           (TxPopulated 0%nat) Sample.options
                           (snd (useTransaction (Sample.env Sample.atOnce)
                                   Sample.network (TxPopulated 0%nat)
                                   Sample.options Sample.initial))))
               0%nat)
          = Some 150000.
Proof.
  split; [reflexivity |].
  apply (X27_resubmission_reuses_the_first_limit (Sample.env Sample.atOnce)
           Sample.network Sample.signer (TxPopulated 0%nat) 0%nat Sample.options
           Sample.options Sample.initial 150000
           (fst (useTransaction (Sample.env Sample.atOnce) Sample.network
                   (TxPopulated 0%nat) Sample.options Sample.initial))
           (snd (useTransaction (Sample.env Sample.atOnce) Sample.network
                   (TxPopulated 0%nat) Sample.options Sample.initial))
           (fst (useTransaction (Sample.env Sample.atOnce) Sample.network
                   (TxPopulated 0%nat) Sample.options
                   (snd (useTransaction (Sample.env Sample.atOnce) Sample.network
                           (TxPopulated 0%nat) Sample.options Sample.initial)))));
    try apply surjective_pairing; try reflexivity.
  vm_compute. discriminate.
Defined.
